(** * Service layer and record store of the rental-marketplace backend

    A shallow embedding of [utils/data_manager.py] and of the parts of
    [services/*.py] that carry the business rules: booking availability and
    pricing, review gating and aggregation, refunds, e-mail uniqueness.

    Python values are embedded as they are at run time: records are
    dictionaries from field names to JSON scalars, integers are unbounded,
    floats are IEEE binary64, strings are sequences of Unicode characters
    (held as UTF-8), exceptions are values of an error type.  The
    file is organised as the code is: one module per source file, the
    definitions first, the properties afterwards. *)

From Stdlib Require Import ZArith String Ascii List Bool Lia Sorted.
From Stdlib Require Import Floats.PrimFloat Floats.FloatOps Floats.SpecFloat.
From stdpp Require Import base option gmap strings list fin_maps pretty.

Open Scope Z_scope.
Set Warnings "-inexact-float".

(** ** Exceptions and results *)

(** The exception classes of [services/base_service.py] and the built-in ones
    the modelled code can raise.  [ValidationError], [NotFoundError] and
    [ConflictError] are siblings below [ServiceError]: an [except
    ValidationError] clause catches the first only. *)
Inductive exn : Type :=
| ValidationError (msg : string)
| NotFoundError (msg : string)
| ConflictError (msg : string)
| ServiceError (msg : string)
| KeyError (key : string)
| TypeError
| ValueError
| AttributeError
| OverflowError
| ZeroDivisionError
| Exception (msg : string).

Inductive result (A : Type) : Type :=
| Ok (a : A)
| Err (e : exn).
Arguments Ok {A} a.
Arguments Err {A} e.

#[global] Instance result_ret : MRet result := fun A a => Ok a.
#[global] Instance result_bind : MBind result := fun A B f m =>
  match m with
  | Ok a => f a
  | Err e => Err e
  end.
#[global] Instance result_fmap : FMap result := fun A B f m =>
  match m with
  | Ok a => Ok (f a)
  | Err e => Err e
  end.

Definition is_ok {A} (r : result A) : bool :=
  match r with Ok _ => true | Err _ => false end.

Definition isinstance_ValidationError (e : exn) : bool :=
  match e with ValidationError _ => true | _ => false end.

Definition isinstance_NotFoundError (e : exn) : bool :=
  match e with NotFoundError _ => true | _ => false end.

(** [d[key]] on an optional value: a missing key raises [KeyError]. *)
Definition require {A} (key : string) (o : option A) : result A :=
  match o with
  | Some a => Ok a
  | None => Err (KeyError key)
  end.

(** [mapM] for [result]: the first failure, in list order, is the one raised. *)
Fixpoint mapM_result {A B} (f : A → result B) (l : list A) : result (list B) :=
  match l with
  | [] => Ok []
  | x :: l' => y ← f x; ys ← mapM_result f l'; Ok (y :: ys)
  end.

(** ** Python numbers *)

Module Py.

(** [int] is unbounded, [float] is binary64. *)
Inductive num : Type :=
| NInt (z : Z)
| NFloat (f : float).

Definition Z2SF (z : Z) : spec_float :=
  match z with
  | Z0 => S754_zero false
  | Zpos p => S754_finite false p 0
  | Zneg p => S754_finite true p 0
  end.

(** [float(z)]: round to nearest even, [OverflowError] past the largest
    finite double. *)
Definition float_of_int (z : Z) : result float :=
  match binary_normalize prec emax z 0 false with
  | S754_infinity _ => Err OverflowError
  | sf => Ok (SF2Prim sf)
  end.

(** Exact comparison of a float with an integer, as [float.__eq__] and
    friends do it; [None] for NaN. *)
Definition float_cmp_int (f : float) (z : Z) : option comparison :=
  match Prim2SF f with
  | S754_nan => None
  | S754_infinity s => Some (if s then Lt else Gt)
  | S754_zero _ => Some (Z.compare 0 z)
  | S754_finite s m e =>
      let mz := if s then Zneg m else Zpos m in
      Some (if 0 <=? e then Z.compare (mz * 2 ^ e) z
            else Z.compare mz (z * 2 ^ (- e)))
  end.

Definition eqb (a b : num) : bool :=
  match a, b with
  | NInt x, NInt y => x =? y
  | NFloat x, NFloat y => PrimFloat.eqb x y
  | NFloat x, NInt y | NInt y, NFloat x =>
      match float_cmp_int x y with Some Eq => true | _ => false end
  end.

Definition ltb (a b : num) : bool :=
  match a, b with
  | NInt x, NInt y => x <? y
  | NFloat x, NFloat y => PrimFloat.ltb x y
  | NFloat x, NInt y =>
      match float_cmp_int x y with Some Lt => true | _ => false end
  | NInt x, NFloat y =>
      match float_cmp_int y x with Some Gt => true | _ => false end
  end.

Definition leb (a b : num) : bool :=
  match a, b with
  | NInt x, NInt y => x <=? y
  | NFloat x, NFloat y => PrimFloat.leb x y
  | NFloat x, NInt y =>
      match float_cmp_int x y with Some Lt | Some Eq => true | _ => false end
  | NInt x, NFloat y =>
      match float_cmp_int y x with Some Gt | Some Eq => true | _ => false end
  end.

Definition gtb (a b : num) : bool := ltb b a.
Definition geb (a b : num) : bool := leb b a.

(** [+], [-], [*]: integer arithmetic on two ints, float arithmetic as soon as
    one operand is a float (the int operand is converted first). *)
Definition arith (iop : Z → Z → Z) (fop : float → float → float)
    (a b : num) : result num :=
  match a, b with
  | NInt x, NInt y => Ok (NInt (iop x y))
  | NFloat x, NFloat y => Ok (NFloat (fop x y))
  | NInt x, NFloat y => x' ← float_of_int x; Ok (NFloat (fop x' y))
  | NFloat x, NInt y => y' ← float_of_int y; Ok (NFloat (fop x y'))
  end.

Definition add : num → num → result num := arith Z.add PrimFloat.add.
Definition sub : num → num → result num := arith Z.sub PrimFloat.sub.
Definition mul : num → num → result num := arith Z.mul PrimFloat.mul.

Definition neg (a : num) : num :=
  match a with
  | NInt x => NInt (- x)
  | NFloat x => NFloat (PrimFloat.opp x)
  end.

(** [a / b] on two ints: the correctly rounded quotient. *)
Definition int_true_divide (a b : Z) : result float :=
  if b =? 0 then Err ZeroDivisionError
  else match SFdiv prec emax (Z2SF a) (Z2SF b) with
       | S754_infinity _ => Err OverflowError
       | sf => Ok (SF2Prim sf)
       end.

Definition float_true_divide (a b : float) : result float :=
  if PrimFloat.eqb b PrimFloat.zero then Err ZeroDivisionError
  else Ok (PrimFloat.div a b).

Definition truediv (a b : num) : result num :=
  match a, b with
  | NInt x, NInt y => NFloat <$> int_true_divide x y
  | NFloat x, NFloat y => NFloat <$> float_true_divide x y
  | NInt x, NFloat y => x' ← float_of_int x; NFloat <$> float_true_divide x' y
  | NFloat x, NInt y => y' ← float_of_int y; NFloat <$> float_true_divide x y'
  end.

(** Nearest integer to [n / d], ties to even ([0 <= n], [0 < d]). *)
Definition round_half_even_div (n d : Z) : Z :=
  let q := n / d in
  match Z.compare (2 * (n mod d)) d with
  | Lt => q
  | Gt => q + 1
  | Eq => if Z.even q then q else q + 1
  end.

(** [round(f, 2)] on a float: the exact value of [f] is rounded to a multiple
    of 1/100, ties to even, and that decimal is read back as the nearest
    double.  NaN, infinities and zeros round to themselves. *)
Definition float_round2 (f : float) : float :=
  match Prim2SF f with
  | S754_finite s m e =>
      if 0 <=? e then f
      else
        let k := round_half_even_div (Zpos m * 100) (2 ^ (- e)) in
        let sk := match k with
                  | Zpos p => S754_finite s p 0
                  | _ => S754_zero s
                  end in
        SF2Prim (SFdiv prec emax sk (Z2SF 100))
  | _ => f
  end.

(** [round(x, 2)]: an int is returned unchanged. *)
Definition round2 (a : num) : num :=
  match a with
  | NInt z => NInt z
  | NFloat f => NFloat (float_round2 f)
  end.

(** [int(f)] on a float: truncation towards zero. *)
Definition int_of_float (f : float) : result Z :=
  match Prim2SF f with
  | S754_nan => Err ValueError
  | S754_infinity _ => Err OverflowError
  | S754_zero _ => Ok 0
  | S754_finite s m e =>
      let a := if 0 <=? e then Zpos m * 2 ^ e else Zpos m / 2 ^ (- e) in
      Ok (if s then - a else a)
  end.

(** ** Python strings

    A [str] is held as its UTF-8 bytes, one [ascii] a byte, a lone surrogate
    as the three bytes the same scheme gives it.  Equality, order,
    concatenation and [endswith] of two [str] are then those of the bytes.
    What goes by characters ([len], [strip], [lower], [capitalize], [int])
    cuts the bytes into characters first.  The character tables are those of
    Unicode 14.0.0, the ones of CPython 3.11. *)

Definition is_upper (c : ascii) : bool :=
  let n := N_of_ascii c in ((65 <=? n) && (n <=? 90))%N.
Definition is_lower (c : ascii) : bool :=
  let n := N_of_ascii c in ((97 <=? n) && (n <=? 122))%N.
Definition is_digit (c : ascii) : bool :=
  let n := N_of_ascii c in ((48 <=? n) && (n <=? 57))%N.
Definition is_alpha (c : ascii) : bool := is_upper c || is_lower c.

(** *** Characters *)

(** The bytes [10xxxxxx], which continue a character. *)
Definition is_continuation (c : ascii) : bool :=
  let n := N_of_ascii c in ((128 <=? n) && (n <? 192))%N.

(** The characters of [s], each as its bytes: a byte and the continuation
    bytes after it. *)
Fixpoint chars (s : string) : list string :=
  match s with
  | EmptyString => []
  | String c s' =>
      let continued := match s' with
                       | String c' _ => is_continuation c'
                       | EmptyString => false
                       end in
      match chars s' with
      | ch :: rest =>
          if continued then String c ch :: rest
          else String c EmptyString :: ch :: rest
      | [] => [String c EmptyString]
      end
  end.

Definition join (cs : list string) : string := foldr String.append EmptyString cs.

(** The bytes of code point [n]. *)
Definition encode (n : N) : string :=
  let byte (k : N) := ascii_of_N k in
  let continuation (k : N) := ascii_of_N (128 + k mod 64) in
  (if n <? 0x80 then String (byte n) EmptyString
   else if n <? 0x800 then
     String (byte (192 + n / 64)) (String (continuation n) EmptyString)
   else if n <? 0x10000 then
     String (byte (224 + n / 4096))
       (String (continuation (n / 64)) (String (continuation n) EmptyString))
   else
     String (byte (240 + n / 262144))
       (String (continuation (n / 4096))
          (String (continuation (n / 64))
             (String (continuation n) EmptyString))))%N.

(** The code point of character [ch]; [None] for bytes that are the encoding
    of no code point, which no [str] gives. *)
Definition code_point (ch : string) : option N :=
  match ch with
  | EmptyString => None
  | String c t =>
      let n0 := N_of_ascii c in
      let lead := (if n0 <? 128 then n0 else if n0 <? 224 then n0 mod 32
                   else if n0 <? 240 then n0 mod 16 else n0 mod 8)%N in
      let n := fold_left (λ acc b, acc * 64 + N_of_ascii b mod 64)%N
                 (list_ascii_of_string t) lead in
      if (n <=? 0x10FFFF)%N && String.eqb (encode n) ch then Some n else None
  end.

Definition in_ranges (ranges : list (N * N)) (n : N) : bool :=
  existsb (λ '(first, last), (first <=? n) && (n <=? last))%N ranges.

Definition image_in (table : list (N * N * N * N)) (n : N) : option N :=
  match List.find (λ '(first, last, step, _),
                     (first <=? n) && (n <=? last)
                     && ((n - first) mod step =? 0))%N table with
  | Some (first, _, _, image) => Some (image + (n - first))%N
  | None => None
  end.

(** *** Tables *)

(** The white space: the characters [str.isspace] holds of. *)
Definition whitespace : list (N * N) :=
  [(0x9, 0xD); (0x1C, 0x20); (0x85, 0x85); (0xA0, 0xA0); (0x1680, 0x1680);
   (0x2000, 0x200A); (0x2028, 0x2029); (0x202F, 0x202F); (0x205F, 0x205F);
   (0x3000, 0x3000)]%N.

(** The cased characters: the upper case, lower case and title case ones. *)
Definition cased : list (N * N) :=
  [(0x41, 0x5A); (0x61, 0x7A); (0xAA, 0xAA); (0xB5, 0xB5); (0xBA, 0xBA);
   (0xC0, 0xD6); (0xD8, 0xF6); (0xF8, 0x1BA); (0x1BC, 0x1BF); (0x1C4, 0x293);
   (0x295, 0x2B8); (0x2C0, 0x2C1); (0x2E0, 0x2E4); (0x345, 0x345);
   (0x370, 0x373); (0x376, 0x377); (0x37A, 0x37D); (0x37F, 0x37F);
   (0x386, 0x386); (0x388, 0x38A); (0x38C, 0x38C); (0x38E, 0x3A1);
   (0x3A3, 0x3F5); (0x3F7, 0x481); (0x48A, 0x52F); (0x531, 0x556);
   (0x560, 0x588); (0x10A0, 0x10C5); (0x10C7, 0x10C7); (0x10CD, 0x10CD);
   (0x10D0, 0x10FA); (0x10FD, 0x10FF); (0x13A0, 0x13F5); (0x13F8, 0x13FD);
   (0x1C80, 0x1C88); (0x1C90, 0x1CBA); (0x1CBD, 0x1CBF); (0x1D00, 0x1DBF);
   (0x1E00, 0x1F15); (0x1F18, 0x1F1D); (0x1F20, 0x1F45); (0x1F48, 0x1F4D);
   (0x1F50, 0x1F57); (0x1F59, 0x1F59); (0x1F5B, 0x1F5B); (0x1F5D, 0x1F5D);
   (0x1F5F, 0x1F7D); (0x1F80, 0x1FB4); (0x1FB6, 0x1FBC); (0x1FBE, 0x1FBE);
   (0x1FC2, 0x1FC4); (0x1FC6, 0x1FCC); (0x1FD0, 0x1FD3); (0x1FD6, 0x1FDB);
   (0x1FE0, 0x1FEC); (0x1FF2, 0x1FF4); (0x1FF6, 0x1FFC); (0x2071, 0x2071);
   (0x207F, 0x207F); (0x2090, 0x209C); (0x2102, 0x2102); (0x2107, 0x2107);
   (0x210A, 0x2113); (0x2115, 0x2115); (0x2119, 0x211D); (0x2124, 0x2124);
   (0x2126, 0x2126); (0x2128, 0x2128); (0x212A, 0x212D); (0x212F, 0x2134);
   (0x2139, 0x2139); (0x213C, 0x213F); (0x2145, 0x2149); (0x214E, 0x214E);
   (0x2160, 0x217F); (0x2183, 0x2184); (0x24B6, 0x24E9); (0x2C00, 0x2CE4);
   (0x2CEB, 0x2CEE); (0x2CF2, 0x2CF3); (0x2D00, 0x2D25); (0x2D27, 0x2D27);
   (0x2D2D, 0x2D2D); (0xA640, 0xA66D); (0xA680, 0xA69D); (0xA722, 0xA787);
   (0xA78B, 0xA78E); (0xA790, 0xA7CA); (0xA7D0, 0xA7D1); (0xA7D3, 0xA7D3);
   (0xA7D5, 0xA7D9); (0xA7F5, 0xA7F6); (0xA7F8, 0xA7FA); (0xAB30, 0xAB5A);
   (0xAB5C, 0xAB68); (0xAB70, 0xABBF); (0xFB00, 0xFB06); (0xFB13, 0xFB17);
   (0xFF21, 0xFF3A); (0xFF41, 0xFF5A); (0x10400, 0x1044F); (0x104B0, 0x104D3);
   (0x104D8, 0x104FB); (0x10570, 0x1057A); (0x1057C, 0x1058A);
   (0x1058C, 0x10592); (0x10594, 0x10595); (0x10597, 0x105A1);
   (0x105A3, 0x105B1); (0x105B3, 0x105B9); (0x105BB, 0x105BC);
   (0x10780, 0x10780); (0x10783, 0x10785); (0x10787, 0x107B0);
   (0x107B2, 0x107BA); (0x10C80, 0x10CB2); (0x10CC0, 0x10CF2);
   (0x118A0, 0x118DF); (0x16E40, 0x16E7F); (0x1D400, 0x1D454);
   (0x1D456, 0x1D49C); (0x1D49E, 0x1D49F); (0x1D4A2, 0x1D4A2);
   (0x1D4A5, 0x1D4A6); (0x1D4A9, 0x1D4AC); (0x1D4AE, 0x1D4B9);
   (0x1D4BB, 0x1D4BB); (0x1D4BD, 0x1D4C3); (0x1D4C5, 0x1D505);
   (0x1D507, 0x1D50A); (0x1D50D, 0x1D514); (0x1D516, 0x1D51C);
   (0x1D51E, 0x1D539); (0x1D53B, 0x1D53E); (0x1D540, 0x1D544);
   (0x1D546, 0x1D546); (0x1D54A, 0x1D550); (0x1D552, 0x1D6A5);
   (0x1D6A8, 0x1D6C0); (0x1D6C2, 0x1D6DA); (0x1D6DC, 0x1D6FA);
   (0x1D6FC, 0x1D714); (0x1D716, 0x1D734); (0x1D736, 0x1D74E);
   (0x1D750, 0x1D76E); (0x1D770, 0x1D788); (0x1D78A, 0x1D7A8);
   (0x1D7AA, 0x1D7C2); (0x1D7C4, 0x1D7CB); (0x1DF00, 0x1DF09);
   (0x1DF0B, 0x1DF1E); (0x1E900, 0x1E943); (0x1F130, 0x1F149);
   (0x1F150, 0x1F169); (0x1F170, 0x1F189)]%N.

(** The case-ignorable characters: marks, modifiers, format characters and
    the punctuation that occurs inside words. *)
Definition case_ignorable : list (N * N) :=
  [(0x27, 0x27); (0x2E, 0x2E); (0x3A, 0x3A); (0x5E, 0x5E); (0x60, 0x60);
   (0xA8, 0xA8); (0xAD, 0xAD); (0xAF, 0xAF); (0xB4, 0xB4); (0xB7, 0xB8);
   (0x2B0, 0x36F); (0x374, 0x375); (0x37A, 0x37A); (0x384, 0x385);
   (0x387, 0x387); (0x483, 0x489); (0x559, 0x559); (0x55F, 0x55F);
   (0x591, 0x5BD); (0x5BF, 0x5BF); (0x5C1, 0x5C2); (0x5C4, 0x5C5);
   (0x5C7, 0x5C7); (0x5F4, 0x5F4); (0x600, 0x605); (0x610, 0x61A);
   (0x61C, 0x61C); (0x640, 0x640); (0x64B, 0x65F); (0x670, 0x670);
   (0x6D6, 0x6DD); (0x6DF, 0x6E8); (0x6EA, 0x6ED); (0x70F, 0x70F);
   (0x711, 0x711); (0x730, 0x74A); (0x7A6, 0x7B0); (0x7EB, 0x7F5);
   (0x7FA, 0x7FA); (0x7FD, 0x7FD); (0x816, 0x82D); (0x859, 0x85B);
   (0x888, 0x888); (0x890, 0x891); (0x898, 0x89F); (0x8C9, 0x902);
   (0x93A, 0x93A); (0x93C, 0x93C); (0x941, 0x948); (0x94D, 0x94D);
   (0x951, 0x957); (0x962, 0x963); (0x971, 0x971); (0x981, 0x981);
   (0x9BC, 0x9BC); (0x9C1, 0x9C4); (0x9CD, 0x9CD); (0x9E2, 0x9E3);
   (0x9FE, 0x9FE); (0xA01, 0xA02); (0xA3C, 0xA3C); (0xA41, 0xA42);
   (0xA47, 0xA48); (0xA4B, 0xA4D); (0xA51, 0xA51); (0xA70, 0xA71);
   (0xA75, 0xA75); (0xA81, 0xA82); (0xABC, 0xABC); (0xAC1, 0xAC5);
   (0xAC7, 0xAC8); (0xACD, 0xACD); (0xAE2, 0xAE3); (0xAFA, 0xAFF);
   (0xB01, 0xB01); (0xB3C, 0xB3C); (0xB3F, 0xB3F); (0xB41, 0xB44);
   (0xB4D, 0xB4D); (0xB55, 0xB56); (0xB62, 0xB63); (0xB82, 0xB82);
   (0xBC0, 0xBC0); (0xBCD, 0xBCD); (0xC00, 0xC00); (0xC04, 0xC04);
   (0xC3C, 0xC3C); (0xC3E, 0xC40); (0xC46, 0xC48); (0xC4A, 0xC4D);
   (0xC55, 0xC56); (0xC62, 0xC63); (0xC81, 0xC81); (0xCBC, 0xCBC);
   (0xCBF, 0xCBF); (0xCC6, 0xCC6); (0xCCC, 0xCCD); (0xCE2, 0xCE3);
   (0xD00, 0xD01); (0xD3B, 0xD3C); (0xD41, 0xD44); (0xD4D, 0xD4D);
   (0xD62, 0xD63); (0xD81, 0xD81); (0xDCA, 0xDCA); (0xDD2, 0xDD4);
   (0xDD6, 0xDD6); (0xE31, 0xE31); (0xE34, 0xE3A); (0xE46, 0xE4E);
   (0xEB1, 0xEB1); (0xEB4, 0xEBC); (0xEC6, 0xEC6); (0xEC8, 0xECD);
   (0xF18, 0xF19); (0xF35, 0xF35); (0xF37, 0xF37); (0xF39, 0xF39);
   (0xF71, 0xF7E); (0xF80, 0xF84); (0xF86, 0xF87); (0xF8D, 0xF97);
   (0xF99, 0xFBC); (0xFC6, 0xFC6); (0x102D, 0x1030); (0x1032, 0x1037);
   (0x1039, 0x103A); (0x103D, 0x103E); (0x1058, 0x1059); (0x105E, 0x1060);
   (0x1071, 0x1074); (0x1082, 0x1082); (0x1085, 0x1086); (0x108D, 0x108D);
   (0x109D, 0x109D); (0x10FC, 0x10FC); (0x135D, 0x135F); (0x1712, 0x1714);
   (0x1732, 0x1733); (0x1752, 0x1753); (0x1772, 0x1773); (0x17B4, 0x17B5);
   (0x17B7, 0x17BD); (0x17C6, 0x17C6); (0x17C9, 0x17D3); (0x17D7, 0x17D7);
   (0x17DD, 0x17DD); (0x180B, 0x180F); (0x1843, 0x1843); (0x1885, 0x1886);
   (0x18A9, 0x18A9); (0x1920, 0x1922); (0x1927, 0x1928); (0x1932, 0x1932);
   (0x1939, 0x193B); (0x1A17, 0x1A18); (0x1A1B, 0x1A1B); (0x1A56, 0x1A56);
   (0x1A58, 0x1A5E); (0x1A60, 0x1A60); (0x1A62, 0x1A62); (0x1A65, 0x1A6C);
   (0x1A73, 0x1A7C); (0x1A7F, 0x1A7F); (0x1AA7, 0x1AA7); (0x1AB0, 0x1ACE);
   (0x1B00, 0x1B03); (0x1B34, 0x1B34); (0x1B36, 0x1B3A); (0x1B3C, 0x1B3C);
   (0x1B42, 0x1B42); (0x1B6B, 0x1B73); (0x1B80, 0x1B81); (0x1BA2, 0x1BA5);
   (0x1BA8, 0x1BA9); (0x1BAB, 0x1BAD); (0x1BE6, 0x1BE6); (0x1BE8, 0x1BE9);
   (0x1BED, 0x1BED); (0x1BEF, 0x1BF1); (0x1C2C, 0x1C33); (0x1C36, 0x1C37);
   (0x1C78, 0x1C7D); (0x1CD0, 0x1CD2); (0x1CD4, 0x1CE0); (0x1CE2, 0x1CE8);
   (0x1CED, 0x1CED); (0x1CF4, 0x1CF4); (0x1CF8, 0x1CF9); (0x1D2C, 0x1D6A);
   (0x1D78, 0x1D78); (0x1D9B, 0x1DFF); (0x1FBD, 0x1FBD); (0x1FBF, 0x1FC1);
   (0x1FCD, 0x1FCF); (0x1FDD, 0x1FDF); (0x1FED, 0x1FEF); (0x1FFD, 0x1FFE);
   (0x200B, 0x200F); (0x2018, 0x2019); (0x2024, 0x2024); (0x2027, 0x2027);
   (0x202A, 0x202E); (0x2060, 0x2064); (0x2066, 0x206F); (0x2071, 0x2071);
   (0x207F, 0x207F); (0x2090, 0x209C); (0x20D0, 0x20F0); (0x2C7C, 0x2C7D);
   (0x2CEF, 0x2CF1); (0x2D6F, 0x2D6F); (0x2D7F, 0x2D7F); (0x2DE0, 0x2DFF);
   (0x2E2F, 0x2E2F); (0x3005, 0x3005); (0x302A, 0x302D); (0x3031, 0x3035);
   (0x303B, 0x303B); (0x3099, 0x309E); (0x30FC, 0x30FE); (0xA015, 0xA015);
   (0xA4F8, 0xA4FD); (0xA60C, 0xA60C); (0xA66F, 0xA672); (0xA674, 0xA67D);
   (0xA67F, 0xA67F); (0xA69C, 0xA69F); (0xA6F0, 0xA6F1); (0xA700, 0xA721);
   (0xA770, 0xA770); (0xA788, 0xA78A); (0xA7F2, 0xA7F4); (0xA7F8, 0xA7F9);
   (0xA802, 0xA802); (0xA806, 0xA806); (0xA80B, 0xA80B); (0xA825, 0xA826);
   (0xA82C, 0xA82C); (0xA8C4, 0xA8C5); (0xA8E0, 0xA8F1); (0xA8FF, 0xA8FF);
   (0xA926, 0xA92D); (0xA947, 0xA951); (0xA980, 0xA982); (0xA9B3, 0xA9B3);
   (0xA9B6, 0xA9B9); (0xA9BC, 0xA9BD); (0xA9CF, 0xA9CF); (0xA9E5, 0xA9E6);
   (0xAA29, 0xAA2E); (0xAA31, 0xAA32); (0xAA35, 0xAA36); (0xAA43, 0xAA43);
   (0xAA4C, 0xAA4C); (0xAA70, 0xAA70); (0xAA7C, 0xAA7C); (0xAAB0, 0xAAB0);
   (0xAAB2, 0xAAB4); (0xAAB7, 0xAAB8); (0xAABE, 0xAABF); (0xAAC1, 0xAAC1);
   (0xAADD, 0xAADD); (0xAAEC, 0xAAED); (0xAAF3, 0xAAF4); (0xAAF6, 0xAAF6);
   (0xAB5B, 0xAB5F); (0xAB69, 0xAB6B); (0xABE5, 0xABE5); (0xABE8, 0xABE8);
   (0xABED, 0xABED); (0xFB1E, 0xFB1E); (0xFBB2, 0xFBC2); (0xFE00, 0xFE0F);
   (0xFE13, 0xFE13); (0xFE20, 0xFE2F); (0xFE52, 0xFE52); (0xFE55, 0xFE55);
   (0xFEFF, 0xFEFF); (0xFF07, 0xFF07); (0xFF0E, 0xFF0E); (0xFF1A, 0xFF1A);
   (0xFF3E, 0xFF3E); (0xFF40, 0xFF40); (0xFF70, 0xFF70); (0xFF9E, 0xFF9F);
   (0xFFE3, 0xFFE3); (0xFFF9, 0xFFFB); (0x101FD, 0x101FD); (0x102E0, 0x102E0);
   (0x10376, 0x1037A); (0x10780, 0x10785); (0x10787, 0x107B0);
   (0x107B2, 0x107BA); (0x10A01, 0x10A03); (0x10A05, 0x10A06);
   (0x10A0C, 0x10A0F); (0x10A38, 0x10A3A); (0x10A3F, 0x10A3F);
   (0x10AE5, 0x10AE6); (0x10D24, 0x10D27); (0x10EAB, 0x10EAC);
   (0x10F46, 0x10F50); (0x10F82, 0x10F85); (0x11001, 0x11001);
   (0x11038, 0x11046); (0x11070, 0x11070); (0x11073, 0x11074);
   (0x1107F, 0x11081); (0x110B3, 0x110B6); (0x110B9, 0x110BA);
   (0x110BD, 0x110BD); (0x110C2, 0x110C2); (0x110CD, 0x110CD);
   (0x11100, 0x11102); (0x11127, 0x1112B); (0x1112D, 0x11134);
   (0x11173, 0x11173); (0x11180, 0x11181); (0x111B6, 0x111BE);
   (0x111C9, 0x111CC); (0x111CF, 0x111CF); (0x1122F, 0x11231);
   (0x11234, 0x11234); (0x11236, 0x11237); (0x1123E, 0x1123E);
   (0x112DF, 0x112DF); (0x112E3, 0x112EA); (0x11300, 0x11301);
   (0x1133B, 0x1133C); (0x11340, 0x11340); (0x11366, 0x1136C);
   (0x11370, 0x11374); (0x11438, 0x1143F); (0x11442, 0x11444);
   (0x11446, 0x11446); (0x1145E, 0x1145E); (0x114B3, 0x114B8);
   (0x114BA, 0x114BA); (0x114BF, 0x114C0); (0x114C2, 0x114C3);
   (0x115B2, 0x115B5); (0x115BC, 0x115BD); (0x115BF, 0x115C0);
   (0x115DC, 0x115DD); (0x11633, 0x1163A); (0x1163D, 0x1163D);
   (0x1163F, 0x11640); (0x116AB, 0x116AB); (0x116AD, 0x116AD);
   (0x116B0, 0x116B5); (0x116B7, 0x116B7); (0x1171D, 0x1171F);
   (0x11722, 0x11725); (0x11727, 0x1172B); (0x1182F, 0x11837);
   (0x11839, 0x1183A); (0x1193B, 0x1193C); (0x1193E, 0x1193E);
   (0x11943, 0x11943); (0x119D4, 0x119D7); (0x119DA, 0x119DB);
   (0x119E0, 0x119E0); (0x11A01, 0x11A0A); (0x11A33, 0x11A38);
   (0x11A3B, 0x11A3E); (0x11A47, 0x11A47); (0x11A51, 0x11A56);
   (0x11A59, 0x11A5B); (0x11A8A, 0x11A96); (0x11A98, 0x11A99);
   (0x11C30, 0x11C36); (0x11C38, 0x11C3D); (0x11C3F, 0x11C3F);
   (0x11C92, 0x11CA7); (0x11CAA, 0x11CB0); (0x11CB2, 0x11CB3);
   (0x11CB5, 0x11CB6); (0x11D31, 0x11D36); (0x11D3A, 0x11D3A);
   (0x11D3C, 0x11D3D); (0x11D3F, 0x11D45); (0x11D47, 0x11D47);
   (0x11D90, 0x11D91); (0x11D95, 0x11D95); (0x11D97, 0x11D97);
   (0x11EF3, 0x11EF4); (0x13430, 0x13438); (0x16AF0, 0x16AF4);
   (0x16B30, 0x16B36); (0x16B40, 0x16B43); (0x16F4F, 0x16F4F);
   (0x16F8F, 0x16F9F); (0x16FE0, 0x16FE1); (0x16FE3, 0x16FE4);
   (0x1AFF0, 0x1AFF3); (0x1AFF5, 0x1AFFB); (0x1AFFD, 0x1AFFE);
   (0x1BC9D, 0x1BC9E); (0x1BCA0, 0x1BCA3); (0x1CF00, 0x1CF2D);
   (0x1CF30, 0x1CF46); (0x1D167, 0x1D169); (0x1D173, 0x1D182);
   (0x1D185, 0x1D18B); (0x1D1AA, 0x1D1AD); (0x1D242, 0x1D244);
   (0x1DA00, 0x1DA36); (0x1DA3B, 0x1DA6C); (0x1DA75, 0x1DA75);
   (0x1DA84, 0x1DA84); (0x1DA9B, 0x1DA9F); (0x1DAA1, 0x1DAAF);
   (0x1E000, 0x1E006); (0x1E008, 0x1E018); (0x1E01B, 0x1E021);
   (0x1E023, 0x1E024); (0x1E026, 0x1E02A); (0x1E130, 0x1E13D);
   (0x1E2AE, 0x1E2AE); (0x1E2EC, 0x1E2EF); (0x1E8D0, 0x1E8D6);
   (0x1E944, 0x1E94B); (0x1F3FB, 0x1F3FF); (0xE0001, 0xE0001);
   (0xE0020, 0xE007F); (0xE0100, 0xE01EF)]%N.

(** The lower case of the characters that have one of a single character:
    [(first, last, step, image)] stands for [first], [first + step], ...,
    [last], mapped to [image], [image + step], ... *)
Definition lowercase : list (N * N * N * N) :=
  [(0x41, 0x5A, 1, 0x61); (0xC0, 0xD6, 1, 0xE0); (0xD8, 0xDE, 1, 0xF8);
   (0x100, 0x12E, 2, 0x101); (0x132, 0x136, 2, 0x133);
   (0x139, 0x147, 2, 0x13A); (0x14A, 0x176, 2, 0x14B);
   (0x178, 0x178, 1, 0xFF); (0x179, 0x17D, 2, 0x17A);
   (0x181, 0x181, 1, 0x253); (0x182, 0x184, 2, 0x183);
   (0x186, 0x186, 1, 0x254); (0x187, 0x187, 1, 0x188);
   (0x189, 0x18A, 1, 0x256); (0x18B, 0x18B, 1, 0x18C);
   (0x18E, 0x18E, 1, 0x1DD); (0x18F, 0x18F, 1, 0x259);
   (0x190, 0x190, 1, 0x25B); (0x191, 0x191, 1, 0x192);
   (0x193, 0x193, 1, 0x260); (0x194, 0x194, 1, 0x263);
   (0x196, 0x196, 1, 0x269); (0x197, 0x197, 1, 0x268);
   (0x198, 0x198, 1, 0x199); (0x19C, 0x19C, 1, 0x26F);
   (0x19D, 0x19D, 1, 0x272); (0x19F, 0x19F, 1, 0x275);
   (0x1A0, 0x1A4, 2, 0x1A1); (0x1A6, 0x1A6, 1, 0x280);
   (0x1A7, 0x1A7, 1, 0x1A8); (0x1A9, 0x1A9, 1, 0x283);
   (0x1AC, 0x1AC, 1, 0x1AD); (0x1AE, 0x1AE, 1, 0x288);
   (0x1AF, 0x1AF, 1, 0x1B0); (0x1B1, 0x1B2, 1, 0x28A);
   (0x1B3, 0x1B5, 2, 0x1B4); (0x1B7, 0x1B7, 1, 0x292);
   (0x1B8, 0x1B8, 1, 0x1B9); (0x1BC, 0x1BC, 1, 0x1BD);
   (0x1C4, 0x1C4, 1, 0x1C6); (0x1C5, 0x1C5, 1, 0x1C6);
   (0x1C7, 0x1C7, 1, 0x1C9); (0x1C8, 0x1C8, 1, 0x1C9);
   (0x1CA, 0x1CA, 1, 0x1CC); (0x1CB, 0x1DB, 2, 0x1CC);
   (0x1DE, 0x1EE, 2, 0x1DF); (0x1F1, 0x1F1, 1, 0x1F3);
   (0x1F2, 0x1F4, 2, 0x1F3); (0x1F6, 0x1F6, 1, 0x195);
   (0x1F7, 0x1F7, 1, 0x1BF); (0x1F8, 0x21E, 2, 0x1F9);
   (0x220, 0x220, 1, 0x19E); (0x222, 0x232, 2, 0x223);
   (0x23A, 0x23A, 1, 0x2C65); (0x23B, 0x23B, 1, 0x23C);
   (0x23D, 0x23D, 1, 0x19A); (0x23E, 0x23E, 1, 0x2C66);
   (0x241, 0x241, 1, 0x242); (0x243, 0x243, 1, 0x180);
   (0x244, 0x244, 1, 0x289); (0x245, 0x245, 1, 0x28C);
   (0x246, 0x24E, 2, 0x247); (0x370, 0x372, 2, 0x371);
   (0x376, 0x376, 1, 0x377); (0x37F, 0x37F, 1, 0x3F3);
   (0x386, 0x386, 1, 0x3AC); (0x388, 0x38A, 1, 0x3AD);
   (0x38C, 0x38C, 1, 0x3CC); (0x38E, 0x38F, 1, 0x3CD);
   (0x391, 0x3A1, 1, 0x3B1); (0x3A3, 0x3AB, 1, 0x3C3);
   (0x3CF, 0x3CF, 1, 0x3D7); (0x3D8, 0x3EE, 2, 0x3D9);
   (0x3F4, 0x3F4, 1, 0x3B8); (0x3F7, 0x3F7, 1, 0x3F8);
   (0x3F9, 0x3F9, 1, 0x3F2); (0x3FA, 0x3FA, 1, 0x3FB);
   (0x3FD, 0x3FF, 1, 0x37B); (0x400, 0x40F, 1, 0x450);
   (0x410, 0x42F, 1, 0x430); (0x460, 0x480, 2, 0x461);
   (0x48A, 0x4BE, 2, 0x48B); (0x4C0, 0x4C0, 1, 0x4CF);
   (0x4C1, 0x4CD, 2, 0x4C2); (0x4D0, 0x52E, 2, 0x4D1);
   (0x531, 0x556, 1, 0x561); (0x10A0, 0x10C5, 1, 0x2D00);
   (0x10C7, 0x10C7, 1, 0x2D27); (0x10CD, 0x10CD, 1, 0x2D2D);
   (0x13A0, 0x13EF, 1, 0xAB70); (0x13F0, 0x13F5, 1, 0x13F8);
   (0x1C90, 0x1CBA, 1, 0x10D0); (0x1CBD, 0x1CBF, 1, 0x10FD);
   (0x1E00, 0x1E94, 2, 0x1E01); (0x1E9E, 0x1E9E, 1, 0xDF);
   (0x1EA0, 0x1EFE, 2, 0x1EA1); (0x1F08, 0x1F0F, 1, 0x1F00);
   (0x1F18, 0x1F1D, 1, 0x1F10); (0x1F28, 0x1F2F, 1, 0x1F20);
   (0x1F38, 0x1F3F, 1, 0x1F30); (0x1F48, 0x1F4D, 1, 0x1F40);
   (0x1F59, 0x1F5F, 2, 0x1F51); (0x1F68, 0x1F6F, 1, 0x1F60);
   (0x1F88, 0x1F8F, 1, 0x1F80); (0x1F98, 0x1F9F, 1, 0x1F90);
   (0x1FA8, 0x1FAF, 1, 0x1FA0); (0x1FB8, 0x1FB9, 1, 0x1FB0);
   (0x1FBA, 0x1FBB, 1, 0x1F70); (0x1FBC, 0x1FBC, 1, 0x1FB3);
   (0x1FC8, 0x1FCB, 1, 0x1F72); (0x1FCC, 0x1FCC, 1, 0x1FC3);
   (0x1FD8, 0x1FD9, 1, 0x1FD0); (0x1FDA, 0x1FDB, 1, 0x1F76);
   (0x1FE8, 0x1FE9, 1, 0x1FE0); (0x1FEA, 0x1FEB, 1, 0x1F7A);
   (0x1FEC, 0x1FEC, 1, 0x1FE5); (0x1FF8, 0x1FF9, 1, 0x1F78);
   (0x1FFA, 0x1FFB, 1, 0x1F7C); (0x1FFC, 0x1FFC, 1, 0x1FF3);
   (0x2126, 0x2126, 1, 0x3C9); (0x212A, 0x212A, 1, 0x6B);
   (0x212B, 0x212B, 1, 0xE5); (0x2132, 0x2132, 1, 0x214E);
   (0x2160, 0x216F, 1, 0x2170); (0x2183, 0x2183, 1, 0x2184);
   (0x24B6, 0x24CF, 1, 0x24D0); (0x2C00, 0x2C2F, 1, 0x2C30);
   (0x2C60, 0x2C60, 1, 0x2C61); (0x2C62, 0x2C62, 1, 0x26B);
   (0x2C63, 0x2C63, 1, 0x1D7D); (0x2C64, 0x2C64, 1, 0x27D);
   (0x2C67, 0x2C6B, 2, 0x2C68); (0x2C6D, 0x2C6D, 1, 0x251);
   (0x2C6E, 0x2C6E, 1, 0x271); (0x2C6F, 0x2C6F, 1, 0x250);
   (0x2C70, 0x2C70, 1, 0x252); (0x2C72, 0x2C72, 1, 0x2C73);
   (0x2C75, 0x2C75, 1, 0x2C76); (0x2C7E, 0x2C7F, 1, 0x23F);
   (0x2C80, 0x2CE2, 2, 0x2C81); (0x2CEB, 0x2CED, 2, 0x2CEC);
   (0x2CF2, 0x2CF2, 1, 0x2CF3); (0xA640, 0xA66C, 2, 0xA641);
   (0xA680, 0xA69A, 2, 0xA681); (0xA722, 0xA72E, 2, 0xA723);
   (0xA732, 0xA76E, 2, 0xA733); (0xA779, 0xA77B, 2, 0xA77A);
   (0xA77D, 0xA77D, 1, 0x1D79); (0xA77E, 0xA786, 2, 0xA77F);
   (0xA78B, 0xA78B, 1, 0xA78C); (0xA78D, 0xA78D, 1, 0x265);
   (0xA790, 0xA792, 2, 0xA791); (0xA796, 0xA7A8, 2, 0xA797);
   (0xA7AA, 0xA7AA, 1, 0x266); (0xA7AB, 0xA7AB, 1, 0x25C);
   (0xA7AC, 0xA7AC, 1, 0x261); (0xA7AD, 0xA7AD, 1, 0x26C);
   (0xA7AE, 0xA7AE, 1, 0x26A); (0xA7B0, 0xA7B0, 1, 0x29E);
   (0xA7B1, 0xA7B1, 1, 0x287); (0xA7B2, 0xA7B2, 1, 0x29D);
   (0xA7B3, 0xA7B3, 1, 0xAB53); (0xA7B4, 0xA7C2, 2, 0xA7B5);
   (0xA7C4, 0xA7C4, 1, 0xA794); (0xA7C5, 0xA7C5, 1, 0x282);
   (0xA7C6, 0xA7C6, 1, 0x1D8E); (0xA7C7, 0xA7C9, 2, 0xA7C8);
   (0xA7D0, 0xA7D0, 1, 0xA7D1); (0xA7D6, 0xA7D8, 2, 0xA7D7);
   (0xA7F5, 0xA7F5, 1, 0xA7F6); (0xFF21, 0xFF3A, 1, 0xFF41);
   (0x10400, 0x10427, 1, 0x10428); (0x104B0, 0x104D3, 1, 0x104D8);
   (0x10570, 0x1057A, 1, 0x10597); (0x1057C, 0x1058A, 1, 0x105A3);
   (0x1058C, 0x10592, 1, 0x105B3); (0x10594, 0x10595, 1, 0x105BB);
   (0x10C80, 0x10CB2, 1, 0x10CC0); (0x118A0, 0x118BF, 1, 0x118C0);
   (0x16E40, 0x16E5F, 1, 0x16E60); (0x1E900, 0x1E921, 1, 0x1E922)]%N.

(** The title case of the characters that have one of a single character. *)
Definition titlecase : list (N * N * N * N) :=
  [(0x61, 0x7A, 1, 0x41); (0xB5, 0xB5, 1, 0x39C); (0xE0, 0xF6, 1, 0xC0);
   (0xF8, 0xFE, 1, 0xD8); (0xFF, 0xFF, 1, 0x178); (0x101, 0x12F, 2, 0x100);
   (0x131, 0x131, 1, 0x49); (0x133, 0x137, 2, 0x132);
   (0x13A, 0x148, 2, 0x139); (0x14B, 0x177, 2, 0x14A);
   (0x17A, 0x17E, 2, 0x179); (0x17F, 0x17F, 1, 0x53);
   (0x180, 0x180, 1, 0x243); (0x183, 0x185, 2, 0x182);
   (0x188, 0x188, 1, 0x187); (0x18C, 0x18C, 1, 0x18B);
   (0x192, 0x192, 1, 0x191); (0x195, 0x195, 1, 0x1F6);
   (0x199, 0x199, 1, 0x198); (0x19A, 0x19A, 1, 0x23D);
   (0x19E, 0x19E, 1, 0x220); (0x1A1, 0x1A5, 2, 0x1A0);
   (0x1A8, 0x1A8, 1, 0x1A7); (0x1AD, 0x1AD, 1, 0x1AC);
   (0x1B0, 0x1B0, 1, 0x1AF); (0x1B4, 0x1B6, 2, 0x1B3);
   (0x1B9, 0x1B9, 1, 0x1B8); (0x1BD, 0x1BD, 1, 0x1BC);
   (0x1BF, 0x1BF, 1, 0x1F7); (0x1C4, 0x1C4, 1, 0x1C5);
   (0x1C6, 0x1C6, 1, 0x1C5); (0x1C7, 0x1C7, 1, 0x1C8);
   (0x1C9, 0x1C9, 1, 0x1C8); (0x1CA, 0x1CA, 1, 0x1CB);
   (0x1CC, 0x1DC, 2, 0x1CB); (0x1DD, 0x1DD, 1, 0x18E);
   (0x1DF, 0x1EF, 2, 0x1DE); (0x1F1, 0x1F1, 1, 0x1F2);
   (0x1F3, 0x1F5, 2, 0x1F2); (0x1F9, 0x21F, 2, 0x1F8);
   (0x223, 0x233, 2, 0x222); (0x23C, 0x23C, 1, 0x23B);
   (0x23F, 0x240, 1, 0x2C7E); (0x242, 0x242, 1, 0x241);
   (0x247, 0x24F, 2, 0x246); (0x250, 0x250, 1, 0x2C6F);
   (0x251, 0x251, 1, 0x2C6D); (0x252, 0x252, 1, 0x2C70);
   (0x253, 0x253, 1, 0x181); (0x254, 0x254, 1, 0x186);
   (0x256, 0x257, 1, 0x189); (0x259, 0x259, 1, 0x18F);
   (0x25B, 0x25B, 1, 0x190); (0x25C, 0x25C, 1, 0xA7AB);
   (0x260, 0x260, 1, 0x193); (0x261, 0x261, 1, 0xA7AC);
   (0x263, 0x263, 1, 0x194); (0x265, 0x265, 1, 0xA78D);
   (0x266, 0x266, 1, 0xA7AA); (0x268, 0x268, 1, 0x197);
   (0x269, 0x269, 1, 0x196); (0x26A, 0x26A, 1, 0xA7AE);
   (0x26B, 0x26B, 1, 0x2C62); (0x26C, 0x26C, 1, 0xA7AD);
   (0x26F, 0x26F, 1, 0x19C); (0x271, 0x271, 1, 0x2C6E);
   (0x272, 0x272, 1, 0x19D); (0x275, 0x275, 1, 0x19F);
   (0x27D, 0x27D, 1, 0x2C64); (0x280, 0x280, 1, 0x1A6);
   (0x282, 0x282, 1, 0xA7C5); (0x283, 0x283, 1, 0x1A9);
   (0x287, 0x287, 1, 0xA7B1); (0x288, 0x288, 1, 0x1AE);
   (0x289, 0x289, 1, 0x244); (0x28A, 0x28B, 1, 0x1B1);
   (0x28C, 0x28C, 1, 0x245); (0x292, 0x292, 1, 0x1B7);
   (0x29D, 0x29D, 1, 0xA7B2); (0x29E, 0x29E, 1, 0xA7B0);
   (0x345, 0x345, 1, 0x399); (0x371, 0x373, 2, 0x370);
   (0x377, 0x377, 1, 0x376); (0x37B, 0x37D, 1, 0x3FD);
   (0x3AC, 0x3AC, 1, 0x386); (0x3AD, 0x3AF, 1, 0x388);
   (0x3B1, 0x3C1, 1, 0x391); (0x3C2, 0x3C2, 1, 0x3A3);
   (0x3C3, 0x3CB, 1, 0x3A3); (0x3CC, 0x3CC, 1, 0x38C);
   (0x3CD, 0x3CE, 1, 0x38E); (0x3D0, 0x3D0, 1, 0x392);
   (0x3D1, 0x3D1, 1, 0x398); (0x3D5, 0x3D5, 1, 0x3A6);
   (0x3D6, 0x3D6, 1, 0x3A0); (0x3D7, 0x3D7, 1, 0x3CF);
   (0x3D9, 0x3EF, 2, 0x3D8); (0x3F0, 0x3F0, 1, 0x39A);
   (0x3F1, 0x3F1, 1, 0x3A1); (0x3F2, 0x3F2, 1, 0x3F9);
   (0x3F3, 0x3F3, 1, 0x37F); (0x3F5, 0x3F5, 1, 0x395);
   (0x3F8, 0x3F8, 1, 0x3F7); (0x3FB, 0x3FB, 1, 0x3FA);
   (0x430, 0x44F, 1, 0x410); (0x450, 0x45F, 1, 0x400);
   (0x461, 0x481, 2, 0x460); (0x48B, 0x4BF, 2, 0x48A);
   (0x4C2, 0x4CE, 2, 0x4C1); (0x4CF, 0x4CF, 1, 0x4C0);
   (0x4D1, 0x52F, 2, 0x4D0); (0x561, 0x586, 1, 0x531);
   (0x13F8, 0x13FD, 1, 0x13F0); (0x1C80, 0x1C80, 1, 0x412);
   (0x1C81, 0x1C81, 1, 0x414); (0x1C82, 0x1C82, 1, 0x41E);
   (0x1C83, 0x1C84, 1, 0x421); (0x1C85, 0x1C85, 1, 0x422);
   (0x1C86, 0x1C86, 1, 0x42A); (0x1C87, 0x1C87, 1, 0x462);
   (0x1C88, 0x1C88, 1, 0xA64A); (0x1D79, 0x1D79, 1, 0xA77D);
   (0x1D7D, 0x1D7D, 1, 0x2C63); (0x1D8E, 0x1D8E, 1, 0xA7C6);
   (0x1E01, 0x1E95, 2, 0x1E00); (0x1E9B, 0x1E9B, 1, 0x1E60);
   (0x1EA1, 0x1EFF, 2, 0x1EA0); (0x1F00, 0x1F07, 1, 0x1F08);
   (0x1F10, 0x1F15, 1, 0x1F18); (0x1F20, 0x1F27, 1, 0x1F28);
   (0x1F30, 0x1F37, 1, 0x1F38); (0x1F40, 0x1F45, 1, 0x1F48);
   (0x1F51, 0x1F57, 2, 0x1F59); (0x1F60, 0x1F67, 1, 0x1F68);
   (0x1F70, 0x1F71, 1, 0x1FBA); (0x1F72, 0x1F75, 1, 0x1FC8);
   (0x1F76, 0x1F77, 1, 0x1FDA); (0x1F78, 0x1F79, 1, 0x1FF8);
   (0x1F7A, 0x1F7B, 1, 0x1FEA); (0x1F7C, 0x1F7D, 1, 0x1FFA);
   (0x1F80, 0x1F87, 1, 0x1F88); (0x1F90, 0x1F97, 1, 0x1F98);
   (0x1FA0, 0x1FA7, 1, 0x1FA8); (0x1FB0, 0x1FB1, 1, 0x1FB8);
   (0x1FB3, 0x1FB3, 1, 0x1FBC); (0x1FBE, 0x1FBE, 1, 0x399);
   (0x1FC3, 0x1FC3, 1, 0x1FCC); (0x1FD0, 0x1FD1, 1, 0x1FD8);
   (0x1FE0, 0x1FE1, 1, 0x1FE8); (0x1FE5, 0x1FE5, 1, 0x1FEC);
   (0x1FF3, 0x1FF3, 1, 0x1FFC); (0x214E, 0x214E, 1, 0x2132);
   (0x2170, 0x217F, 1, 0x2160); (0x2184, 0x2184, 1, 0x2183);
   (0x24D0, 0x24E9, 1, 0x24B6); (0x2C30, 0x2C5F, 1, 0x2C00);
   (0x2C61, 0x2C61, 1, 0x2C60); (0x2C65, 0x2C65, 1, 0x23A);
   (0x2C66, 0x2C66, 1, 0x23E); (0x2C68, 0x2C6C, 2, 0x2C67);
   (0x2C73, 0x2C73, 1, 0x2C72); (0x2C76, 0x2C76, 1, 0x2C75);
   (0x2C81, 0x2CE3, 2, 0x2C80); (0x2CEC, 0x2CEE, 2, 0x2CEB);
   (0x2CF3, 0x2CF3, 1, 0x2CF2); (0x2D00, 0x2D25, 1, 0x10A0);
   (0x2D27, 0x2D27, 1, 0x10C7); (0x2D2D, 0x2D2D, 1, 0x10CD);
   (0xA641, 0xA66D, 2, 0xA640); (0xA681, 0xA69B, 2, 0xA680);
   (0xA723, 0xA72F, 2, 0xA722); (0xA733, 0xA76F, 2, 0xA732);
   (0xA77A, 0xA77C, 2, 0xA779); (0xA77F, 0xA787, 2, 0xA77E);
   (0xA78C, 0xA78C, 1, 0xA78B); (0xA791, 0xA793, 2, 0xA790);
   (0xA794, 0xA794, 1, 0xA7C4); (0xA797, 0xA7A9, 2, 0xA796);
   (0xA7B5, 0xA7C3, 2, 0xA7B4); (0xA7C8, 0xA7CA, 2, 0xA7C7);
   (0xA7D1, 0xA7D1, 1, 0xA7D0); (0xA7D7, 0xA7D9, 2, 0xA7D6);
   (0xA7F6, 0xA7F6, 1, 0xA7F5); (0xAB53, 0xAB53, 1, 0xA7B3);
   (0xAB70, 0xABBF, 1, 0x13A0); (0xFF41, 0xFF5A, 1, 0xFF21);
   (0x10428, 0x1044F, 1, 0x10400); (0x104D8, 0x104FB, 1, 0x104B0);
   (0x10597, 0x105A1, 1, 0x10570); (0x105A3, 0x105B1, 1, 0x1057C);
   (0x105B3, 0x105B9, 1, 0x1058C); (0x105BB, 0x105BC, 1, 0x10594);
   (0x10CC0, 0x10CF2, 1, 0x10C80); (0x118C0, 0x118DF, 1, 0x118A0);
   (0x16E60, 0x16E7F, 1, 0x16E40); (0x1E922, 0x1E943, 1, 0x1E900)]%N.

(** The characters whose title case is more than one character. *)
Definition titlecase_special : list (N * list N) :=
  [(0xDF, [0x53; 0x73]); (0x149, [0x2BC; 0x4E]); (0x1F0, [0x4A; 0x30C]);
   (0x390, [0x399; 0x308; 0x301]); (0x3B0, [0x3A5; 0x308; 0x301]);
   (0x587, [0x535; 0x582]); (0x1E96, [0x48; 0x331]); (0x1E97, [0x54; 0x308]);
   (0x1E98, [0x57; 0x30A]); (0x1E99, [0x59; 0x30A]); (0x1E9A, [0x41; 0x2BE]);
   (0x1F50, [0x3A5; 0x313]); (0x1F52, [0x3A5; 0x313; 0x300]);
   (0x1F54, [0x3A5; 0x313; 0x301]); (0x1F56, [0x3A5; 0x313; 0x342]);
   (0x1FB2, [0x1FBA; 0x345]); (0x1FB4, [0x386; 0x345]);
   (0x1FB6, [0x391; 0x342]); (0x1FB7, [0x391; 0x342; 0x345]);
   (0x1FC2, [0x1FCA; 0x345]); (0x1FC4, [0x389; 0x345]);
   (0x1FC6, [0x397; 0x342]); (0x1FC7, [0x397; 0x342; 0x345]);
   (0x1FD2, [0x399; 0x308; 0x300]); (0x1FD3, [0x399; 0x308; 0x301]);
   (0x1FD6, [0x399; 0x342]); (0x1FD7, [0x399; 0x308; 0x342]);
   (0x1FE2, [0x3A5; 0x308; 0x300]); (0x1FE3, [0x3A5; 0x308; 0x301]);
   (0x1FE4, [0x3A1; 0x313]); (0x1FE6, [0x3A5; 0x342]);
   (0x1FE7, [0x3A5; 0x308; 0x342]); (0x1FF2, [0x1FFA; 0x345]);
   (0x1FF4, [0x38F; 0x345]); (0x1FF6, [0x3A9; 0x342]);
   (0x1FF7, [0x3A9; 0x342; 0x345]); (0xFB00, [0x46; 0x66]);
   (0xFB01, [0x46; 0x69]); (0xFB02, [0x46; 0x6C]);
   (0xFB03, [0x46; 0x66; 0x69]); (0xFB04, [0x46; 0x66; 0x6C]);
   (0xFB05, [0x53; 0x74]); (0xFB06, [0x53; 0x74]); (0xFB13, [0x544; 0x576]);
   (0xFB14, [0x544; 0x565]); (0xFB15, [0x544; 0x56B]);
   (0xFB16, [0x54E; 0x576]); (0xFB17, [0x544; 0x56D])]%N.

(** The zeros of the decimal digits; the digits 1 to 9 follow each. *)
Definition decimal_zeros : list N :=
  [0x30; 0x660; 0x6F0; 0x7C0; 0x966; 0x9E6; 0xA66; 0xAE6; 0xB66; 0xBE6; 0xC66;
   0xCE6; 0xD66; 0xDE6; 0xE50; 0xED0; 0xF20; 0x1040; 0x1090; 0x17E0; 0x1810;
   0x1946; 0x19D0; 0x1A80; 0x1A90; 0x1B50; 0x1BB0; 0x1C40; 0x1C50; 0xA620;
   0xA8D0; 0xA900; 0xA9D0; 0xA9F0; 0xAA50; 0xABF0; 0xFF10; 0x104A0; 0x10D30;
   0x11066; 0x110F0; 0x11136; 0x111D0; 0x112F0; 0x11450; 0x114D0; 0x11650;
   0x116C0; 0x11730; 0x118E0; 0x11950; 0x11C50; 0x11D50; 0x11DA0; 0x16A60;
   0x16AC0; 0x16B50; 0x1D7CE; 0x1D7D8; 0x1D7E2; 0x1D7EC; 0x1D7F6; 0x1E140;
   0x1E2F0; 0x1E950; 0x1FBF0]%N.

Definition has (ranges : list (N * N)) (ch : string) : bool :=
  match code_point ch with
  | Some n => in_ranges ranges n
  | None => false
  end.

(** *** [strip] and [len] *)

Definition isspace (ch : string) : bool := has whitespace ch.

Fixpoint drop_while {A : Type} (p : A → bool) (l : list A) : list A :=
  match l with
  | x :: l' => if p x then drop_while p l' else l
  | [] => []
  end.

Definition lstrip (s : string) : string := join (drop_while isspace (chars s)).

Definition rstrip (s : string) : string :=
  join (rev (drop_while isspace (rev (chars s)))).

(** [s.strip()] *)
Definition strip (s : string) : string :=
  join (rev (drop_while isspace (rev (drop_while isspace (chars s))))).

(** [len(s)] *)
Definition len (s : string) : Z := Z.of_nat (length (chars s)).

(** *** [lower] and [capitalize] *)

(** The lower case of a character by itself: one character, but for
    U+0130. *)
Definition to_lower (n : N) : list N :=
  (if n =? 0x130 then [0x69; 0x307] else [default n (image_in lowercase n)])%N.

Definition to_title (n : N) : list N :=
  match List.find (λ '(m, _), m =? n)%N titlecase_special with
  | Some (_, image) => image
  | None => [default n (image_in titlecase n)]
  end.

(** Past the case-ignorable characters at the head of [cs] comes a cased
    one. *)
Fixpoint cased_next (cs : list string) : bool :=
  match cs with
  | [] => false
  | ch :: cs' => if has case_ignorable ch then cased_next cs' else has cased ch
  end.

(** A capital sigma ends a word when a cased character comes before it and
    none after it, case-ignorable ones apart; [before] is nearest first. *)
Definition final_sigma (before after : list string) : bool :=
  cased_next before && negb (cased_next after).

Definition lower_char (before after : list string) (ch : string) : string :=
  match code_point ch with
  | Some n =>
      if (n =? 0x3A3)%N
      then encode (if final_sigma before after then 0x3C2 else 0x3C3)%N
      else join (encode <$> to_lower n)
  | None => ch
  end.

Fixpoint lower_chars (before cs : list string) : list string :=
  match cs with
  | [] => []
  | ch :: after => lower_char before after ch :: lower_chars (ch :: before) after
  end.

(** [s.lower()] *)
Definition lower (s : string) : string := join (lower_chars [] (chars s)).

(** [s.capitalize()]: the first character in title case, the others in lower
    case. *)
Definition capitalize (s : string) : string :=
  match chars s with
  | [] => EmptyString
  | ch :: after =>
      let first := match code_point ch with
                   | Some n => join (encode <$> to_title n)
                   | None => ch
                   end in
      join (first :: lower_chars [ch] after)
  end.

(** *** Other methods *)

Fixpoint string_rev_onto (acc s : string) : string :=
  match s with
  | EmptyString => acc
  | String c s' => string_rev_onto (String c acc) s'
  end.
Definition string_rev (s : string) : string := string_rev_onto EmptyString s.

(** [s.endswith(suffix)] *)
Definition endswith (s suffix : string) : bool :=
  String.prefix (string_rev suffix) (string_rev s).

(** [s.replace('Z', '+00:00')] *)
Fixpoint replace_Z (s : string) : string :=
  match s with
  | EmptyString => EmptyString
  | String c s' =>
      if Ascii.eqb c "Z"%char then ("+00:00" ++ replace_Z s')%string
      else String c (replace_Z s')
  end.

(** *** [int] of a string *)

(** The digit a decimal digit of any script stands for. *)
Definition decimal_digit (n : N) : option N :=
  match List.find (λ zero, (zero <=? n) && (n <? zero + 10))%N decimal_zeros with
  | Some zero => Some (n - zero)%N
  | None => None
  end.

(** What [int] reads in place of [s]: the ASCII characters as they are, a
    space for any other white space, the ASCII digit for any other decimal
    digit; [None] when [s] has another character. *)
Fixpoint ascii_decimal (cs : list string) : option string :=
  match cs with
  | [] => Some EmptyString
  | ch :: cs' =>
      match code_point ch, ascii_decimal cs' with
      | Some n, Some t =>
          if (n <? 127)%N then Some (String (ascii_of_N n) t)
          else if in_ranges whitespace n then Some (String " "%char t)
          else match decimal_digit n with
               | Some d => Some (String (ascii_of_N (48 + d)) t)
               | None => None
               end
      | _, _ => None
      end
  end.

(** The white space the number parser skips: space, [\t], [\n], [\v], [\f]
    and [\r]. *)
Definition is_ascii_space (c : ascii) : bool :=
  let n := N_of_ascii c in (((9 <=? n) && (n <=? 13)) || (n =? 32))%N.

Fixpoint skip_spaces (s : string) : string :=
  match s with
  | String c s' => if is_ascii_space c then skip_spaces s' else s
  | EmptyString => EmptyString
  end.

(** The decimal digits of an [int()] argument: digits, single underscores
    allowed between two digits. *)
Fixpoint digits_value (acc : Z) (after_digit : bool) (s : string) : option Z :=
  match s with
  | EmptyString => if after_digit then Some acc else None
  | String c s' =>
      if is_digit c
      then digits_value (10 * acc + Z.of_N (N_of_ascii c - 48)) true s'
      else if Ascii.eqb c "_"%char && after_digit
           then match s' with
                | String d _ => if is_digit d then digits_value acc false s' else None
                | EmptyString => None
                end
           else None
  end.

(** [int(s)] on a string: surrounding white space, an optional sign, decimal
    digits; [ValueError] otherwise. *)
Definition int_of_string (s : string) : result Z :=
  let parsed :=
    match ascii_decimal (chars s) with
    | Some t =>
        match string_rev (skip_spaces (string_rev (skip_spaces t))) with
        | String "-" t => Z.opp <$> digits_value 0 false t
        | String "+" t => digits_value 0 false t
        | t => digits_value 0 false t
        end
    | None => None
    end in
  match parsed with
  | Some z => Ok z
  | None => Err ValueError
  end.

(** ** Regular expressions

    The fragment of [re] the code uses: character classes, concatenation,
    alternation and repetition, matched by derivatives. *)

Inductive regex : Type :=
| RNone
| REps
| RChar (cls : ascii → bool)
| RCat (r1 r2 : regex)
| RAlt (r1 r2 : regex)
| RStar (r : regex).

Fixpoint nullable (r : regex) : bool :=
  match r with
  | RNone => false
  | REps => true
  | RChar _ => false
  | RCat r1 r2 => nullable r1 && nullable r2
  | RAlt r1 r2 => nullable r1 || nullable r2
  | RStar _ => true
  end.

Fixpoint deriv (c : ascii) (r : regex) : regex :=
  match r with
  | RNone => RNone
  | REps => RNone
  | RChar cls => if cls c then REps else RNone
  | RCat r1 r2 =>
      if nullable r1 then RAlt (RCat (deriv c r1) r2) (deriv c r2)
      else RCat (deriv c r1) r2
  | RAlt r1 r2 => RAlt (deriv c r1) (deriv c r2)
  | RStar r1 => RCat (deriv c r1) (RStar r1)
  end.

(** The whole of [s] is in the language of [r]. *)
Fixpoint fullmatch (r : regex) (s : string) : bool :=
  match s with
  | EmptyString => nullable r
  | String c s' => fullmatch (deriv c r) s'
  end.

(** [r+] and [r{2,}] *)
Definition RPlus (r : regex) : regex := RCat r (RStar r).
Definition RAtLeast2 (r : regex) : regex := RCat r (RCat r (RStar r)).

Definition one_of (chars : string) (c : ascii) : bool :=
  existsb (Ascii.eqb c) (list_ascii_of_string chars).

(** [re.match('^' + r + '$', s)]: without [re.MULTILINE], [$] matches at the
    end of the string and just before a newline that ends the string. *)
Definition re_match_anchored (r : regex) (s : string) : bool :=
  fullmatch (RCat r (RAlt REps (RChar (Ascii.eqb "010"%char)))) s.

(** ** Python dates *)

Record date : Type := { year : Z; month : Z; day : Z }.

(** [date._cmp]: comparison of the [(year, month, day)] triples. *)
Definition date_cmp (a b : date) : comparison :=
  match Z.compare (year a) (year b) with
  | Eq => match Z.compare (month a) (month b) with
          | Eq => Z.compare (day a) (day b)
          | c => c
          end
  | c => c
  end.

Definition date_leb (a b : date) : bool :=
  match date_cmp a b with Gt => false | _ => true end.
Definition date_geb (a b : date) : bool :=
  match date_cmp a b with Lt => false | _ => true end.
Definition date_ltb (a b : date) : bool :=
  match date_cmp a b with Lt => true | _ => false end.

Definition is_leap (y : Z) : bool :=
  (y mod 4 =? 0) && (negb (y mod 100 =? 0) || (y mod 400 =? 0)).

Definition days_before_year (y : Z) : Z :=
  let y1 := y - 1 in y1 * 365 + y1 / 4 - y1 / 100 + y1 / 400.

Definition days_in_month (y m : Z) : Z :=
  if (m =? 2) && is_leap y then 29
  else nth (Z.to_nat m) [0; 31; 28; 31; 30; 31; 30; 31; 31; 30; 31; 30; 31] 0.

Definition days_before_month (y m : Z) : Z :=
  nth (Z.to_nat m) [0; 0; 31; 59; 90; 120; 151; 181; 212; 243; 273; 304; 334] 0
  + (if (2 <? m) && is_leap y then 1 else 0).

(** [date.toordinal()] *)
Definition toordinal (d : date) : Z :=
  days_before_year (year d) + days_before_month (year d) (month d) + day d.

(** [(a - b).days] *)
Definition days_between (a b : date) : Z := toordinal a - toordinal b.

(** ** Python values *)

(** The JSON scalars a record field holds.  Nested arrays and objects occur in
    the data files (image lists, gateway responses) but in no field that the
    functions below read, the [participants] of a new conversation apart. *)
Inductive value : Type :=
| VNone
| VBool (b : bool)
| VInt (z : Z)
| VFloat (f : float)
| VStr (s : string).

(** *** [repr] of a float

    The shortest decimal that reads back as the same double (the closest
    one when several of that length do, the even one on a tie), in
    positional notation when the
    decimal point falls within the digits or close to them, in exponent
    notation otherwise. *)

(** The double nearest to [p / q] ([0 < p], [0 < q]). *)
Definition nearest_double (p q : Z) : spec_float :=
  SFdiv prec emax (Z2SF p) (Z2SF q).

(** [m * 2 ^ e] as a fraction. *)
Definition fraction_of (m : positive) (e : Z) : Z * Z :=
  if 0 <=? e then (Zpos m * 2 ^ e, 1) else (Zpos m, 2 ^ (- e)).

(** The fraction [p / q] scaled by [10 ^ k]. *)
Definition scale10 (pq : Z * Z) (k : Z) : Z * Z :=
  let '(p, q) := pq in
  if 0 <=? k then (p * 10 ^ k, q) else (p, q * 10 ^ (- k)).

(** The [k] with [10 ^ (k - 1) <= p / q < 10 ^ k], searched around the
    estimate the binary exponent gives. *)
Definition decimal_exponent (m : positive) (e : Z) : Z :=
  let bits := Z.log2 (Zpos m) + 1 + e in
  let k0 := bits * 30103 / 100000 - 1 in
  let fits k :=
    let '(p, q) := scale10 (fraction_of m e) (- k) in
    (p <? q) && (q <=? 10 * p) in
  default k0 (List.find fits [k0; k0 + 1; k0 + 2; k0 + 3]).

(** The [n]-digit decimals next to [m * 2 ^ e] that read back as it: the
    closest one, if any, as its digits and the scaled exponent. *)
Definition shortest_at (m : positive) (e k : Z) (n : Z) : option Z :=
  let '(p, q) := scale10 (fraction_of m e) (n - k) in
  let lo := p / q in
  let hi := lo + 1 in
  let reads_back c :=
    (0 <? c) &&
    let '(cp, cq) := scale10 (c, 1) (k - n) in
    match nearest_double cp cq with
    | S754_finite _ m' e' => (Zpos m' =? Zpos m) && (e' =? e)
    | _ => false
    end in
  let lo_first :=
    match Z.compare (2 * (p mod q)) q with
    | Lt => true
    | Eq => Z.even lo
    | Gt => false
    end in
  let candidates := if lo_first then [lo; hi] else [hi; lo] in
  List.find reads_back candidates.

Fixpoint shortest_from (fuel : nat) (m : positive) (e k : Z) (n : Z) : Z * Z :=
  match fuel with
  | O => (Zpos m, n)
  | S fuel' =>
      match shortest_at m e k n with
      | Some c => (c, n)
      | None => shortest_from fuel' m e k (n + 1)
      end
  end.

Fixpoint strip_zeros (fuel : nat) (c : Z) : Z :=
  match fuel with
  | O => c
  | S fuel' => if c mod 10 =? 0 then strip_zeros fuel' (c / 10) else c
  end.

Fixpoint zeros (n : nat) : string :=
  match n with
  | O => ""
  | S n' => String "0" (zeros n')
  end.

Definition substring_from (n : nat) (s : string) : string :=
  String.substring n (String.length s - n) s.

(** The digits [digits] with the decimal point [decpt] places to the right
    of their start. *)
Definition format_digits (digits : string) (decpt : Z) : string :=
  let n := Z.of_nat (String.length digits) in
  if (decpt <=? -4) || (16 <? decpt) then
    let mantissa :=
      match digits with
      | String d EmptyString => digits
      | String d rest => String d (String "." rest)
      | EmptyString => digits
      end in
    let x := decpt - 1 in
    let sign : string := if x <? 0 then "-" else "+" in
    let pad : string := if Z.abs x <? 10 then "0" else "" in
    (mantissa ++ "e" ++ sign ++ pad ++ pretty (Z.abs x))%string
  else if decpt <=? 0 then
    ("0." ++ zeros (Z.to_nat (- decpt)) ++ digits)%string
  else if n <=? decpt then
    (digits ++ zeros (Z.to_nat (decpt - n)) ++ ".0")%string
  else
    (String.substring 0 (Z.to_nat decpt) digits ++ "."
       ++ substring_from (Z.to_nat decpt) digits)%string.

Definition float_repr (f : float) : string :=
  match Prim2SF f with
  | S754_nan => "nan"
  | S754_infinity s => if s then "-inf" else "inf"
  | S754_zero s => if s then "-0.0" else "0.0"
  | S754_finite s m e =>
      let k := decimal_exponent m e in
      let '(c, n) := shortest_from 17 m e k 1 in
      let decpt := if c =? 10 ^ n then k + 1 else k in
      let digits := pretty (strip_zeros 17 c) in
      let sign : string := if s then "-" else "" in
      (sign ++ format_digits digits decpt)%string
  end.

(** [bool] is a subclass of [int]: [True] counts as 1 in arithmetic. *)
Definition as_num (v : value) : option num :=
  match v with
  | VBool b => Some (NInt (if b then 1 else 0))
  | VInt z => Some (NInt z)
  | VFloat f => Some (NFloat f)
  | _ => None
  end.

(** Arithmetic on a non-number raises [TypeError]. *)
Definition to_num (v : value) : result num :=
  match as_num v with
  | Some n => Ok n
  | None => Err TypeError
  end.

Definition of_num (n : num) : value :=
  match n with
  | NInt z => VInt z
  | NFloat f => VFloat f
  end.

(** [bool(v)] *)
Definition truthy (v : value) : bool :=
  match v with
  | VNone => false
  | VBool b => b
  | VInt z => negb (z =? 0)
  | VFloat f => negb (PrimFloat.eqb f PrimFloat.zero)
  | VStr s => negb (String.eqb s "")
  end.

(** [a == b] *)
Definition eq (a b : value) : bool :=
  match a, b with
  | VNone, VNone => true
  | VStr s, VStr t => String.eqb s t
  | _, _ =>
      match as_num a, as_num b with
      | Some x, Some y => eqb x y
      | _, _ => false
      end
  end.

(** [str(v)] *)
Definition str (v : value) : string :=
  match v with
  | VNone => "None"
  | VBool true => "True"
  | VBool false => "False"
  | VInt z => pretty z
  | VFloat f => float_repr f
  | VStr s => s
  end.

(** [int(v)] *)
Definition int (v : value) : result Z :=
  match v with
  | VNone => Err TypeError
  | VBool b => Ok (if b then 1 else 0)
  | VInt z => Ok z
  | VFloat f => int_of_float f
  | VStr s => int_of_string s
  end.

(** [a < b]: numbers with numbers, strings with strings (by code point,
    the order of their bytes); [TypeError] for anything else. *)
Definition lt (a b : value) : result bool :=
  match a, b with
  | VStr s, VStr t => Ok (String.ltb s t)
  | _, _ =>
      match as_num a, as_num b with
      | Some x, Some y => Ok (ltb x y)
      | _, _ => Err TypeError
      end
  end.

(** [a in choices] *)
Definition elem_of_list (a : value) (choices : list value) : bool :=
  existsb (eq a) choices.

(** [sum(values)]: starts from the int 0 and adds from the left. *)
Definition sum (vs : list value) : result num :=
  foldl (fun acc v => a ← acc; n ← to_num v; add a n) (Ok (NInt 0)) vs.

(** [max(zs)]: [ValueError] on an empty sequence. *)
Definition max (zs : list Z) : result Z :=
  match zs with
  | [] => Err ValueError
  | z :: zs' => Ok (foldl Z.max z zs')
  end.

(** [a or b] *)
Definition or_else (a b : value) : value := if truthy a then a else b.

(** [a + b]: numbers are added, strings joined; [TypeError] for anything
    else. *)
Definition plus (a b : value) : result value :=
  match a, b with
  | VStr s, VStr t => Ok (VStr (s ++ t))
  | _, _ =>
      match as_num a, as_num b with
      | Some x, Some y => of_num <$> add x y
      | _, _ => Err TypeError
      end
  end.

(** [l[start:stop]]: an index below 0 counts from the end of the list, and
    both ends are clamped to it. *)
Definition slice_index (n i : Z) : Z :=
  if i <? 0 then Z.max 0 (i + n) else Z.min i n.

Definition slice {A} (l : list A) (start stop : Z) : list A :=
  let n := Z.of_nat (length l) in
  let first := slice_index n start in
  let last := slice_index n stop in
  take (Z.to_nat (last - first)) (drop (Z.to_nat first) l).

End Py.


(** ** Records and the file system *)

(** A record is a dictionary from field names to values. *)
Abbreviation record := (gmap string Py.value).

(** [d.get(key)]: [None] for a missing key. *)
Definition get (d : record) (key : string) : Py.value :=
  default Py.VNone (d !! key).

(** [d.get(key, dflt)] *)
Definition get_or (d : record) (key : string) (dflt : Py.value) : Py.value :=
  default dflt (d !! key).

(** [key in d] *)
Definition has_key (d : record) (key : string) : bool :=
  match d !! key with Some _ => true | None => false end.

(** [bool(d)]: a dictionary is true when it has a key. *)
Definition nonempty (d : record) : bool :=
  match map_to_list d with [] => false | _ => true end.

(** [{**d, **updates}], which is also what [d.update(updates)] leaves in [d]:
    the keys of [updates] win. *)
Definition merge_into (d updates : record) : record := updates ∪ d.

(** The JSON files, by path, each holding a list of records, and whether the
    disk takes writes.  A file that does not hold a JSON array of objects is
    outside the model. *)
Record fs : Type := {
  files : gmap string (list record);
  writable : bool;
}.

(** ** utils/data_manager.py *)

Module DataManager.

Record t : Type := { base_path : string }.

Section Methods.
Variable self : t.

Definition _get_file_path (file_name : string) : string :=
  let file_name :=
    if Py.endswith file_name ".json" then file_name
    else (file_name ++ ".json")%string in
  (base_path self ++ "/" ++ file_name)%string.

(** A file that does not exist reads as the empty list. *)
Definition load (st : fs) (file_name : string) : list record :=
  default [] (files st !! _get_file_path file_name).

(** Replaces the whole file; [False] (and no change) when the write fails. *)
Definition save (st : fs) (file_name : string) (data : list record) : fs * bool :=
  if writable st
  then ({| files := <[_get_file_path file_name := data]> (files st);
           writable := writable st |}, true)
  else (st, false).

(** [str(item.get('id')) == str(item_id)] *)
Definition id_matches (item_id : Py.value) (item : record) : bool :=
  String.eqb (Py.str (get item "id")) (Py.str item_id).

Definition find_by_id (st : fs) (file_name : string) (item_id : Py.value)
    : option record :=
  List.find (id_matches item_id) (load st file_name).

Definition find_by_field (st : fs) (file_name : string) (field : string)
    (value : Py.value) : list record :=
  List.filter (fun item => Py.eq (get item field) value) (load st file_name).

(** The id a new record gets: 1 in an empty file, else one more than the
    largest [int(item.get('id', 0))]. *)
Definition next_id (data : list record) : result Z :=
  match data with
  | [] => Ok 1
  | _ :: _ =>
      ids ← mapM_result (fun item => Py.int (get_or item "id" (Py.VInt 0))) data;
      max_id ← Py.max ids;
      Ok (max_id + 1)
  end.

(** [{'id': new_id, **new_item, 'created_at': ts, 'updated_at': ts}] *)
Definition created_item (new_id : Z) (new_item : record) (timestamp : string)
    : record :=
  <["updated_at" := Py.VStr timestamp]>
    (<["created_at" := Py.VStr timestamp]>
       (merge_into {["id" := Py.VInt new_id]} new_item)).

(** [timestamp] is [datetime.now().isoformat()] at the time of the call.
    An exception leaves the files as they were. *)
Definition create (st : fs) (file_name : string) (new_item : record)
    (timestamp : string) : result (record * fs) :=
  let data := load st file_name in
  new_id ← next_id data;
  let item := created_item new_id new_item timestamp in
  match save st file_name (data ++ [item]) with
  | (st', true) => Ok (item, st')
  | (_, false) =>
      Err (Exception ("Failed to save new item to " ++ file_name))
  end.

(** The position of the first record whose id matches. *)
Fixpoint index_of (item_id : Py.value) (data : list record) : option nat :=
  match data with
  | [] => None
  | item :: rest =>
      if id_matches item_id item then Some 0%nat
      else S <$> index_of item_id rest
  end.

(** [data[i].update(updates); data[i]['updated_at'] = timestamp] *)
Definition updated_item (item updates : record) (timestamp : string) : record :=
  <["updated_at" := Py.VStr timestamp]> (merge_into item updates).

Definition update (st : fs) (file_name : string) (item_id : Py.value)
    (updates : record) (timestamp : string) : result (option record * fs) :=
  let data := load st file_name in
  match index_of item_id data with
  | Some i =>
      match data !! i with
      | Some item =>
          let item' := updated_item item updates timestamp in
          match save st file_name (<[i := item']> data) with
          | (st', true) => Ok (Some item', st')
          | (_, false) =>
              Err (Exception ("Failed to save updates to " ++ file_name))
          end
      | None => Ok (None, st)
      end
  | None => Ok (None, st)
  end.

Definition delete (st : fs) (file_name : string) (item_id : Py.value)
    : result (bool * fs) :=
  let data := load st file_name in
  let kept := List.filter (fun item => negb (id_matches item_id item)) data in
  if (length kept <? length data)%nat
  then match save st file_name kept with
       | (st', true) => Ok (true, st')
       | (_, false) =>
           Err (Exception ("Failed to save deletion to " ++ file_name))
       end
  else Ok (false, st).

(** One turn of the loop over [filters.items()]: a filter whose value is
    [None] is skipped. *)
Definition apply_filter (filtered : list record) (filter : string * Py.value)
    : list record :=
  match filter.2 with
  | Py.VNone => filtered
  | value => List.filter (fun item => Py.eq (get item filter.1) value) filtered
  end.

Definition filter_data (st : fs) (file_name : string) (filters : record)
    (skip limit : Z) : list record :=
  let data := load st file_name in
  let filtered_data := foldl apply_filter data (map_to_list filters) in
  let total := Z.of_nat (length filtered_data) in
  let end_idx := Z.min (skip + limit) total in
  Py.slice filtered_data skip end_idx.

End Methods.

(** The managers the services share, one directory per domain. *)
Definition data_dir : string := "data".
Definition for_domain (domain : string) : t :=
  {| base_path := (data_dir ++ "/" ++ domain)%string |}.
Definition reviews_manager : t := for_domain "reviews".
Definition users_manager : t := for_domain "users".
Definition properties_manager : t := for_domain "properties".
Definition bookings_manager : t := for_domain "bookings".
Definition communications_manager : t := for_domain "communications".
Definition payments_manager : t := for_domain "payments".

End DataManager.

(** ** services/base_service.py *)

Module BaseService.

(** What a concrete service class fixes: its manager, its domain name, its
    primary file and its [validate_data] override. *)
Record t : Type := {
  data_manager : DataManager.t;
  domain_name : string;
  get_primary_file : string;
  validate_data : fs → record → string → result record;
}.

(** [BaseService.validate_data], which every override calls first. *)
Definition base_validate_data (data : record) (operation : string)
    : result record :=
  if nonempty data then Ok data
  else Err (ValidationError "Data cannot be empty").

Section Methods.
Variable self : t.

Definition not_found_message (item_id : Py.value) : string :=
  (Py.capitalize (domain_name self) ++ " with ID " ++ Py.str item_id
     ++ " not found")%string.

(** [if not item]: neither [None] nor an empty dictionary passes. *)
Definition get_by_id (st : fs) (item_id : Py.value) : result record :=
  match DataManager.find_by_id (data_manager self) st (get_primary_file self)
          item_id with
  | Some item =>
      if nonempty item then Ok item
      else Err (NotFoundError (not_found_message item_id))
  | None => Err (NotFoundError (not_found_message item_id))
  end.

(** [except ValidationError: raise] then [except Exception]: everything
    else leaves as [ServiceError]. *)
Definition create (st : fs) (data : record) (timestamp : string)
    : result (record * fs) :=
  match
    validated_data ← validate_data self st data "create";
    DataManager.create (data_manager self) st (get_primary_file self)
      validated_data timestamp
  with
  | Ok r => Ok r
  | Err e =>
      if isinstance_ValidationError e then Err e
      else Err (ServiceError ("Failed to create " ++ domain_name self))
  end.

Definition update (st : fs) (item_id : Py.value) (data : record)
    (timestamp : string) : result (record * fs) :=
  match
    _ ← get_by_id st item_id;
    validated_data ← validate_data self st data "update";
    '(updated_item, st') ←
      DataManager.update (data_manager self) st (get_primary_file self)
        item_id validated_data timestamp;
    match updated_item with
    | Some item =>
        if nonempty item then Ok (item, st')
        else Err (NotFoundError (not_found_message item_id))
    | None => Err (NotFoundError (not_found_message item_id))
    end
  with
  | Ok r => Ok r
  | Err e =>
      if isinstance_NotFoundError e || isinstance_ValidationError e then Err e
      else Err (ServiceError ("Failed to update " ++ domain_name self))
  end.

Definition find_by_field (st : fs) (field : string) (value : Py.value)
    : list record :=
  DataManager.find_by_field (data_manager self) st (get_primary_file self)
    field value.

(** [filters] is [None] or a dictionary; an empty one counts as none. *)
Definition get_all (st : fs) (skip limit : Z) (filters : option record)
    : list record :=
  let paginated :=
    let data := DataManager.load (data_manager self) st (get_primary_file self) in
    let end_idx := Z.min (skip + limit) (Z.of_nat (length data)) in
    Py.slice data skip end_idx in
  match filters with
  | Some f =>
      if nonempty f
      then DataManager.filter_data (data_manager self) st (get_primary_file self)
             f skip limit
      else paginated
  | None => paginated
  end.

Definition delete (st : fs) (item_id : Py.value) : result (bool * fs) :=
  match
    _ ← get_by_id st item_id;
    '(deleted, st') ←
      DataManager.delete (data_manager self) st (get_primary_file self) item_id;
    if deleted : bool then Ok (deleted, st')
    else Err (NotFoundError (not_found_message item_id))
  with
  | Ok r => Ok r
  | Err e =>
      if isinstance_NotFoundError e then Err e
      else Err (ServiceError ("Failed to delete " ++ domain_name self))
  end.

End Methods.

End BaseService.

(** ** services/user_service.py *)

Module UserService.

(** [^[a-zA-Z0-9._%+-]+@[a-zA-Z0-9.-]+\.[a-zA-Z]{2,}$] *)
Definition email_regex : Py.regex :=
  let local_part c := Py.is_alpha c || Py.is_digit c || Py.one_of "._%+-" c in
  let domain c := Py.is_alpha c || Py.is_digit c || Py.one_of ".-" c in
  Py.RCat (Py.RPlus (Py.RChar local_part))
    (Py.RCat (Py.RChar (Ascii.eqb "@"%char))
       (Py.RCat (Py.RPlus (Py.RChar domain))
          (Py.RCat (Py.RChar (Ascii.eqb "."%char))
             (Py.RAtLeast2 (Py.RChar Py.is_alpha))))).

Definition email_ok (email : string) : bool :=
  Py.re_match_anchored email_regex email.

Definition required_fields : list string :=
  ["email"; "password"; "first_name"; "last_name"].

Definition field_required (field : string) : exn :=
  ValidationError ("Field '" ++ field ++ "' is required").

(** The loop over the required fields: each must be present and true. *)
Fixpoint check_required (data : record) (fields : list string) : result unit :=
  match fields with
  | [] => Ok ()
  | field :: rest =>
      match data !! field with
      | Some v =>
          if Py.truthy v then check_required data rest
          else Err (field_required field)
      | None => Err (field_required field)
      end
  end.

(** [validated_data[key] = validated_data[key].strip()] and the like, when
    the key is present; a value that is not a string has no such method. *)
Definition sanitize (key : string) (f : string → string) (data : record)
    : result record :=
  match data !! key with
  | Some (Py.VStr s) => Ok (<[key := Py.VStr (f s)]> data)
  | Some _ => Err AttributeError
  | None => Ok data
  end.

Definition get_primary_file : string := "users.json".

Definition validate_data (st : fs) (data : record) (operation : string)
    : result record :=
  validated_data ← BaseService.base_validate_data data operation;
  _ ← (if String.eqb operation "create" then
         _ ← check_required validated_data required_fields;
         email ← require "email" (validated_data !! "email");
         _ ← match email with
             | Py.VStr e =>
                 if email_ok e then Ok ()
                 else Err (ValidationError "Invalid email format")
             | _ => Err TypeError
             end;
         let existing_users :=
           DataManager.find_by_field DataManager.users_manager st
             get_primary_file "email" email in
         _ ← match existing_users with
             | [] => Ok ()
             | _ :: _ => Err (ConflictError "Email already registered")
             end;
         password ← require "password" (validated_data !! "password");
         match password with
         | Py.VStr p =>
             if Py.len p <? 8
             then Err (ValidationError
                         "Password must be at least 8 characters long")
             else Ok ()
         | _ => Err TypeError
         end
       else Ok ());
  validated_data ← sanitize "email" (fun s => Py.strip (Py.lower s)) validated_data;
  validated_data ← sanitize "first_name" Py.strip validated_data;
  validated_data ← sanitize "last_name" Py.strip validated_data;
  Ok validated_data.

Definition service : BaseService.t :=
  {| BaseService.data_manager := DataManager.users_manager;
     BaseService.domain_name := "user";
     BaseService.get_primary_file := get_primary_file;
     BaseService.validate_data := validate_data |}.

(** [find_by_field(..., "email", email.lower())], the first match, and the
    password compared as it is stored; the record is returned without it. *)
Definition authenticate (st : fs) (email password : string) : option record :=
  match DataManager.find_by_field DataManager.users_manager st get_primary_file
          "email" (Py.VStr (Py.lower email)) with
  | [] => None
  | user :: _ =>
      if Py.eq (get user "password") (Py.VStr password)
      then Some (delete "password" user)
      else None
  end.

Definition get_user_by_email (st : fs) (email : string) : option record :=
  head (DataManager.find_by_field DataManager.users_manager st get_primary_file
          "email" (Py.VStr (Py.lower email))).

Definition get_user_profile (st : fs) (user_id : Py.value) : result record :=
  user ← BaseService.get_by_id service st user_id;
  Ok (delete "password" user).

(** [profile_data.pop("password", None); profile_data.pop("email", None)]
    before the update, the password popped from what is returned. *)
Definition update_profile (st : fs) (user_id : Py.value) (profile_data : record)
    (timestamp : string) : result (record * fs) :=
  let profile_data := delete "email" (delete "password" profile_data) in
  '(updated_user, st') ← BaseService.update service st user_id profile_data timestamp;
  Ok (delete "password" updated_user, st').

Definition change_password (st : fs) (user_id : Py.value)
    (old_password new_password : string) (timestamp : string)
    : result (bool * fs) :=
  user ← BaseService.get_by_id service st user_id;
  if negb (Py.eq (get user "password") (Py.VStr old_password))
  then Err (ValidationError "Current password is incorrect")
  else if Py.len new_password <? 8
  then Err (ValidationError "New password must be at least 8 characters long")
  else
    '(_, st') ← BaseService.update service st user_id
                  {["password" := Py.VStr new_password]} timestamp;
    Ok (true, st').

Definition create_user (st : fs) (user_data : record) (timestamp : string)
    : result (record * fs) :=
  '(created_user, st') ← BaseService.create service st user_data timestamp;
  Ok (delete "password" created_user, st').

End UserService.

(** ** services/review_service.py *)

Module ReviewService.

(** The dictionary [get_review_statistics] returns. *)
Record statistics : Type := {
  total_reviews : Z;
  average_rating : Py.num;
  rating_distribution : gmap string Z;
  category_averages : gmap string Py.num;
  recent_trend : string;
}.

Definition required_fields : list string :=
  ["property_id"; "guest_id"; "booking_id"; "overall_rating"; "comment"].

Definition rating_fields : list string :=
  ["overall_rating"; "cleanliness_rating"; "accuracy_rating";
   "communication_rating"; "location_rating"; "check_in_rating"; "value_rating"].

Definition categories : list string :=
  ["cleanliness_rating"; "accuracy_rating"; "communication_rating";
   "location_rating"; "check_in_rating"; "value_rating"].

Fixpoint check_required (data : record) (fields : list string) : result unit :=
  match fields with
  | [] => Ok ()
  | field :: rest =>
      if has_key data field then check_required data rest
      else Err (ValidationError ("Field '" ++ field ++ "' is required"))
  end.

(** [not isinstance(rating, int) or rating < 1 or rating > 5] *)
Definition bad_rating (rating : Py.value) : bool :=
  match rating with
  | Py.VInt z => (z <? 1) || (5 <? z)
  | Py.VBool b => negb b
  | _ => true
  end.

Fixpoint check_ratings (data : record) (fields : list string) : result unit :=
  match fields with
  | [] => Ok ()
  | field :: rest =>
      match data !! field with
      | Some rating =>
          if bad_rating rating
          then Err (ValidationError
                      (field ++ " must be an integer between 1 and 5"))
          else check_ratings data rest
      | None => check_ratings data rest
      end
  end.

(** [if not manager.find_by_id(file, item_id)] *)
Definition found (item : option record) : bool :=
  match item with
  | Some r => nonempty r
  | None => false
  end.

(** [sorted(reviews, key=lambda x: x.get("created_at", ""), reverse=True)]:
    a stable sort on [<] alone, the greatest key first, records with equal
    keys in their original order.  (Keys that are NaN would not sort.) *)
Definition sort_key (review : record) : Py.value :=
  get_or review "created_at" (Py.VStr "").

Fixpoint insert_desc (x : record) (l : list record) : result (list record) :=
  match l with
  | [] => Ok [x]
  | y :: l' =>
      below ← Py.lt (sort_key x) (sort_key y);
      if below : bool then cons y <$> insert_desc x l'
      else Ok (x :: y :: l')
  end.

Fixpoint sorted_desc (l : list record) : result (list record) :=
  match l with
  | [] => Ok []
  | x :: l' => s ← sorted_desc l'; insert_desc x s
  end.

(** [sum(r.get("overall_rating", 0) for r in reviews) / len(reviews)] *)
Definition mean_overall (reviews : list record) : result Py.num :=
  total ← Py.sum ((fun r => get_or r "overall_rating" (Py.VInt 0)) <$> reviews);
  Py.truediv total (Py.NInt (Z.of_nat (length reviews))).

Definition classify_trend (diff : Py.num) : string :=
  if Py.gtb diff (Py.NFloat 0.3%float) then "improving"
  else if Py.ltb diff (Py.NFloat (-0.3)%float) then "declining"
  else "stable".

Definition _calculate_rating_trend (reviews : list record) : result string :=
  if (length reviews <? 10)%nat then Ok "insufficient_data"%string
  else
    sorted_reviews ← sorted_desc reviews;
    let recent_10 := take 10 sorted_reviews in
    let previous_10 :=
      if (20 <=? length sorted_reviews)%nat
      then take 10 (drop 10 sorted_reviews)
      else drop 10 sorted_reviews in
    match previous_10 with
    | [] => Ok "stable"%string
    | _ :: _ =>
        recent_avg ← mean_overall recent_10;
        previous_avg ← mean_overall previous_10;
        diff ← Py.sub recent_avg previous_avg;
        Ok (classify_trend diff)
    end.

(** [len([r for r in overall_ratings if r == rating])] *)
Definition count_rating (overall_ratings : list Py.value) (rating : Z) : Z :=
  Z.of_nat (length (List.filter (fun r => Py.eq r (Py.VInt rating)) overall_ratings)).

(** The loop [for rating in range(1, 6)] filling the distribution. *)
Definition distribution (overall_ratings : list Py.value) : gmap string Z :=
  foldl (fun d rating => <[pretty rating := count_rating overall_ratings rating]> d)
        ∅ [1; 2; 3; 4; 5].

(** The loop over the categories: a category no review has a true value for
    gets no entry. *)
Fixpoint category_means (public_reviews : list record) (cats : list string)
    (acc : gmap string Py.num) : result (gmap string Py.num) :=
  match cats with
  | [] => Ok acc
  | category :: rest =>
      let ratings :=
        (fun r => get_or r category (Py.VInt 0))
          <$> List.filter (fun r => Py.truthy (get r category)) public_reviews in
      match ratings with
      | [] => category_means public_reviews rest acc
      | _ :: _ =>
          total ← Py.sum ratings;
          mean ← Py.truediv total (Py.NInt (Z.of_nat (length ratings)));
          category_means public_reviews rest (<[category := Py.round2 mean]> acc)
      end
  end.

Definition get_primary_file : string := "property_reviews.json".

Definition find_by_field (st : fs) (field : string) (value : Py.value)
    : list record :=
  DataManager.find_by_field DataManager.reviews_manager st get_primary_file
    field value.

Definition validate_data (st : fs) (data : record) (operation : string)
    : result record :=
  validated_data ← BaseService.base_validate_data data operation;
  if String.eqb operation "create" then
    _ ← check_required validated_data required_fields;
    property_id ← require "property_id" (validated_data !! "property_id");
    _ ← (if found (DataManager.find_by_id DataManager.properties_manager st
                     "rooms.json" property_id)
         then Ok ()
         else Err (ValidationError
                     ("Property with ID " ++ Py.str property_id ++ " not found")));
    guest_id ← require "guest_id" (validated_data !! "guest_id");
    _ ← (if found (DataManager.find_by_id DataManager.users_manager st
                     "users.json" guest_id)
         then Ok ()
         else Err (ValidationError
                     ("User with ID " ++ Py.str guest_id ++ " not found")));
    booking_id ← require "booking_id" (validated_data !! "booking_id");
    let booking :=
      DataManager.find_by_id DataManager.bookings_manager st "bookings.json"
        booking_id in
    booking ← (match booking with
               | Some b =>
                   if nonempty b then Ok b
                   else Err (ValidationError
                               ("Booking with ID " ++ Py.str booking_id
                                  ++ " not found"))
               | None => Err (ValidationError
                                ("Booking with ID " ++ Py.str booking_id
                                   ++ " not found"))
               end);
    booking_guest ← require "guest_id" (booking !! "guest_id");
    _ ← (if Py.eq booking_guest guest_id then Ok ()
         else Err (ValidationError "You can only review your own bookings"));
    booking_property ← require "property_id" (booking !! "property_id");
    _ ← (if Py.eq booking_property property_id then Ok ()
         else Err (ValidationError "Booking does not match the property"));
    _ ← (if Py.eq (get booking "status") (Py.VStr "completed") then Ok ()
         else Err (ValidationError "You can only review completed bookings"));
    _ ← (match find_by_field st "booking_id" booking_id with
         | [] => Ok ()
         | _ :: _ => Err (ValidationError "Review already exists for this booking")
         end);
    _ ← check_ratings validated_data rating_fields;
    _ ← (match get_or validated_data "comment" (Py.VStr "") with
         | Py.VStr comment =>
             if Py.len comment <? 10
             then Err (ValidationError
                         "Comment must be at least 10 characters long")
             else if 1000 <? Py.len comment
             then Err (ValidationError "Comment cannot exceed 1000 characters")
             else Ok ()
         | _ => Err TypeError
         end);
    Ok (<["is_public" := get_or validated_data "is_public" (Py.VBool true)]>
          validated_data)
  else Ok validated_data.

Definition service : BaseService.t :=
  {| BaseService.data_manager := DataManager.reviews_manager;
     BaseService.domain_name := "review";
     BaseService.get_primary_file := get_primary_file;
     BaseService.validate_data := validate_data |}.

(** [[r for r in reviews if r.get("is_public", True)]] for one property. *)
Definition public_reviews (st : fs) (property_id : Py.value) : list record :=
  List.filter (fun r => Py.truthy (get_or r "is_public" (Py.VBool true)))
    (find_by_field st "property_id" property_id).

(** The body of the [try]. *)
Definition review_statistics (st : fs) (property_id : Py.value)
    : result statistics :=
  let public_reviews := public_reviews st property_id in
  match public_reviews with
  | [] =>
      Ok {| total_reviews := 0;
            average_rating := Py.NInt 0;
            rating_distribution := ∅;
            category_averages := ∅;
            recent_trend := "stable" |}
  | _ :: _ =>
      let total_reviews := Z.of_nat (length public_reviews) in
      let overall_ratings :=
        (fun r => get_or r "overall_rating" (Py.VInt 0)) <$> public_reviews in
      total ← Py.sum overall_ratings;
      average_rating ← Py.truediv total (Py.NInt total_reviews);
      let rating_distribution := distribution overall_ratings in
      category_averages ← category_means public_reviews categories ∅;
      recent_trend ← _calculate_rating_trend public_reviews;
      Ok {| total_reviews := total_reviews;
            average_rating := Py.round2 average_rating;
            rating_distribution := rating_distribution;
            category_averages := category_averages;
            recent_trend := recent_trend |}
  end.

(** [except Exception: return {}]: [None] stands for the empty dictionary. *)
Definition get_review_statistics (st : fs) (property_id : Py.value)
    : option statistics :=
  match review_statistics st property_id with
  | Ok stats => Some stats
  | Err _ => None
  end.

(** [response_date] and [timestamp] are the two readings of the clock, the
    first for [host_response_date], the second inside [update]. *)
Definition add_host_response (st : fs) (review_id : Py.value) (response : string)
    (host_id : Py.value) (response_date timestamp : string)
    : result (record * fs) :=
  review ← BaseService.get_by_id service st review_id;
  if Py.truthy (get review "host_response")
  then Err (ValidationError "Host response already exists")
  else if Py.len (Py.strip response) <? 10
  then Err (ValidationError "Host response must be at least 10 characters")
  else
    BaseService.update service st review_id
      (<["host_response" := Py.VStr (Py.strip response)]>
         {["host_response_date" := Py.VStr response_date]})
      timestamp.

(** The dictionary [enrich_review_with_guest] puts under ["guest"]: none
    when the review names no guest, when the guest is not on file, or when
    the guest's record lacks one of the three fields indexed (the
    [KeyError] is caught and logged). *)
Definition guest_summary (st : fs) (review : record) : option record :=
  let guest_id := get review "guest_id" in
  if Py.truthy guest_id then
    match DataManager.find_by_id DataManager.users_manager st "users.json"
            guest_id with
    | Some guest =>
        if nonempty guest then
          id ← guest !! "id";
          first_name ← guest !! "first_name";
          last_name ← guest !! "last_name";
          Some (<["avatar" := get guest "avatar"]>
                  (<["last_name" := last_name]>
                     (<["first_name" := first_name]> {["id" := id]})))
        else None
    | None => None
    end
  else None.

(** The review, and the dictionary added to its copy under ["guest"]. *)
Definition enrich_review_with_guest (st : fs) (review : record)
    : record * option record :=
  (review, guest_summary st review).

(** [except Exception: return []] *)
Definition get_property_reviews (st : fs) (property_id : Py.value)
    (page limit : Z) (public_only : bool) : list (record * option record) :=
  let reviews := find_by_field st "property_id" property_id in
  let reviews :=
    if public_only
    then List.filter (fun r => Py.truthy (get_or r "is_public" (Py.VBool true)))
           reviews
    else reviews in
  match sorted_desc reviews with
  | Ok sorted_reviews =>
      let skip := (page - 1) * limit in
      let end_idx := Z.min (skip + limit) (Z.of_nat (length sorted_reviews)) in
      enrich_review_with_guest st <$> Py.slice sorted_reviews skip end_idx
  | Err _ => []
  end.

(** [property_id] and [guest_id] are [None] or the value to filter by.  The
    reviews come from [get_all()] with its defaults, no skip and the limit
    100; the sort is not guarded. *)
Definition get_reviews (st : fs) (property_id guest_id : Py.value)
    (page limit : Z) : result (list record) :=
  let reviews := BaseService.get_all service st 0 100 None in
  let reviews :=
    match property_id with
    | Py.VNone => reviews
    | _ => List.filter (fun r => Py.eq (get r "property_id") property_id) reviews
    end in
  let reviews :=
    match guest_id with
    | Py.VNone => reviews
    | _ => List.filter (fun r => Py.eq (get r "guest_id") guest_id) reviews
    end in
  reviews ← sorted_desc reviews;
  let start := (page - 1) * limit in
  let end_idx := start + limit in
  Ok (Py.slice reviews start end_idx).

End ReviewService.

(** ** services/payment_service.py *)

Module PaymentService.

Definition required_fields : list string :=
  ["booking_id"; "amount"; "payment_method"].

Definition valid_methods : list string :=
  ["credit_card"; "debit_card"; "paypal"; "bank_transfer"; "apple_pay";
   "google_pay"].

Fixpoint check_required (data : record) (fields : list string) : result unit :=
  match fields with
  | [] => Ok ()
  | field :: rest =>
      if has_key data field then check_required data rest
      else Err (ValidationError ("Field '" ++ field ++ "' is required"))
  end.

(** [', '.join(valid_methods)] *)
Fixpoint join (sep : string) (l : list string) : string :=
  match l with
  | [] => ""
  | [x] => x
  | x :: l' => (x ++ sep ++ join sep l')%string
  end.

(** [not isinstance(amount, (int, float)) or amount <= 0] *)
Definition bad_amount (amount : Py.value) : bool :=
  match Py.as_num amount with
  | Some a => Py.leb a (Py.NInt 0)
  | None => true
  end.

Section Methods.
(** What [_generate_transaction_id()] returns at this call (a date and a
    random suffix). *)
Variable transaction_id : string.

Definition get_primary_file : string := "payments.json".

Definition validate_data (st : fs) (data : record) (operation : string)
    : result record :=
  validated_data ← BaseService.base_validate_data data operation;
  if String.eqb operation "create" then
    _ ← check_required validated_data required_fields;
    booking_id ← require "booking_id" (validated_data !! "booking_id");
    _ ← (if ReviewService.found
              (DataManager.find_by_id DataManager.bookings_manager st
                 "bookings.json" booking_id)
         then Ok ()
         else Err (ValidationError
                     ("Booking with ID " ++ Py.str booking_id ++ " not found")));
    amount ← require "amount" (validated_data !! "amount");
    _ ← (if bad_amount amount
         then Err (ValidationError "Amount must be a positive number")
         else Ok ());
    payment_method ← require "payment_method" (validated_data !! "payment_method");
    _ ← (if Py.elem_of_list payment_method (Py.VStr <$> valid_methods)
         then Ok ()
         else Err (ValidationError
                     ("Invalid payment method. Must be one of: "
                        ++ join ", " valid_methods)));
    let validated_data :=
      <["status" := get_or validated_data "status" (Py.VStr "pending")]>
        validated_data in
    let validated_data :=
      <["currency" := get_or validated_data "currency" (Py.VStr "USD")]>
        validated_data in
    let validated_data :=
      <["transaction_id" :=
          get_or validated_data "transaction_id" (Py.VStr transaction_id)]>
        validated_data in
    Ok validated_data
  else Ok validated_data.

Definition service : BaseService.t :=
  {| BaseService.data_manager := DataManager.payments_manager;
     BaseService.domain_name := "payment";
     BaseService.get_primary_file := get_primary_file;
     BaseService.validate_data := validate_data |}.

(** [sum(r.get("amount", 0) for r in existing_refunds
        if r.get("status") == "completed")] *)
Definition total_refunded (existing_refunds : list record) : result Py.num :=
  Py.sum ((fun r => get_or r "amount" (Py.VInt 0))
            <$> List.filter
                  (fun r => Py.eq (get r "status") (Py.VStr "completed"))
                  existing_refunds).

(** The two guards on the amount; the result is the amount to refund. *)
Definition check_refund_amount (total_refunded : Py.num)
    (original_amount : Py.value) (refund_amount : option Py.num)
    : result Py.num :=
  refund_amount ←
    match refund_amount with
    | Some a => Ok a
    | None => original ← Py.to_num original_amount; Py.sub original total_refunded
    end;
  if Py.leb refund_amount (Py.NInt 0)
  then Err (ValidationError "Invalid refund amount")
  else
    after ← Py.add total_refunded refund_amount;
    original ← Py.to_num original_amount;
    if Py.gtb after original
    then Err (ValidationError "Refund amount exceeds original payment")
    else Ok refund_amount.

(** [initiate_refund] up to and including the creation of the refund
    record; the gateway simulation and the status update come after. *)
Definition initiate_refund (st : fs) (payment_id : Py.value)
    (refund_amount : option Py.num) (reason : string) (timestamp : string)
    : result (record * fs) :=
  payment ← BaseService.get_by_id service st payment_id;
  if negb (Py.eq (get payment "status") (Py.VStr "completed"))
  then Err (ValidationError "Can only refund completed payments")
  else
    let existing_refunds :=
      BaseService.find_by_field service st "original_payment_id" payment_id in
    total_refunded ← total_refunded existing_refunds;
    original_amount ← require "amount" (payment !! "amount");
    refund_amount ← check_refund_amount total_refunded original_amount refund_amount;
    booking_id ← require "booking_id" (payment !! "booking_id");
    payment_method ← require "payment_method" (payment !! "payment_method");
    let refund_data : record :=
      <["original_payment_id" := payment_id]>
     (<["booking_id" := booking_id]>
     (<["amount" := Py.of_num (Py.neg refund_amount)]>
     (<["payment_method" := payment_method]>
     (<["status" := Py.VStr "pending"]>
     (<["transaction_type" := Py.VStr "refund"]>
     (<["refund_reason" := Py.VStr reason]>
     (<["currency" := get_or payment "currency" (Py.VStr "USD")]> ∅))))))) in
    BaseService.create service st refund_data timestamp.

End Methods.

End PaymentService.

(** ** services/booking_service.py *)

Module BookingService.

(** [value.replace('Z', '+00:00')] on a field that should hold a string. *)
Definition replace_Z_of (v : Py.value) : result string :=
  match v with
  | Py.VStr s => Ok (Py.replace_Z s)
  | _ => Err AttributeError
  end.

(** A request as the front end sends it: the fields that hold plain values,
    and the dictionaries under ["guestCount"] and ["roomData"] when the
    request has them. *)
Record frontend_request : Type := {
  fields : record;
  guestCount : option record;
  roomData : option record;
}.

(** [if key in frontend_data: transformed_data[key] = frontend_data[key]] *)
Definition copy_field (frontend_data : record) (key : string)
    (transformed_data : record) : record :=
  match frontend_data !! key with
  | Some v => <[key := v]> transformed_data
  | None => transformed_data
  end.

(** The new dictionary has the seven keys below and the four copied ones,
    and no other. *)
Definition _transform_frontend_booking_data (frontend_data : frontend_request)
    : result record :=
  let top := fields frontend_data in
  guests ←
    match guestCount frontend_data with
    | Some guest_count =>
        Py.plus (get_or guest_count "adults" (Py.VInt 1))
                (get_or guest_count "children" (Py.VInt 0))
    | None => Ok (get_or top "number_of_guests" (Py.VInt 1))
    end;
  let room_price :=
    match roomData frontend_data with
    | Some room_data => get room_data "price"
    | None => Py.VNone
    end in
  let transformed_data : record :=
    <["status" := get_or top "status" (Py.VStr "pending")]>
   (<["total_price" := Py.or_else (get top "totalAmount")
                         (get_or top "total_price" (Py.VInt 0))]>
   (<["base_price" := Py.or_else room_price (get_or top "base_price" (Py.VInt 0))]>
   (<["guests" := guests]>
   (<["check_out" := Py.or_else (get top "endDate") (get top "check_out_date")]>
   (<["check_in" := Py.or_else (get top "startDate") (get top "check_in_date")]>
      {["room_id" := get top "roomId"]}))))) in
  Ok (copy_field top "payment_status"
        (copy_field top "service_fee"
           (copy_field top "cleaning_fee"
              (copy_field top "guest_id" transformed_data)))).

Section Methods.
(** [datetime.fromisoformat(s).date()], [None] when [fromisoformat] raises
    [ValueError].  Which strings it reads depends on the Python version
    (3.11 reads more forms than 3.7), so it stays a parameter. *)
Variable fromisoformat_date : string → option Py.date.

Definition get_primary_file : string := "bookings.json".

(** [datetime.fromisoformat(v.replace('Z', '+00:00')).date()] *)
Definition parse_date (v : Py.value) : result Py.date :=
  s ← replace_Z_of v;
  match fromisoformat_date s with
  | Some d => Ok d
  | None => Err ValueError
  end.

Definition find_by_field (st : fs) (field : string) (value : Py.value)
    : list record :=
  DataManager.find_by_field DataManager.bookings_manager st get_primary_file
    field value.

(** One turn of the loop over the existing bookings: [Ok true] when the
    booking is active and its range meets the requested one. *)
Definition conflicts (check_in check_out : Py.date) (booking : record)
    : result bool :=
  if Py.elem_of_list (get booking "status")
       [Py.VStr "confirmed"; Py.VStr "pending"]
  then
    v_in ← require "check_in" (booking !! "check_in");
    booking_check_in ← parse_date v_in;
    v_out ← require "check_out" (booking !! "check_out");
    booking_check_out ← parse_date v_out;
    Ok (negb (Py.date_leb check_out booking_check_in
              || Py.date_geb check_in booking_check_out))
  else Ok false.

(** The loop: [return False] at the first conflict, an exception at the
    first booking that cannot be read. *)
Fixpoint scan (check_in check_out : Py.date) (bookings : list record)
    : result bool :=
  match bookings with
  | [] => Ok true
  | booking :: rest =>
      hit ← conflicts check_in check_out booking;
      if hit : bool then Ok false else scan check_in check_out rest
  end.

(** [except Exception: return False] *)
Definition _check_availability (st : fs) (property_id : Py.value)
    (check_in check_out : Py.date) : bool :=
  match scan check_in check_out (find_by_field st "property_id" property_id) with
  | Ok available => available
  | Err _ => false
  end.

(** The body of the [try] in [calculate_total_price]. *)
Definition total_price (st : fs) (booking_data : record) : result Py.num :=
  room_id ← require "room_id" (booking_data !! "room_id");
  property_data ←
    match DataManager.find_by_id DataManager.properties_manager st
            "rooms.json" room_id with
    | Some p => if nonempty p then Ok p
                else Err (ValidationError "Property not found")
    | None => Err (ValidationError "Property not found")
    end;
  v_in ← require "check_in" (booking_data !! "check_in");
  check_in ← parse_date v_in;
  v_out ← require "check_out" (booking_data !! "check_out");
  check_out ← parse_date v_out;
  let nights := Py.NInt (Py.days_between check_out check_in) in
  price_per_night ← Py.to_num (get_or property_data "price_per_night" (Py.VInt 0));
  total_price ← Py.mul nights price_per_night;
  service_fee ← Py.mul total_price (Py.NFloat 0.1%float);
  taxes ← Py.mul total_price (Py.NFloat 0.05%float);
  with_fee ← Py.add total_price service_fee;
  total ← Py.add with_fee taxes;
  Ok (Py.round2 total).

(** [except Exception]: every failure leaves as the same
    [ValidationError]. *)
Definition calculate_total_price (st : fs) (booking_data : record)
    : result Py.num :=
  match total_price st booking_data with
  | Ok total => Ok total
  | Err _ => Err (ValidationError "Failed to calculate booking price")
  end.

(** [date.today()] at the time of the call. *)
Variable today : Py.date.

Definition required_fields : list string :=
  ["property_id"; "guest_id"; "check_in"; "check_out"; "guests"].

(** [try: ... except ValueError]: a date that cannot be read is a
    [ValidationError]; a value that is not a string has no [replace] and its
    [AttributeError] passes through. *)
Definition parse_date_or_invalid (v : Py.value) : result Py.date :=
  match parse_date v with
  | Err ValueError =>
      Err (ValidationError "Invalid date format. Use ISO format (YYYY-MM-DD)")
  | r => r
  end.

Definition validate_data (st : fs) (data : record) (operation : string)
    : result record :=
  validated_data ← BaseService.base_validate_data data operation;
  if String.eqb operation "create" then
    _ ← ReviewService.check_required validated_data required_fields;
    property_id ← require "property_id" (validated_data !! "property_id");
    property_data ←
      match DataManager.find_by_id DataManager.properties_manager st
              "rooms.json" property_id with
      | Some p =>
          if nonempty p then Ok p
          else Err (ValidationError
                      ("Property with ID " ++ Py.str property_id ++ " not found"))
      | None => Err (ValidationError
                       ("Property with ID " ++ Py.str property_id ++ " not found"))
      end;
    guest_id ← require "guest_id" (validated_data !! "guest_id");
    _ ← (if ReviewService.found
              (DataManager.find_by_id DataManager.users_manager st "users.json"
                 guest_id)
         then Ok ()
         else Err (ValidationError
                     ("User with ID " ++ Py.str guest_id ++ " not found")));
    check_in ← require "check_in" (validated_data !! "check_in");
    check_out ← require "check_out" (validated_data !! "check_out");
    check_in_date ← parse_date_or_invalid check_in;
    check_out_date ← parse_date_or_invalid check_out;
    _ ← (if Py.date_geb check_in_date check_out_date
         then Err (ValidationError "Check-out date must be after check-in date")
         else Ok ());
    _ ← (if Py.date_ltb check_in_date today
         then Err (ValidationError "Check-in date cannot be in the past")
         else Ok ());
    guests ← require "guests" (validated_data !! "guests");
    too_few ← Py.lt guests (Py.VInt 1);
    _ ← (if too_few : bool
         then Err (ValidationError "Number of guests must be at least 1")
         else Ok ());
    let max_guests := get_or property_data "max_guests" (Py.VInt 1) in
    too_many ← Py.lt max_guests guests;
    _ ← (if too_many : bool
         then Err (ValidationError
                     ("Property can accommodate maximum " ++ Py.str max_guests
                        ++ " guests"))
         else Ok ());
    _ ← (if _check_availability st property_id check_in_date check_out_date
         then Ok ()
         else Err (ConflictError "Property is not available for selected dates"));
    Ok (if has_key validated_data "status" then validated_data
        else <["status" := Py.VStr "pending"]> validated_data)
  else Ok validated_data.

Definition service : BaseService.t :=
  {| BaseService.data_manager := DataManager.bookings_manager;
     BaseService.domain_name := "booking";
     BaseService.get_primary_file := get_primary_file;
     BaseService.validate_data := validate_data |}.

Definition confirm_booking (st : fs) (booking_id : Py.value) (timestamp : string)
    : result (record * fs) :=
  booking ← BaseService.get_by_id service st booking_id;
  if negb (Py.eq (get booking "status") (Py.VStr "pending"))
  then Err (ValidationError "Only pending bookings can be confirmed")
  else BaseService.update service st booking_id
         {["status" := Py.VStr "confirmed"]} timestamp.

(** [reason] is [None] or a string, an empty one counting as none;
    [cancelled_at] is the clock read for the field of that name, [timestamp]
    the one read inside [update]. *)
Definition cancel_booking (st : fs) (booking_id : Py.value)
    (reason : option string) (cancelled_at timestamp : string)
    : result (record * fs) :=
  booking ← BaseService.get_by_id service st booking_id;
  if Py.elem_of_list (get booking "status")
       [Py.VStr "cancelled"; Py.VStr "completed"]
  then Err (ValidationError "Booking cannot be cancelled")
  else
    let update_data : record :=
      match reason with
      | Some r =>
          if String.eqb r "" then {["status" := Py.VStr "cancelled"]}
          else <["cancelled_at" := Py.VStr cancelled_at]>
                 (<["cancellation_reason" := Py.VStr r]>
                    {["status" := Py.VStr "cancelled"]})
      | None => {["status" := Py.VStr "cancelled"]}
      end in
    BaseService.update service st booking_id update_data timestamp.

(** A request with ["roomId"] or ["startDate"] is transformed; any other is
    handed on as it is, and is taken to hold plain values only. *)
Definition create_booking (st : fs) (request : frontend_request)
    (timestamp : string) : result (record * fs) :=
  booking_data ←
    (if has_key (fields request) "roomId" || has_key (fields request) "startDate"
     then _transform_frontend_booking_data request
     else Ok (fields request));
  booking_data ←
    (if Py.eq (get_or booking_data "total_price" (Py.VInt 0)) (Py.VInt 0)
     then total_price ← calculate_total_price st booking_data;
          Ok (<["total_price" := Py.of_num total_price]> booking_data)
     else Ok booking_data);
  BaseService.create service st booking_data timestamp.

End Methods.

End BookingService.

(** ** services/property_service.py *)

Module PropertyService.

Definition required_fields : list string :=
  ["title"; "description"; "price_per_night"; "city"; "country";
   "property_type"].

(** [field not in validated_data or not validated_data[field]] raises. *)
Fixpoint check_required (data : record) (fields : list string) : result unit :=
  match fields with
  | [] => Ok ()
  | field :: rest =>
      if has_key data field && Py.truthy (get data field)
      then check_required data rest
      else Err (ValidationError ("Field '" ++ field ++ "' is required"))
  end.

(** [not isinstance(price, (int, float)) or price <= 0] *)
Definition bad_price (price : Py.value) : bool :=
  match Py.as_num price with
  | Some p => Py.leb p (Py.NInt 0)
  | None => true
  end.

(** [not isinstance(max_guests, int) or max_guests < 1] *)
Definition bad_max_guests (max_guests : Py.value) : bool :=
  match max_guests with
  | Py.VInt z => z <? 1
  | Py.VBool b => negb b
  | _ => true
  end.

Definition get_primary_file : string := "rooms.json".

Definition validate_data (st : fs) (data : record) (operation : string)
    : result record :=
  validated_data ← BaseService.base_validate_data data operation;
  if String.eqb operation "create" then
    _ ← check_required validated_data required_fields;
    _ ← (if bad_price (get validated_data "price_per_night")
         then Err (ValidationError "Price per night must be a positive number")
         else Ok ());
    _ ← (if bad_max_guests (get_or validated_data "max_guests" (Py.VInt 1))
         then Err (ValidationError "Maximum guests must be a positive integer")
         else Ok ());
    Ok validated_data
  else Ok validated_data.

Definition service : BaseService.t :=
  {| BaseService.data_manager := DataManager.properties_manager;
     BaseService.domain_name := "property";
     BaseService.get_primary_file := get_primary_file;
     BaseService.validate_data := validate_data |}.

End PropertyService.

(** ** services/room_service.py *)

Module RoomService.

Definition get_high_priority_file : string := "nyc-properties.json".

Definition get_primary_file (high_priority_file : bool) : string :=
  if high_priority_file then get_high_priority_file else "rooms.json".

(** The same checks as [PropertyService.validate_data], line for line. *)
Definition validate_data (st : fs) (data : record) (operation : string)
    : result record :=
  validated_data ← BaseService.base_validate_data data operation;
  if String.eqb operation "create" then
    _ ← PropertyService.check_required validated_data
          PropertyService.required_fields;
    _ ← (if PropertyService.bad_price (get validated_data "price_per_night")
         then Err (ValidationError "Price per night must be a positive number")
         else Ok ());
    _ ← (if PropertyService.bad_max_guests
              (get_or validated_data "max_guests" (Py.VInt 1))
         then Err (ValidationError "Maximum guests must be a positive integer")
         else Ok ());
    Ok validated_data
  else Ok validated_data.

(** [BaseService] calls [get_primary_file()], with the default [False]. *)
Definition service : BaseService.t :=
  {| BaseService.data_manager := DataManager.properties_manager;
     BaseService.domain_name := "room";
     BaseService.get_primary_file := get_primary_file false;
     BaseService.validate_data := validate_data |}.

End RoomService.

(** ** services/communication_service.py *)

Module CommunicationService.

Definition get_primary_file : string := "conversations.json".

(** On a create, [participants] has to be a list of at least two users on
    file.  A field of a [record] holds a scalar, so a [participants] that is
    present is here always the one [isinstance(participants, list)] turns
    down. *)
Definition validate_data (st : fs) (data : record) (operation : string)
    : result record :=
  validated_data ← BaseService.base_validate_data data operation;
  if String.eqb operation "create" then
    match validated_data !! "participants" with
    | Some participants =>
        Err (ValidationError "Conversation must have at least 2 participants")
    | None => Ok validated_data
    end
  else Ok validated_data.

Definition service : BaseService.t :=
  {| BaseService.data_manager := DataManager.communications_manager;
     BaseService.domain_name := "communication";
     BaseService.get_primary_file := get_primary_file;
     BaseService.validate_data := validate_data |}.

End CommunicationService.

(** ** Dates as plain [YYYY-MM-DD]

    The one form every Python version's [fromisoformat] reads alike: four
    digits, a dash, two digits, a dash, two digits, naming a day that exists.
    It is the reader the worked examples run with.  (Python also reads longer
    strings that carry a time; this reader does not, and no example has
    one.) *)

Module IsoDate.

Definition digit (c : ascii) : option Z :=
  if Py.is_digit c then Some (Z.of_N (N_of_ascii c) - 48) else None.

Fixpoint number (acc : Z) (cs : list ascii) : option Z :=
  match cs with
  | [] => Some acc
  | c :: cs' => d ← digit c; number (10 * acc + d) cs'
  end.

Definition valid (y m d : Z) : bool :=
  (1 <=? y) && (1 <=? m) && (m <=? 12) && (1 <=? d) && (d <=? Py.days_in_month y m).

Definition fromisoformat_date (s : string) : option Py.date :=
  match list_ascii_of_string s with
  | [y1; y2; y3; y4; dash1; m1; m2; dash2; d1; d2] =>
      if Ascii.eqb dash1 "-"%char && Ascii.eqb dash2 "-"%char then
        y ← number 0 [y1; y2; y3; y4];
        m ← number 0 [m1; m2];
        d ← number 0 [d1; d2];
        if valid y m d then Some {| Py.year := y; Py.month := m; Py.day := d |}
        else None
      else None
  | _ => None
  end.

End IsoDate.

(** ** Worked data *)

Module Example.

Definition rec (fields : list (string * Py.value)) : record := list_to_map fields.

Definition disk (contents : list (string * list record)) : fs :=
  {| files := list_to_map contents; writable := true |}.

Definition d (y m day : Z) : Py.date :=
  {| Py.year := y; Py.month := m; Py.day := day |}.

(** A public review of property 1, with its rating and creation time. *)
Definition review (id rating : Z) (created_at : string) : record :=
  rec [("id", Py.VInt id); ("property_id", Py.VInt 1);
       ("overall_rating", Py.VInt rating); ("created_at", Py.VStr created_at)].

(** Ten reviews of January 2024, rated 5, the newest last in the file. *)
Definition ten_reviews : list record :=
  [review 2 5 "2024-01-02T10:00:00"; review 3 5 "2024-01-03T10:00:00";
   review 4 5 "2024-01-04T10:00:00"; review 5 5 "2024-01-05T10:00:00";
   review 6 5 "2024-01-06T10:00:00"; review 7 5 "2024-01-07T10:00:00";
   review 8 5 "2024-01-08T10:00:00"; review 9 5 "2024-01-09T10:00:00";
   review 10 5 "2024-01-10T10:00:00"; review 11 5 "2024-01-11T10:00:00"].

(** The file of the rating example: public reviews of property 1 rated 5, 5,
    4, 3 and 5, a review of it that is not public, and a review of another
    property. *)
Definition rated (id property stars : Z) (is_public : bool) : record :=
  rec [("id", Py.VInt id); ("property_id", Py.VInt property);
       ("overall_rating", Py.VInt stars); ("is_public", Py.VBool is_public);
       ("created_at", Py.VStr "2024-02-01T09:00:00")].

Definition rated_reviews : fs :=
  disk [("data/reviews/property_reviews.json",
         [rated 1 1 5 true; rated 2 1 5 true; rated 3 1 4 true;
          rated 4 1 1 false; rated 5 2 2 true; rated 6 1 3 true;
          rated 7 1 5 true])].

(** Public reviews rated 5, 5 and 4. *)
Definition three_rated : fs :=
  disk [("data/reviews/property_reviews.json",
         [rated 1 1 5 true; rated 2 1 5 true; rated 3 1 4 true])].

(** The same after an older review rated 4. *)
Definition eleven_reviews : list record :=
  review 1 4 "2024-01-01T10:00:00" :: ten_reviews.

(** The ten reviews, the fifth with [null] for its time of creation. *)
Definition ten_reviews_one_undated : list record :=
  <[4%nat := <["created_at" := Py.VNone]> (review 6 5 "2024-01-06T10:00:00")]>
    ten_reviews.

End Example.

(** ** A caller of the record store *)

Module Caller.




End Caller.

(** ** The statements of the specification

    Definitions that follow the words of the specification, to be compared
    with the code. *)

Module Spec.

Section Availability.
Variable fromisoformat_date : string → option Py.date.

(** A booking that blocks dates: its status is pending or confirmed. *)
Definition active (booking : record) : bool :=
  Py.eq (get booking "status") (Py.VStr "confirmed")
  || Py.eq (get booking "status") (Py.VStr "pending").

(** The range [existing_in, existing_out) of a booking, when both of its
    dates are there and can be read. *)
Definition booked_range (booking : record) : result (Py.date * Py.date) :=
  v_in ← require "check_in" (booking !! "check_in");
  existing_in ← BookingService.parse_date fromisoformat_date v_in;
  v_out ← require "check_out" (booking !! "check_out");
  existing_out ← BookingService.parse_date fromisoformat_date v_out;
  Ok (existing_in, existing_out).

(** [NOT (requested_out <= existing_in OR requested_in >= existing_out)] *)
Definition overlap (requested_in requested_out existing_in existing_out : Py.date)
    : bool :=
  negb (Py.date_leb requested_out existing_in
        || Py.date_geb requested_in existing_out).

(** Some active booking of the property has a range that overlaps the
    requested one. *)
Definition overlapping_booking (st : fs) (property_id : Py.value)
    (requested_in requested_out : Py.date) : Prop :=
  ∃ booking existing_in existing_out,
    booking ∈ BookingService.find_by_field st "property_id" property_id
    ∧ active booking = true
    ∧ booked_range booking = Ok (existing_in, existing_out)
    ∧ overlap requested_in requested_out existing_in existing_out = true.

(** Some active booking of the property has a date that is missing or
    cannot be read. *)
Definition unreadable_booking (st : fs) (property_id : Py.value) : Prop :=
  ∃ booking e,
    booking ∈ BookingService.find_by_field st "property_id" property_id
    ∧ active booking = true
    ∧ booked_range booking = Err e.

End Availability.

(** [base = nights * price_per_night], [service_fee = base * 0.10],
    [tax = base * 0.05], [total = round(base + service_fee + tax, 2)], in
    Python's arithmetic. *)
Definition total_price (nights : Z) (price_per_night : Py.num) : result Py.num :=
  base ← Py.mul (Py.NInt nights) price_per_night;
  service_fee ← Py.mul base (Py.NFloat 0.10%float);
  tax ← Py.mul base (Py.NFloat 0.05%float);
  subtotal ← Py.add base service_fee;
  total ← Py.add subtotal tax;
  Ok (Py.round2 total).

(** The label of two means: "improving" when the difference exceeds 0.3,
    "declining" when it is below -0.3, "stable" otherwise. *)
Definition trend (recent previous : Py.num) : result string :=
  difference ← Py.sub recent previous;
  Ok (if Py.gtb difference (Py.NFloat 0.3%float) then "improving"
      else if Py.ltb difference (Py.NFloat (-0.3)%float) then "declining"
      else "stable")%string.

(** The overall ratings of some reviews, a missing one read as 0. *)
Definition overall_ratings (reviews : list record) : list Py.value :=
  (λ review, get_or review "overall_rating" (Py.VInt 0)) <$> reviews.

(** The mean of the overall ratings. *)
Definition mean_rating (overall_ratings : list Py.value) : result Py.num :=
  total ← Py.sum overall_ratings;
  Py.truediv total (Py.NInt (Z.of_nat (length overall_ratings))).

(** How many of the ratings equal the star value [stars]. *)
Definition count_of (stars : Z) (overall_ratings : list Py.value) : Z :=
  Z.of_nat (length (List.filter (λ r, Py.eq r (Py.VInt stars)) overall_ratings)).

(** One bucket for each star value 1 to 5, absent values counted 0. *)
Definition rating_distribution (overall_ratings : list Py.value) : gmap string Z :=
  list_to_map [("1", count_of 1 overall_ratings); ("2", count_of 2 overall_ratings);
               ("3", count_of 3 overall_ratings); ("4", count_of 4 overall_ratings);
               ("5", count_of 5 overall_ratings)]%string.

End Spec.

(** ** Data and notions for the further properties *)

(** One filter of [filter_data], as a test on a record. *)
Definition passes_filter (item : record) (filter : string * Py.value) : bool :=
  match filter.2 with
  | Py.VNone => true
  | value => Py.eq (get item filter.1) value
  end.

(** A room, a guest and a request for three nights in June. *)
Definition cabin : record :=
  Example.rec [("id", Py.VInt 7); ("max_guests", Py.VInt 4);
               ("price_per_night", Py.VInt 100)].
Definition guest : record :=
  Example.rec [("id", Py.VInt 3); ("email", Py.VStr "ann@example.com")].
Definition cabin_world : fs :=
  Example.disk [("data/properties/rooms.json", [cabin]);
                ("data/users/users.json", [guest])].
Definition june_request : record :=
  Example.rec [("property_id", Py.VInt 7); ("guest_id", Py.VInt 3);
               ("check_in", Py.VStr "2024-06-01");
               ("check_out", Py.VStr "2024-06-04"); ("guests", Py.VInt 2)].

(** What the front end sends for three nights in the cabin, with the guest
    id the route adds. *)
Definition june_frontend_request : BookingService.frontend_request :=
  {| BookingService.fields :=
       Example.rec [("roomId", Py.VStr "7"); ("userId", Py.VInt 3);
                    ("startDate", Py.VStr "2024-06-01");
                    ("endDate", Py.VStr "2024-06-04");
                    ("totalAmount", Py.VFloat 345%float);
                    ("bookingDate", Py.VStr "2024-05-01");
                    ("status", Py.VStr "pending"); ("guest_id", Py.VInt 3)];
     BookingService.guestCount :=
       Some (Example.rec [("adults", Py.VInt 2); ("children", Py.VInt 0);
                          ("infants", Py.VInt 0); ("pets", Py.VInt 0)]);
     BookingService.roomData :=
       Some (Example.rec [("title", Py.VStr "Cabin");
                          ("location", Py.VStr "Oslo");
                          ("price", Py.VFloat 100%float)]) |}.

(** The same stay in the back-end format, with the room under both names. *)
Definition june_backend_request : BookingService.frontend_request :=
  {| BookingService.fields :=
       <["room_id" := Py.VInt 7]> june_request;
     BookingService.guestCount := None;
     BookingService.roomData := None |}.

(** Two bookings of the cabin for the same nights, the second cancelled
    already. *)
Definition two_june_bookings : fs :=
  Example.disk
    [("data/bookings/bookings.json",
      [Example.rec [("id", Py.VInt 1); ("property_id", Py.VInt 7);
                    ("check_in", Py.VStr "2024-06-01");
                    ("check_out", Py.VStr "2024-06-04");
                    ("status", Py.VStr "confirmed")];
       Example.rec [("id", Py.VInt 2); ("property_id", Py.VInt 7);
                    ("check_in", Py.VStr "2024-06-01");
                    ("check_out", Py.VStr "2024-06-04");
                    ("status", Py.VStr "cancelled")]])].

(** * Properties *)

(** ** Strings *)

(** The characters of a string are the string, cut into pieces. *)
Lemma join_chars (s : string) : Py.join (Py.chars s) = s.
Proof.
  induction s as [|c s IH]; [done|]. cbn [Py.chars].
  unfold Py.join in *. destruct (Py.chars s) as [|ch rest]; cbn [foldr] in *.
  - by rewrite <- IH.
  - destruct (match s with
              | String c' _ => Py.is_continuation c'
              | EmptyString => false
              end); by rewrite <- IH.
Qed.

(** Characters are counted, not bytes; every white space is stripped, the
    no-break space and the ideographic space with the ASCII ones; letters of
    every script are lowered, and a capital sigma according to its place. *)
Lemma strings_by_character :
  Py.len "passwör" = 7
  ∧ Py.strip (Py.encode 0xA0 ++ Py.encode 0x85 ++ " short " ++ Py.encode 0x3000)
    = "short"%string
  ∧ Py.lower "ÉMILE@Example.com" = "émile@example.com"%string
  ∧ Py.lower "ΟΔΥΣΣΕΥΣ" = "οδυσσευς"%string
  ∧ Py.capitalize "éMILE" = "Émile"%string
  ∧ Py.int_of_string (Py.encode 0xA0 ++ "٣٤") = Ok 34.
Proof. repeat split; vm_compute; reflexivity. Qed.

(** ** The record store *)

Section DataManagerFacts.
Variable self : DataManager.t.

Lemma save_spec (st st' : fs) (file_name : string) (data : list record) (ok : bool) :
  DataManager.save self st file_name data = (st', ok) →
  if ok
  then writable st = true ∧ writable st' = true
       ∧ DataManager.load self st' file_name = data
  else writable st = false ∧ st' = st.
Proof.
  unfold DataManager.save, DataManager.load.
  destruct (writable st) eqn:Hw; intros [= <- <-]; cbn.
  - rewrite lookup_insert_eq. auto.
  - auto.
Qed.




Lemma create_inv (st st' : fs) (file_name : string) (new_item item : record)
    (ts : string) :
  DataManager.create self st file_name new_item ts = Ok (item, st') →
  ∃ n, DataManager.next_id (DataManager.load self st file_name) = Ok n
       ∧ item = DataManager.created_item n new_item ts
       ∧ writable st = true ∧ writable st' = true
       ∧ DataManager.load self st' file_name
         = DataManager.load self st file_name ++ [item].
Proof.
  unfold DataManager.create.
  destruct (DataManager.next_id _) as [n|e] eqn:Hn; cbn; [|done].
  destruct (DataManager.save _ _ _ _) as [st1 [|]] eqn:Hs; [|done].
  intros [= <- <-]. apply save_spec in Hs as (? & ? & ?). eauto 10.
Qed.


End DataManagerFacts.



(** *** Ids of successive creates *)

Section CreateAll.
Variable self : DataManager.t.
Variable file_name : string.







End CreateAll.




(** *** Updates and the id *)

Section UpdateFacts.
Variable self : DataManager.t.

Lemma index_of_spec (item_id : Py.value) (data : list record) (i : nat) :
  DataManager.index_of item_id data = Some i →
  ∃ item, data !! i = Some item
          ∧ DataManager.id_matches item_id item = true
          ∧ ∀ j other, (j < i)%nat → data !! j = Some other →
                       DataManager.id_matches item_id other = false.
Proof.
  revert i. induction data as [|first data IH]; intros i; cbn; [done|].
  destruct (DataManager.id_matches item_id first) eqn:Hm.
  - intros [= <-]. exists first. split; [done|]. split; [done|]. intros; lia.
  - destruct (DataManager.index_of item_id data) as [i'|]; cbn; [|done].
    intros [= <-]. destruct (IH i' eq_refl) as (item & Hi & Hmi & Hbefore).
    exists item. split; [done|]. split; [done|].
    intros [|j] other Hj Hother; cbn in Hother.
    + by injection Hother as <-.
    + apply (Hbefore j); [lia | done].
Qed.

Lemma updated_item_id (item updates : record) (ts : string) :
  updates !! "id" = None →
  DataManager.updated_item item updates ts !! "id" = item !! "id".
Proof.
  intros Hno. unfold DataManager.updated_item, merge_into.
  rewrite lookup_insert_ne by done. by rewrite lookup_union_r.
Qed.

Lemma updated_item_id_supplied (item updates : record) (ts : string) (v : Py.value) :
  updates !! "id" = Some v →
  DataManager.updated_item item updates ts !! "id" = Some v.
Proof.
  intros Hv. unfold DataManager.updated_item, merge_into.
  rewrite lookup_insert_ne by done. by apply lookup_union_Some_l.
Qed.

Lemma update_inv (st st' : fs) (file_name : string) (item_id : Py.value)
    (updates item' : record) (ts : string) :
  DataManager.update self st file_name item_id updates ts = Ok (Some item', st') →
  ∃ i item,
    DataManager.load self st file_name !! i = Some item
    ∧ DataManager.id_matches item_id item = true
    ∧ item' = DataManager.updated_item item updates ts
    ∧ DataManager.load self st' file_name
      = <[i := item']> (DataManager.load self st file_name).
Proof.
  unfold DataManager.update.
  destruct (DataManager.index_of _ _) as [i|] eqn:Hi; [|done].
  apply index_of_spec in Hi as (item & Hitem & Hm & _). rewrite Hitem.
  destruct (DataManager.save _ _ _ _) as [st1 [|]] eqn:Hs; [|done].
  intros [= <- <-]. apply save_spec in Hs as (_ & _ & Hl).
  exists i, item. done.
Qed.

End UpdateFacts.

Section ServiceUpdate.
Variable self : BaseService.t.

Lemma service_update_inv (st st' : fs) (item_id : Py.value) (data item' : record)
    (ts : string) :
  BaseService.update self st item_id data ts = Ok (item', st') →
  ∃ validated_data,
    BaseService.validate_data self st data "update" = Ok validated_data
    ∧ DataManager.update (BaseService.data_manager self) st
        (BaseService.get_primary_file self) item_id validated_data ts
      = Ok (Some item', st').
Proof.
  unfold BaseService.update.
  destruct (BaseService.get_by_id self st item_id) as [found|e]; cbn;
    [|by destruct (_ || _)].
  destruct (BaseService.validate_data self st data "update") as [vd|e] eqn:Hv;
    cbn; [|by destruct (_ || _)].
  destruct (DataManager.update _ _ _ _ _ _) as [[[item|] st1]|e] eqn:Hup; cbn;
    [| done | by destruct (_ || _)].
  destruct (nonempty item); cbn; [|done].
  intros [= <- <-]. eauto.
Qed.

End ServiceUpdate.

(** The user, review and payment services. *)
Definition modelled_service (service : BaseService.t) : Prop :=
  service = UserService.service
  ∨ service = ReviewService.service
  ∨ ∃ transaction_id, service = PaymentService.service transaction_id.

Lemma sanitize_other_key (key other : string) (f : string → string)
    (data data' : record) :
  key ≠ other →
  UserService.sanitize key f data = Ok data' →
  data' !! other = data !! other.
Proof.
  intros Hne. unfold UserService.sanitize.
  destruct (data !! key) as [[| | | |s]|]; try done.
  - intros [= <-]. by rewrite lookup_insert_ne.
  - by intros [= <-].
Qed.

(** On an update none of them touches a key it was not handed. *)
Lemma validate_update_keeps_id (service : BaseService.t) (st : fs)
    (data validated_data : record) :
  modelled_service service →
  BaseService.validate_data service st data "update" = Ok validated_data →
  validated_data !! "id" = data !! "id".
Proof.
  intros [-> | [-> | [txn ->]]]; cbn.
  - unfold UserService.validate_data, BaseService.base_validate_data.
    destruct (nonempty data); cbn; [|done].
    destruct (UserService.sanitize "email" _ data) as [d1|] eqn:H1; cbn; [|done].
    destruct (UserService.sanitize "first_name" _ d1) as [d2|] eqn:H2; cbn; [|done].
    destruct (UserService.sanitize "last_name" _ d2) as [d3|] eqn:H3; cbn; [|done].
    intros [= <-].
    rewrite (sanitize_other_key "last_name" "id" _ _ _ ltac:(done) H3).
    rewrite (sanitize_other_key "first_name" "id" _ _ _ ltac:(done) H2).
    by rewrite (sanitize_other_key "email" "id" _ _ _ ltac:(done) H1).
  - unfold ReviewService.validate_data, BaseService.base_validate_data.
    destruct (nonempty data); cbn; [|done]. by intros [= <-].
  - unfold PaymentService.validate_data, BaseService.base_validate_data.
    destruct (nonempty data); cbn; [|done]. by intros [= <-].
Qed.

(** The service layer: the seven subclasses of [BaseService]. *)
Definition service_of_layer (service : BaseService.t) : Prop :=
  service = UserService.service
  ∨ service = PropertyService.service
  ∨ service = RoomService.service
  ∨ (∃ fromisoformat_date today,
        service = BookingService.service fromisoformat_date today)
  ∨ service = ReviewService.service
  ∨ (∃ transaction_id, service = PaymentService.service transaction_id)
  ∨ service = CommunicationService.service.

(** On an update no service touches the ['id'] among the fields it is
    handed: all but the user service return the fields as they are. *)
Lemma layer_validate_update_keeps_id (service : BaseService.t) (st : fs)
    (data validated_data : record) :
  service_of_layer service →
  BaseService.validate_data service st data "update" = Ok validated_data →
  validated_data !! "id" = data !! "id".
Proof.
  intros [-> | [-> | [-> | [(parse & today & ->) | [-> | [[txn ->] | ->]]]]]].
  - by apply validate_update_keeps_id; left.
  - cbn. unfold PropertyService.validate_data, BaseService.base_validate_data.
    destruct (nonempty data); cbn; [|done]. by intros [= <-].
  - cbn. unfold RoomService.validate_data, BaseService.base_validate_data.
    destruct (nonempty data); cbn; [|done]. by intros [= <-].
  - cbn. unfold BookingService.validate_data, BaseService.base_validate_data.
    destruct (nonempty data); cbn; [|done]. by intros [= <-].
  - by apply validate_update_keeps_id; right; left.
  - apply validate_update_keeps_id; right; right. by exists txn.
  - cbn. unfold CommunicationService.validate_data,
      BaseService.base_validate_data.
    destruct (nonempty data); cbn; [|done]. by intros [= <-].
Qed.

(** C9, as amended.  An update whose fields do not name ['id'] leaves the id
    of the record it changes as it was, in the file and in the record it
    returns, and leaves every other record alone: through the record store,
    and through [update] of every service of the service layer. *)
Theorem update_preserves_id :
  (∀ (self : DataManager.t) (st st' : fs) (file_name : string)
     (item_id : Py.value) (updates item' : record) (ts : string),
      updates !! "id" = None →
      DataManager.update self st file_name item_id updates ts
      = Ok (Some item', st') →
      ∃ i item,
        DataManager.load self st file_name !! i = Some item
        ∧ DataManager.id_matches item_id item = true
        ∧ item' !! "id" = item !! "id"
        ∧ DataManager.load self st' file_name
          = <[i := item']> (DataManager.load self st file_name))
  ∧ (∀ (service : BaseService.t) (st st' : fs) (item_id : Py.value)
       (data item' : record) (ts : string),
        service_of_layer service →
        data !! "id" = None →
        BaseService.update service st item_id data ts = Ok (item', st') →
        ∃ i item,
          DataManager.load (BaseService.data_manager service) st
            (BaseService.get_primary_file service) !! i = Some item
          ∧ DataManager.id_matches item_id item = true
          ∧ item' !! "id" = item !! "id"
          ∧ DataManager.load (BaseService.data_manager service) st'
              (BaseService.get_primary_file service)
            = <[i := item']>
                (DataManager.load (BaseService.data_manager service) st
                   (BaseService.get_primary_file service))).
Proof.
  assert (Hstore : ∀ (self : DataManager.t) (st st' : fs) (file_name : string)
     (item_id : Py.value) (updates item' : record) (ts : string),
      updates !! "id" = None →
      DataManager.update self st file_name item_id updates ts
      = Ok (Some item', st') →
      ∃ i item,
        DataManager.load self st file_name !! i = Some item
        ∧ DataManager.id_matches item_id item = true
        ∧ item' !! "id" = item !! "id"
        ∧ DataManager.load self st' file_name
          = <[i := item']> (DataManager.load self st file_name)).
  { intros self st st' file_name item_id updates item' ts Hno Hup.
    apply update_inv in Hup as (i & item & Hi & Hm & -> & Hl).
    exists i, item. split; [done|]. split; [done|].
    split; [by apply updated_item_id | done]. }
  split; [exact Hstore|].
  intros service st st' item_id data item' ts Hsvc Hno Hup.
  apply service_update_inv in Hup as (vd & Hv & Hup).
  apply (Hstore _ _ _ _ _ vd _ ts); [|done].
  by rewrite (layer_validate_update_keeps_id service st data vd Hsvc Hv).
Qed.

Lemma update_preserves_id_witness :
  ∃ item' st',
    BaseService.update UserService.service
      (Example.disk
         [("data/users/users.json",
           [Example.rec [("id", Py.VInt 1); ("first_name", Py.VStr "Ann")]])])
      (Py.VInt 1) (Example.rec [("first_name", Py.VStr " Anna ")])
      "2024-05-02T09:00:00"
    = Ok (item', st')
    ∧ item' !! "id" = Some (Py.VInt 1)
    ∧ item' !! "first_name" = Some (Py.VStr "Anna").
Proof.
  assert ((λ r : record * fs, r.1 !! "first_name")
            <$> BaseService.update UserService.service
                  (Example.disk
                     [("data/users/users.json",
                       [Example.rec [("id", Py.VInt 1);
                                     ("first_name", Py.VStr "Ann")]])])
                  (Py.VInt 1) (Example.rec [("first_name", Py.VStr " Anna ")])
                  "2024-05-02T09:00:00"
          = Ok (Some (Py.VStr "Anna"))) as Hrun by (vm_compute; reflexivity).
  destruct (BaseService.update _ _ _ _ _) as [[item' st']|e] eqn:Hup;
    [|discriminate].
  injection Hrun as Hname. cbn in Hname.
  exists item', st'. split; [reflexivity|]. split; [|exact Hname].
  assert (Example.rec [("first_name", Py.VStr " Anna ")] !! "id" = None)
    as Hno by (vm_compute; reflexivity).
  destruct (proj2 update_preserves_id _ _ _ _ _ _ _
              (or_introl eq_refl) Hno Hup)
    as (i & item & Hi & _ & Hid & _).
  rewrite Hid.
  assert (DataManager.load (BaseService.data_manager UserService.service)
            (Example.disk
               [("data/users/users.json",
                 [Example.rec [("id", Py.VInt 1);
                               ("first_name", Py.VStr "Ann")]])])
            (BaseService.get_primary_file UserService.service)
          = [Example.rec [("id", Py.VInt 1); ("first_name", Py.VStr "Ann")]])
    as Hload by (vm_compute; reflexivity).
  rewrite Hload in Hi. clear Hup Hload Hno Hname.
  destruct i as [|i]; [|destruct i; discriminate Hi].
  injection Hi as <-. vm_compute. reflexivity.
Defined.

(** C9 as stated fails: an update that names ['id'] replaces the id, through
    the service layer as through the record store. *)
Lemma update_preserves_id_counterexample :
  (λ r : record, r !! "id")
    <$> DataManager.load DataManager.users_manager
          (Example.disk
             [("data/users/users.json",
               [Example.rec [("id", Py.VInt 1); ("first_name", Py.VStr "Ann")]])])
          "users.json"
  = [Some (Py.VInt 1)]
  ∧ ∃ item' st',
      BaseService.update UserService.service
        (Example.disk
           [("data/users/users.json",
             [Example.rec [("id", Py.VInt 1); ("first_name", Py.VStr "Ann")]])])
        (Py.VInt 1) (Example.rec [("id", Py.VInt 99)]) "2024-05-02T09:00:00"
      = Ok (item', st')
      ∧ item' !! "id" = Some (Py.VInt 99)
      ∧ (λ r : record, r !! "id")
          <$> DataManager.load DataManager.users_manager st' "users.json"
        = [Some (Py.VInt 99)].
Proof.
  split; [vm_compute; reflexivity|].
  assert ((λ r : record * fs,
             (r.1 !! "id",
              (λ r : record, r !! "id")
                <$> DataManager.load DataManager.users_manager r.2 "users.json"))
            <$> BaseService.update UserService.service
                  (Example.disk
                     [("data/users/users.json",
                       [Example.rec [("id", Py.VInt 1);
                                     ("first_name", Py.VStr "Ann")]])])
                  (Py.VInt 1) (Example.rec [("id", Py.VInt 99)])
                  "2024-05-02T09:00:00"
          = Ok (Some (Py.VInt 99), [Some (Py.VInt 99)]))
    as Hrun by (vm_compute; reflexivity).
  destruct (BaseService.update _ _ _ _ _) as [[item' st']|e]; [|discriminate].
  injection Hrun as Hid Hfile. cbn in Hid, Hfile.
  exists item', st'. split; [reflexivity|]. split; [exact Hid | exact Hfile].
Qed.

(** ** Booking availability *)

Section AvailabilityFacts.
Variable fromisoformat_date : string → option Py.date.

(** What one turn of the loop answers, in the words of the specification. *)
Lemma conflicts_spec (check_in check_out : Py.date) (booking : record) :
  BookingService.conflicts fromisoformat_date check_in check_out booking
  = if Spec.active booking
    then '(existing_in, existing_out) ← Spec.booked_range fromisoformat_date booking;
         Ok (Spec.overlap check_in check_out existing_in existing_out)
    else Ok false.
Proof.
  unfold BookingService.conflicts, Spec.active, Spec.booked_range, Py.elem_of_list.
  cbn [existsb]. rewrite orb_false_r.
  destruct (_ || _); [|reflexivity].
  destruct (require "check_in" _) as [v_in|]; cbn; [|reflexivity].
  destruct (BookingService.parse_date _ v_in) as [d_in|]; cbn; [|reflexivity].
  destruct (require "check_out" _) as [v_out|]; cbn; [|reflexivity].
  destruct (BookingService.parse_date _ v_out) as [d_out|]; cbn; reflexivity.
Qed.

(** The loop answers anything but "available" exactly when some booking
    conflicts or cannot be read. *)
Lemma scan_unavailable (check_in check_out : Py.date) (bookings : list record) :
  BookingService.scan fromisoformat_date check_in check_out bookings ≠ Ok true
  ↔ ∃ booking,
      booking ∈ bookings
      ∧ BookingService.conflicts fromisoformat_date check_in check_out booking
        ≠ Ok false.
Proof.
  induction bookings as [|first rest IH]; cbn.
  - split; [congruence|]. intros (booking & Hin & _). by apply elem_of_nil in Hin.
  - destruct (BookingService.conflicts _ _ _ first) as [[|]|e] eqn:Hc; cbn.
    + split; [|congruence]. intros _. exists first.
      split; [apply list_elem_of_here | congruence].
    + rewrite IH. split.
      * intros (booking & Hin & Hb). exists booking.
        split; [by apply list_elem_of_further | done].
      * intros (booking & Hin & Hb).
        apply elem_of_cons in Hin as [->|Hin]; [congruence|]. eauto.
    + split; [|congruence]. intros _. exists first.
      split; [apply list_elem_of_here | congruence].
Qed.

Lemma check_availability_false (st : fs) (property_id : Py.value)
    (check_in check_out : Py.date) :
  BookingService._check_availability fromisoformat_date st property_id
    check_in check_out = false
  ↔ ∃ booking,
      booking ∈ BookingService.find_by_field st "property_id" property_id
      ∧ BookingService.conflicts fromisoformat_date check_in check_out booking
        ≠ Ok false.
Proof.
  unfold BookingService._check_availability. rewrite <- scan_unavailable.
  destruct (BookingService.scan _ _ _ _) as [[|]|e]; split; congruence.
Qed.

Lemma conflicts_not_false (check_in check_out : Py.date) (booking : record) :
  BookingService.conflicts fromisoformat_date check_in check_out booking
  ≠ Ok false
  ↔ Spec.active booking = true
    ∧ ((∃ existing_in existing_out,
           Spec.booked_range fromisoformat_date booking
           = Ok (existing_in, existing_out)
           ∧ Spec.overlap check_in check_out existing_in existing_out = true)
       ∨ ∃ e, Spec.booked_range fromisoformat_date booking = Err e).
Proof.
  rewrite conflicts_spec.
  destruct (Spec.active booking); [|split; [congruence | intros [? _]; congruence]].
  destruct (Spec.booked_range _ booking) as [[d_in d_out]|e]; cbn.
  - destruct (Spec.overlap _ _ _ _) eqn:Ho; split.
    + intros _. split; [reflexivity|]. left. exists d_in, d_out. done.
    + congruence.
    + congruence.
    + intros [_ [(? & ? & [= <- <-] & ?)|[? ?]]]; congruence.
  - split; [|congruence]. intros _. split; [reflexivity|]. right. by exists e.
Qed.

End AvailabilityFacts.

(** The bookings of the worked example: property 1 is taken, confirmed, from
    1 June 2024 up to 5 June. *)
Definition june_booking : record :=
  Example.rec [("id", Py.VInt 1); ("property_id", Py.VInt 1);
               ("guest_id", Py.VInt 2); ("status", Py.VStr "confirmed");
               ("check_in", Py.VStr "2024-06-01");
               ("check_out", Py.VStr "2024-06-05")].

Definition june_bookings : fs :=
  Example.disk [("data/bookings/bookings.json", [june_booking])].

(** C1, as amended.  The availability check answers "unavailable" exactly
    when some booking of the property with status pending or confirmed
    either has a range [existing_in, existing_out) with
    [NOT (requested_out <= existing_in OR requested_in >= existing_out)], or
    has a check-in or check-out date that is missing or cannot be read: any
    exception makes the check answer "unavailable".  With a confirmed booking
    from 2024-06-01 to 2024-06-05, the request 2024-06-05 to 2024-06-08 is
    available and the request 2024-06-04 to 2024-06-06 is not. *)
Theorem check_availability_overlap :
  (∀ (fromisoformat_date : string → option Py.date) (st : fs)
     (property_id : Py.value) (check_in check_out : Py.date),
      BookingService._check_availability fromisoformat_date st property_id
        check_in check_out = false
      ↔ Spec.overlapping_booking fromisoformat_date st property_id
          check_in check_out
        ∨ Spec.unreadable_booking fromisoformat_date st property_id)
  ∧ BookingService._check_availability IsoDate.fromisoformat_date june_bookings
      (Py.VInt 1) (Example.d 2024 6 5) (Example.d 2024 6 8) = true
  ∧ BookingService._check_availability IsoDate.fromisoformat_date june_bookings
      (Py.VInt 1) (Example.d 2024 6 4) (Example.d 2024 6 6) = false.
Proof.
  split; [|split; vm_compute; reflexivity].
  intros reader st property_id check_in check_out.
  unfold Spec.overlapping_booking, Spec.unreadable_booking.
  rewrite check_availability_false. split.
  - intros (booking & Hin & Hc).
    apply conflicts_not_false in Hc as [Hact [(d_in & d_out & Hr & Ho)|[e He]]].
    + left. exists booking, d_in, d_out. done.
    + right. exists booking, e. done.
  - intros [(booking & d_in & d_out & Hin & Hact & Hr & Ho)
           |(booking & e & Hin & Hact & He)];
      exists booking; (split; [done|]); apply conflicts_not_false;
      (split; [done|]).
    + left. by exists d_in, d_out.
    + right. by exists e.
Qed.

(** A booking whose dates were written the American way. *)
Definition slash_booking : record :=
  Example.rec [("id", Py.VInt 1); ("property_id", Py.VInt 1);
               ("guest_id", Py.VInt 2); ("status", Py.VStr "confirmed");
               ("check_in", Py.VStr "06/01/2024");
               ("check_out", Py.VStr "06/05/2024")].

Definition slash_bookings : fs :=
  Example.disk [("data/bookings/bookings.json", [slash_booking])].

(** C1 as stated fails: a confirmed booking whose dates cannot be read makes
    the property unavailable for a stay in July, though no booking has a
    range that overlaps it. *)
Lemma check_availability_overlap_counterexample :
  BookingService._check_availability IsoDate.fromisoformat_date slash_bookings
    (Py.VInt 1) (Example.d 2024 7 10) (Example.d 2024 7 12) = false
  ∧ ¬ Spec.overlapping_booking IsoDate.fromisoformat_date slash_bookings
        (Py.VInt 1) (Example.d 2024 7 10) (Example.d 2024 7 12).
Proof.
  split; [vm_compute; reflexivity|].
  intros (booking & d_in & d_out & Hin & _ & Hr & _).
  assert (BookingService.find_by_field slash_bookings "property_id" (Py.VInt 1)
          = [slash_booking]) as Hl by (vm_compute; reflexivity).
  rewrite Hl in Hin. apply list_elem_of_singleton in Hin. subst booking.
  assert (Spec.booked_range IsoDate.fromisoformat_date slash_booking
          = Err ValueError) as He by (vm_compute; reflexivity).
  rewrite He in Hr. discriminate Hr.
Qed.

(** ** Booking price *)

(** C2.  For booking data whose room is on file with a numeric
    [price_per_night] and whose two dates can be read,
    [calculate_total_price] is [round(base + base * 0.10 + base * 0.05, 2)]
    with [base = nights * price_per_night] and [nights] the whole days from
    check-in to check-out; an overflow in that arithmetic leaves, like every
    failure, as the "Failed to calculate" [ValidationError]. *)
Theorem calculate_total_price_formula
    (fromisoformat_date : string → option Py.date) (st : fs)
    (booking_data property_data : record) (room_id v_in v_out price : Py.value)
    (check_in check_out : Py.date) (price_per_night : Py.num) :
  booking_data !! "room_id" = Some room_id →
  DataManager.find_by_id DataManager.properties_manager st "rooms.json" room_id
  = Some property_data →
  property_data !! "price_per_night" = Some price →
  Py.as_num price = Some price_per_night →
  booking_data !! "check_in" = Some v_in →
  BookingService.parse_date fromisoformat_date v_in = Ok check_in →
  booking_data !! "check_out" = Some v_out →
  BookingService.parse_date fromisoformat_date v_out = Ok check_out →
  BookingService.calculate_total_price fromisoformat_date st booking_data
  = match Spec.total_price (Py.days_between check_out check_in) price_per_night with
    | Ok total => Ok total
    | Err _ => Err (ValidationError "Failed to calculate booking price")
    end.
Proof.
  intros Hroom Hfound Hprice Hnum Hin Hdin Hout Hdout.
  unfold BookingService.calculate_total_price, BookingService.total_price,
    Spec.total_price.
  rewrite Hroom. cbn [require mbind result_bind]. rewrite Hfound.
  assert (nonempty property_data = true) as ->.
  { unfold nonempty.
    destruct (map_to_list property_data) as [|kv l] eqn:Hl; [|reflexivity].
    apply map_to_list_empty_iff in Hl. subst property_data.
    by rewrite lookup_empty in Hprice. }
  rewrite Hin. cbn [require mbind result_bind]. rewrite Hdin.
  rewrite Hout. cbn [require mbind result_bind]. rewrite Hdout.
  cbn [mbind result_bind].
  assert (get_or property_data "price_per_night" (Py.VInt 0) = price) as ->.
  { unfold get_or. by rewrite Hprice. }
  unfold Py.to_num. rewrite Hnum. cbn [mbind result_bind].
  destruct (Py.mul _ price_per_night) as [base|]; cbn [mbind result_bind];
    [|reflexivity].
  destruct (Py.mul base _) as [fee|]; cbn [mbind result_bind]; [|reflexivity].
  destruct (Py.mul base _) as [tax|]; cbn [mbind result_bind]; [|reflexivity].
  destruct (Py.add base fee) as [sub|]; cbn [mbind result_bind]; [|reflexivity].
  destruct (Py.add sub tax) as [total|]; cbn [mbind result_bind]; reflexivity.
Qed.

(** The room of the worked example: 100 a night. *)
Definition hundred_a_night : record :=
  Example.rec [("id", Py.VInt 1); ("title", Py.VStr "Loft");
               ("price_per_night", Py.VInt 100)].

Definition three_nights : record :=
  Example.rec [("room_id", Py.VInt 1); ("check_in", Py.VStr "2024-06-01");
               ("check_out", Py.VStr "2024-06-04")].

Lemma calculate_total_price_formula_witness :
  Py.mul (Py.NInt 3) (Py.NInt 100) = Ok (Py.NInt 300)
  ∧ Py.mul (Py.NInt 300) (Py.NFloat 0.10%float) = Ok (Py.NFloat 30%float)
  ∧ Py.mul (Py.NInt 300) (Py.NFloat 0.05%float) = Ok (Py.NFloat 15%float)
  ∧ BookingService.calculate_total_price IsoDate.fromisoformat_date
      (Example.disk [("data/properties/rooms.json", [hundred_a_night])])
      three_nights
    = Ok (Py.NFloat 345%float).
Proof.
  do 3 (split; [vm_compute; reflexivity|]).
  rewrite (calculate_total_price_formula IsoDate.fromisoformat_date
             (Example.disk [("data/properties/rooms.json", [hundred_a_night])])
             three_nights hundred_a_night (Py.VInt 1)
             (Py.VStr "2024-06-01") (Py.VStr "2024-06-04") (Py.VInt 100)
             (Example.d 2024 6 1) (Example.d 2024 6 4) (Py.NInt 100)).
  - vm_compute. reflexivity.
  - vm_compute. reflexivity.
  - vm_compute. reflexivity.
  - vm_compute. reflexivity.
  - reflexivity.
  - vm_compute. reflexivity.
  - vm_compute. reflexivity.
  - vm_compute. reflexivity.
  - vm_compute. reflexivity.
Defined.

(** ** E-mail uniqueness *)

Definition alice : record :=
  Example.rec [("id", Py.VInt 1); ("email", Py.VStr "alice@example.com");
               ("password", Py.VStr "correct horse");
               ("first_name", Py.VStr "Alice"); ("last_name", Py.VStr "Liddell")].

Definition one_user : fs := Example.disk [("data/users/users.json", [alice])].

Definition alice_in_capitals : record :=
  Example.rec [("email", Py.VStr "Alice@Example.com");
               ("password", Py.VStr "battery staple");
               ("first_name", Py.VStr "Alice"); ("last_name", Py.VStr "Liddell")].

Definition alice_again : record :=
  Example.rec [("email", Py.VStr "alice@example.com");
               ("password", Py.VStr "battery staple");
               ("first_name", Py.VStr "Alice"); ("last_name", Py.VStr "Liddell")].

(** C5 fails on the code.  The uniqueness lookup runs on the e-mail as it was
    typed, before it is put in lower case: with alice@example.com on file, a
    request for Alice@Example.com passes validation, is stored as
    alice@example.com, and the file then holds that address twice.  A request
    that repeats the address letter for letter does raise [ConflictError] in
    [validate_data], which [create] turns into [ServiceError]. *)
Theorem email_uniqueness_is_case_sensitive :
  (λ data : record, data !! "email")
    <$> UserService.validate_data one_user alice_in_capitals "create"
  = Ok (Some (Py.VStr "alice@example.com"))
  ∧ (λ r : record * fs,
       (λ user : record, user !! "email")
         <$> DataManager.load DataManager.users_manager r.2 "users.json")
      <$> BaseService.create UserService.service one_user alice_in_capitals
            "2024-05-03T08:00:00"
    = Ok [Some (Py.VStr "alice@example.com"); Some (Py.VStr "alice@example.com")]
  ∧ UserService.validate_data one_user alice_again "create"
    = Err (ConflictError "Email already registered")
  ∧ BaseService.create UserService.service one_user alice_again
      "2024-05-03T08:00:00"
    = Err (ServiceError "Failed to create user").
Proof. repeat split; vm_compute; reflexivity. Qed.

(** ** Refunds *)

Definition paid_200 : record :=
  Example.rec [("id", Py.VInt 1); ("booking_id", Py.VInt 1);
               ("amount", Py.VInt 200); ("payment_method", Py.VStr "credit_card");
               ("status", Py.VStr "completed"); ("currency", Py.VStr "USD")].

(** A refund of 150 as [initiate_refund] writes it: the amount negated. *)
Definition refunded_150 : record :=
  Example.rec [("id", Py.VInt 2); ("original_payment_id", Py.VInt 1);
               ("booking_id", Py.VInt 1); ("amount", Py.VInt (-150));
               ("payment_method", Py.VStr "credit_card");
               ("status", Py.VStr "completed");
               ("transaction_type", Py.VStr "refund")].

Definition refund_ledger : fs :=
  Example.disk
    [("data/payments/payments.json", [paid_200; refunded_150]);
     ("data/bookings/bookings.json",
      [Example.rec [("id", Py.VInt 1); ("status", Py.VStr "confirmed")]])].

(** No refund of a whole amount is ever created: the amount that passes the
    guards is positive, the record carries its negation, and [create]
    validates records as payments, whose amount must be positive. *)
Lemma initiate_refund_int_never_created (transaction_id : string) (st : fs)
    (payment_id : Py.value) (amount : Z) (reason ts : string) :
  ∃ e, PaymentService.initiate_refund transaction_id st payment_id
         (Some (Py.NInt amount)) reason ts = Err e.
Proof.
  unfold PaymentService.initiate_refund.
  destruct (BaseService.get_by_id _ st payment_id) as [payment|e];
    cbn [mbind result_bind]; [|eauto].
  destruct (negb _); [eauto|].
  destruct (PaymentService.total_refunded _) as [total|e];
    cbn [mbind result_bind]; [|eauto].
  destruct (require "amount" _) as [original|e]; cbn [mbind result_bind]; [|eauto].
  unfold PaymentService.check_refund_amount. cbn [mbind result_bind].
  destruct (Py.leb (Py.NInt amount) (Py.NInt 0)) eqn:Hpos;
    cbn [mbind result_bind]; [eauto|].
  destruct (Py.add total _) as [after|e]; cbn [mbind result_bind]; [|eauto].
  destruct (Py.to_num original) as [orig|e]; cbn [mbind result_bind]; [|eauto].
  destruct (Py.gtb after orig); cbn [mbind result_bind]; [eauto|].
  destruct (require "booking_id" _) as [booking_id|e];
    cbn [mbind result_bind]; [|eauto].
  destruct (require "payment_method" _) as [method|e];
    cbn [mbind result_bind]; [|eauto].
  unfold BaseService.create.
  cbn [BaseService.validate_data PaymentService.service].
  set (refund_data := <["original_payment_id" := payment_id]> _).
  assert (∃ e, PaymentService.validate_data transaction_id st refund_data "create"
               = Err e) as [e He].
  { unfold PaymentService.validate_data, BaseService.base_validate_data.
    destruct (nonempty refund_data); cbn [mbind result_bind]; [|eauto].
    cbn [String.eqb Ascii.eqb Bool.eqb].
    destruct (PaymentService.check_required _ _); cbn [mbind result_bind]; [|eauto].
    destruct (require "booking_id" _) as [b|]; cbn [mbind result_bind]; [|eauto].
    destruct (ReviewService.found _); cbn [mbind result_bind]; [|eauto].
    assert (refund_data !! "amount" = Some (Py.VInt (- amount))) as ->.
    { unfold refund_data. rewrite !lookup_insert_ne by done.
      by rewrite lookup_insert_eq. }
    cbn [require mbind result_bind].
    assert (PaymentService.bad_amount (Py.VInt (- amount)) = true) as ->.
    { cbn in Hpos |- *. lia. }
    cbn [mbind result_bind]. eauto. }
  rewrite He. cbn [mbind result_bind]. destruct (isinstance_ValidationError e); eauto.
Qed.

(** C3 fails on the code.  With a completed payment of 200 and one completed
    refund of 150 on file (stored, as refunds are, with the amount -150): the
    refunds add up to -150, so the ceiling guard lets a further 100 through;
    and a request for 50, which the ceiling allows, is refused all the same,
    with the [ValidationError] of a payment whose amount is not positive. *)
Theorem refund_ceiling_not_enforced :
  PaymentService.total_refunded [refunded_150] = Ok (Py.NInt (-150))
  ∧ PaymentService.check_refund_amount (Py.NInt (-150)) (Py.VInt 200)
      (Some (Py.NInt 100))
    = Ok (Py.NInt 100)
  ∧ PaymentService.initiate_refund "TXN_20240503_0A1B2C3D" refund_ledger
      (Py.VInt 1) (Some (Py.NInt 50)) "Customer request" "2024-05-03T08:00:00"
    = Err (ValidationError "Amount must be a positive number")
  ∧ PaymentService.initiate_refund "TXN_20240503_0A1B2C3D" refund_ledger
      (Py.VInt 1) (Some (Py.NInt 100)) "Customer request" "2024-05-03T08:00:00"
    = Err (ValidationError "Amount must be a positive number").
Proof. repeat split; vm_compute; reflexivity. Qed.

(** ** Review gating *)

Lemma review_check_required_ok (data : record) (fields : list string) :
  ReviewService.check_required data fields = Ok () →
  Forall (λ field, is_Some (data !! field)) fields.
Proof.
  induction fields as [|field rest IH]; cbn; [constructor|].
  unfold has_key. destruct (data !! field) eqn:Hf; [|discriminate].
  intros Hrest. constructor; [by rewrite Hf | by apply IH].
Qed.

Lemma review_check_required_err (data : record) (fields : list string) (e : exn) :
  ReviewService.check_required data fields = Err e →
  ∃ msg, e = ValidationError msg.
Proof.
  induction fields as [|field rest IH]; cbn; [discriminate|].
  destruct (has_key data field); [exact IH|]. intros [= <-]. eauto.
Qed.

Lemma review_check_ratings_err (data : record) (fields : list string) (e : exn) :
  ReviewService.check_ratings data fields = Err e →
  ∃ msg, e = ValidationError msg.
Proof.
  induction fields as [|field rest IH]; cbn; [discriminate|].
  destruct (data !! field) as [rating|]; [|exact IH].
  destruct (ReviewService.bad_rating rating); [|exact IH]. intros [= <-]. eauto.
Qed.

(** The booking a review request, or a review on file, refers to: the one
    the record store finds under its [booking_id].  Then the status of a
    booking, and the reviews the code looks up for a request. *)
Definition referenced_booking (st : fs) (data booking : record) : Prop :=
  ∃ booking_id,
    data !! "booking_id" = Some booking_id
    ∧ DataManager.find_by_id DataManager.bookings_manager st "bookings.json"
        booking_id = Some booking.

Definition completed (booking : record) : bool :=
  Py.eq (get booking "status") (Py.VStr "completed").

Definition reviews_of_booking (st : fs) (data : record) : list record :=
  match data !! "booking_id" with
  | Some booking_id => ReviewService.find_by_field st "booking_id" booking_id
  | None => []
  end.

(** What a successful validation of a new review went through. *)
Lemma review_validate_ok (st : fs) (data validated_data : record) :
  ReviewService.validate_data st data "create" = Ok validated_data →
  ∃ booking,
    referenced_booking st data booking
    ∧ completed booking = true
    ∧ reviews_of_booking st data = [].
Proof.
  unfold ReviewService.validate_data, BaseService.base_validate_data.
  destruct (nonempty data); cbn [mbind result_bind]; [|discriminate].
  rewrite String.eqb_refl.
  destruct (ReviewService.check_required data _) as [[]|e] eqn:Hreq;
    cbn [mbind result_bind]; [|discriminate].
  destruct (require "property_id" _) as [property_id|];
    cbn [mbind result_bind]; [|discriminate].
  destruct (ReviewService.found _); cbn [mbind result_bind]; [|discriminate].
  destruct (require "guest_id" _) as [guest_id|];
    cbn [mbind result_bind]; [|discriminate].
  destruct (ReviewService.found _); cbn [mbind result_bind]; [|discriminate].
  unfold reviews_of_booking, referenced_booking.
  destruct (data !! "booking_id") as [booking_id|] eqn:Hbid;
    cbn [require mbind result_bind]; [|discriminate].
  destruct (DataManager.find_by_id _ st "bookings.json" booking_id)
    as [booking|] eqn:Hb; cbn [mbind result_bind]; [|discriminate].
  destruct (nonempty booking); cbn [mbind result_bind]; [|discriminate].
  destruct (require "guest_id" _) as [bg|]; cbn [mbind result_bind]; [|discriminate].
  destruct (Py.eq bg guest_id); cbn [mbind result_bind]; [|discriminate].
  destruct (require "property_id" _) as [bp|]; cbn [mbind result_bind]; [|discriminate].
  destruct (Py.eq bp property_id); cbn [mbind result_bind]; [|discriminate].
  fold (completed booking).
  destruct (completed booking) eqn:Hdone; cbn [mbind result_bind]; [|discriminate].
  destruct (ReviewService.find_by_field st "booking_id" booking_id) eqn:Hprior;
    cbn [mbind result_bind]; [|discriminate].
  intros _. exists booking. split; [by exists booking_id|]. done.
Qed.

Lemma referenced_booking_unique (st : fs) (data b1 b2 : record) :
  referenced_booking st data b1 → referenced_booking st data b2 → b1 = b2.
Proof. intros (id1 & H1 & F1) (id2 & H2 & F2). congruence. Qed.

Lemma create_after_validate_err (service : BaseService.t) (st : fs)
    (data : record) (ts : string) (e : exn) :
  BaseService.validate_data service st data "create" = Err e →
  BaseService.create service st data ts
  = Err (if isinstance_ValidationError e then e
         else ServiceError ("Failed to create " ++ BaseService.domain_name service)).
Proof.
  intros He. unfold BaseService.create. rewrite He. cbn [mbind result_bind].
  by destruct (isinstance_ValidationError e).
Qed.

Lemma create_ok_validated (service : BaseService.t) (st st' : fs)
    (data item : record) (ts : string) :
  BaseService.create service st data ts = Ok (item, st') →
  ∃ validated_data,
    BaseService.validate_data service st data "create" = Ok validated_data
    ∧ DataManager.create (BaseService.data_manager service) st
        (BaseService.get_primary_file service) validated_data ts
      = Ok (item, st').
Proof.
  unfold BaseService.create.
  destruct (BaseService.validate_data service st data "create") as [vd|e];
    cbn [mbind result_bind]; [|by destruct (isinstance_ValidationError e)].
  destruct (DataManager.create _ _ _ _ _) as [r|e] eqn:Hc;
    [|by destruct (isinstance_ValidationError e)].
  intros [= ->]. eauto.
Qed.

(** *** The conditions on a review, in the words of the specification *)

(** A review on file has the request's [booking_id]: the value it stores
    and the request's are equal as Python values ([==]). *)
Definition already_reviewed (st : fs) (data : record) : bool :=
  match data !! "booking_id" with
  | Some booking_id =>
      existsb (λ review, Py.eq (get review "booking_id") booking_id)
        (DataManager.load DataManager.reviews_manager st "property_reviews.json")
  | None => false
  end.

(** The requests that get as far as the fields of the booking record and
    find one missing: a request that is not empty, has the five required
    fields, names a property and a guest on file and a booking on file, whose
    record lacks [guest_id] or, with the [guest_id] of the request, lacks
    [property_id]. *)
Definition booking_lacks_field (st : fs) (data : record) : bool :=
  nonempty data
  && forallb (has_key data) ReviewService.required_fields
  && ReviewService.found
       (DataManager.find_by_id DataManager.properties_manager st "rooms.json"
          (get data "property_id"))
  && ReviewService.found
       (DataManager.find_by_id DataManager.users_manager st "users.json"
          (get data "guest_id"))
  && match DataManager.find_by_id DataManager.bookings_manager st
             "bookings.json" (get data "booking_id") with
     | Some booking =>
         nonempty booking
         && match booking !! "guest_id" with
            | Some booking_guest =>
                Py.eq booking_guest (get data "guest_id")
                && negb (has_key booking "property_id")
            | None => true
            end
     | None => false
     end.

Lemma filter_nil_existsb {A : Type} (p : A → bool) (l : list A) :
  List.filter p l = [] ↔ existsb p l = false.
Proof.
  induction l as [|x l IH]; cbn; [done|].
  destruct (p x); cbn; [split; discriminate | exact IH].
Qed.

Lemma already_reviewed_lookup (st : fs) (data : record) :
  already_reviewed st data = false ↔ reviews_of_booking st data = [].
Proof.
  unfold already_reviewed, reviews_of_booking.
  destruct (data !! "booking_id") as [booking_id|]; [|done].
  unfold ReviewService.find_by_field, DataManager.find_by_field.
  symmetry. apply filter_nil_existsb.
Qed.

Lemma review_check_required_forallb (data : record) (fields : list string) :
  forallb (has_key data) fields
  = match ReviewService.check_required data fields with
    | Ok _ => true
    | Err _ => false
    end.
Proof.
  induction fields as [|field rest IH]; cbn; [done|].
  by destruct (has_key data field).
Qed.

(** How the validation of a new review ends, case by case. *)
Lemma review_validate_cases (st : fs) (data : record) :
  match ReviewService.validate_data st data "create" with
  | Ok _ | Err TypeError =>
      (∃ booking, referenced_booking st data booking ∧ completed booking = true)
      ∧ already_reviewed st data = false
  | Err (ValidationError _) => booking_lacks_field st data = false
  | Err (KeyError _) => booking_lacks_field st data = true
  | Err _ => False
  end.
Proof.
  destruct (ReviewService.validate_data st data "create") as [vd|e] eqn:Hv.
  { apply review_validate_ok in Hv as (booking & Href & Hdone & Hnone).
    split; [eauto | by apply already_reviewed_lookup]. }
  revert Hv.
  unfold ReviewService.validate_data, BaseService.base_validate_data,
    booking_lacks_field.
  rewrite review_check_required_forallb.
  destruct (nonempty data); cbn [mbind result_bind andb];
    [|by intros [= <-]].
  rewrite String.eqb_refl.
  destruct (ReviewService.check_required data _) as [[]|e'] eqn:Hreq;
    cbn [mbind result_bind andb];
    [|intros [= <-];
      by destruct (review_check_required_err _ _ _ Hreq) as [msg ->]].
  apply review_check_required_ok in Hreq.
  unfold ReviewService.required_fields in Hreq.
  rewrite !Forall_cons in Hreq.
  destruct Hreq as ([property_id Hpid] & [guest_id Hgid] & [booking_id Hbid] & _).
  unfold get. rewrite Hpid, Hgid, Hbid.
  cbn [require mbind result_bind default from_option id].
  destruct (ReviewService.found
              (DataManager.find_by_id DataManager.properties_manager _ _ _));
    cbn [mbind result_bind andb]; [|by intros [= <-]].
  destruct (ReviewService.found
              (DataManager.find_by_id DataManager.users_manager _ _ _));
    cbn [mbind result_bind andb]; [|by intros [= <-]].
  destruct (DataManager.find_by_id _ st "bookings.json" booking_id)
    as [booking|] eqn:Hb; cbn [mbind result_bind andb]; [|by intros [= <-]].
  destruct (nonempty booking); cbn [mbind result_bind andb];
    [|by intros [= <-]].
  destruct (booking !! "guest_id") as [bg|] eqn:Hbg;
    cbn [require mbind result_bind]; [|by intros [= <-]].
  destruct (Py.eq bg guest_id); cbn [mbind result_bind andb];
    [|by intros [= <-]].
  unfold has_key.
  destruct (booking !! "property_id") as [bp|] eqn:Hbp;
    cbn [require mbind result_bind negb]; [|by intros [= <-]].
  destruct (Py.eq bp property_id); cbn [mbind result_bind];
    [|by intros [= <-]].
  change (Py.eq (default Py.VNone (booking !! "status")) (Py.VStr "completed"))
    with (completed booking).
  destruct (completed booking) eqn:Hdone; cbn [mbind result_bind];
    [|by intros [= <-]].
  destruct (ReviewService.find_by_field st "booking_id" booking_id) eqn:Hprior;
    cbn [mbind result_bind]; [|by intros [= <-]].
  assert ((∃ booking0, referenced_booking st data booking0
                       ∧ completed booking0 = true)
          ∧ already_reviewed st data = false) as Hpast.
  { split; [exists booking; split; [by exists booking_id | done]|].
    apply already_reviewed_lookup. unfold reviews_of_booking. by rewrite Hbid. }
  destruct (ReviewService.check_ratings data _) as [[]|e'] eqn:Hrate;
    cbn [mbind result_bind];
    [|intros [= <-];
      by destruct (review_check_ratings_err _ _ _ Hrate) as [msg ->]].
  destruct (get_or data "comment" _) as [| | | |comment];
    cbn [mbind result_bind]; try (by intros [= <-]).
  destruct (Py.len comment <? 10); cbn [mbind result_bind];
    [by intros [= <-]|].
  destruct (1000 <? Py.len comment); cbn [mbind result_bind];
    [by intros [= <-] | discriminate].
Qed.

(** C4, as amended.  A review request whose booking is not "completed", or
    whose [booking_id] a review on file has (the two values equal as Python
    values), is not created: the create fails, with [ServiceError] when the
    request gets as far as the booking record and that lacks the [guest_id]
    or the [property_id] the checks index, with [ValidationError] in every
    other case.  A review is created only when the booking is completed and
    no review on file has the request's [booking_id]. *)
Theorem review_gating :
  (∀ (st : fs) (data : record) (ts : string),
      (∃ booking, referenced_booking st data booking ∧ completed booking = false)
      ∨ already_reviewed st data = true →
      if booking_lacks_field st data
      then BaseService.create ReviewService.service st data ts
           = Err (ServiceError "Failed to create review")
      else ∃ msg, BaseService.create ReviewService.service st data ts
                  = Err (ValidationError msg))
  ∧ (∀ (st st' : fs) (data item : record) (ts : string),
        BaseService.create ReviewService.service st data ts = Ok (item, st') →
        ∃ booking,
          referenced_booking st data booking
          ∧ completed booking = true
          ∧ already_reviewed st data = false).
Proof.
  split.
  - intros st data ts Hgate.
    assert (¬ ((∃ booking, referenced_booking st data booking
                           ∧ completed booking = true)
               ∧ already_reviewed st data = false)) as Hnot.
    { intros [(b & Hb & Hdone) Hnone].
      destruct Hgate as [(booking & Href & Hpending) | Hprior]; [|congruence].
      rewrite (referenced_booking_unique _ _ _ _ Hb Href) in Hdone. congruence. }
    pose proof (review_validate_cases st data) as Hcases.
    destruct (ReviewService.validate_data st data "create") as [vd|e] eqn:Hv;
      [by destruct Hnot|].
    rewrite (create_after_validate_err ReviewService.service st data ts e Hv).
    destruct e; try (by destruct Hcases); try (by destruct Hnot);
      rewrite Hcases; cbn; eauto.
  - intros st st' data item ts Hc.
    apply create_ok_validated in Hc as (vd & Hv & _).
    apply review_validate_ok in Hv as (booking & Href & Hdone & Hnone).
    exists booking. split; [done|]. split; [done|].
    by apply already_reviewed_lookup.
Qed.

Definition review_request : record :=
  Example.rec [("property_id", Py.VInt 1); ("guest_id", Py.VInt 2);
               ("booking_id", Py.VInt 7); ("overall_rating", Py.VInt 5);
               ("comment", Py.VStr "Lovely place, would stay again.")].

(** The same request with the [booking_id] as a path parameter gives it, a
    string. *)
Definition review_request_by_string : record :=
  <["booking_id" := Py.VStr "7"]> review_request.

Definition pending_stay : record :=
  Example.rec [("id", Py.VInt 7); ("property_id", Py.VInt 1);
               ("guest_id", Py.VInt 2); ("status", Py.VStr "pending")].

Definition completed_stay : record :=
  Example.rec [("id", Py.VInt 7); ("property_id", Py.VInt 1);
               ("guest_id", Py.VInt 2); ("status", Py.VStr "completed")].

(** A booking in the shape the booking routes read it: the room under
    [room_id], no [property_id]. *)
Definition stay_by_room : record :=
  Example.rec [("id", Py.VInt 7); ("room_id", Py.VInt 1);
               ("guest_id", Py.VInt 2); ("status", Py.VStr "confirmed")].

(** The review of booking 7 already on file. *)
Definition first_review : record :=
  Example.rec [("id", Py.VInt 1); ("property_id", Py.VInt 1);
               ("guest_id", Py.VInt 2); ("booking_id", Py.VInt 7);
               ("overall_rating", Py.VInt 4);
               ("comment", Py.VStr "Clean and quiet, good value.")].

Definition review_world (booking : record) (reviews : list record) : fs :=
  Example.disk
    [("data/properties/rooms.json",
      [Example.rec [("id", Py.VInt 1); ("title", Py.VStr "Loft")]]);
     ("data/users/users.json",
      [Example.rec [("id", Py.VInt 2); ("email", Py.VStr "bob@example.com")]]);
     ("data/bookings/bookings.json", [booking]);
     ("data/reviews/property_reviews.json", reviews)].

Lemma review_gating_witness :
  ∃ msg,
    BaseService.create ReviewService.service (review_world pending_stay [])
      review_request "2024-07-01T12:00:00"
    = Err (ValidationError msg).
Proof.
  pose proof (proj1 review_gating (review_world pending_stay []) review_request
                "2024-07-01T12:00:00") as Hgate.
  assert (booking_lacks_field (review_world pending_stay []) review_request
          = false) as Hfields by (vm_compute; reflexivity).
  rewrite Hfields in Hgate. apply Hgate. left. exists pending_stay.
  split; [exists (Py.VInt 7); split; vm_compute; reflexivity|].
  vm_compute. reflexivity.
Defined.

(** C4 as stated fails, twice.  The booking is not completed, yet the create
    does not fail with [ValidationError]: the booking record has no
    [property_id], [validate_data] raises [KeyError] and [create] reports
    [ServiceError].  And a review is created although a review on file
    refers to the same, completed booking: that one stores the
    [booking_id] 7, the request has it as "7", the record store finds
    booking 7 for both, and the two values are not equal. *)
Lemma review_gating_counterexample :
  (referenced_booking (review_world stay_by_room []) review_request stay_by_room
   ∧ completed stay_by_room = false
   ∧ ReviewService.validate_data (review_world stay_by_room []) review_request
       "create"
     = Err (KeyError "property_id")
   ∧ BaseService.create ReviewService.service (review_world stay_by_room [])
       review_request "2024-07-01T12:00:00"
     = Err (ServiceError "Failed to create review"))
  ∧ (referenced_booking (review_world completed_stay [first_review])
       review_request_by_string completed_stay
     ∧ DataManager.load DataManager.reviews_manager
         (review_world completed_stay [first_review]) "property_reviews.json"
       = [first_review]
     ∧ referenced_booking (review_world completed_stay [first_review])
         first_review completed_stay
     ∧ ∃ item st',
         BaseService.create ReviewService.service
           (review_world completed_stay [first_review])
           review_request_by_string "2024-07-01T12:00:00"
         = Ok (item, st')
         ∧ (λ r : record, r !! "booking_id")
             <$> DataManager.load DataManager.reviews_manager st'
                   "property_reviews.json"
           = [Some (Py.VInt 7); Some (Py.VStr "7")]).
Proof.
  split.
  - split; [exists (Py.VInt 7); split; vm_compute; reflexivity|].
    repeat split; vm_compute; reflexivity.
  - split; [exists (Py.VStr "7"); split; vm_compute; reflexivity|].
    split; [reflexivity|].
    split; [exists (Py.VInt 7); split; vm_compute; reflexivity|].
    assert (match BaseService.create ReviewService.service
                    (review_world completed_stay [first_review])
                    review_request_by_string "2024-07-01T12:00:00" with
            | Ok (_, st') =>
                Some ((λ r : record, r !! "booking_id")
                        <$> DataManager.load DataManager.reviews_manager st'
                              "property_reviews.json")
            | Err _ => None
            end = Some [Some (Py.VInt 7); Some (Py.VStr "7")]) as Hrun
      by (vm_compute; reflexivity).
    destruct (BaseService.create _ _ _ _) as [[item st']|e];
      [|discriminate Hrun].
    injection Hrun as Hfile. exists item, st'. split; [reflexivity | exact Hfile].
Qed.

(** ** Rating trend *)

(** *** The order of strings *)

Lemma string_compare_not_gt_trans (s1 s2 s3 : string) :
  String.compare s1 s2 ≠ Gt → String.compare s2 s3 ≠ Gt →
  String.compare s1 s3 ≠ Gt.
Proof.
  revert s2 s3. induction s1 as [|c1 s1 IH]; intros [|c2 s2] [|c3 s3];
    cbn; try congruence.
  unfold Ascii.compare.
  destruct (N.compare_spec (N_of_ascii c1) (N_of_ascii c2)) as [H12|H12|H12],
           (N.compare_spec (N_of_ascii c2) (N_of_ascii c3)) as [H23|H23|H23],
           (N.compare_spec (N_of_ascii c1) (N_of_ascii c3)) as [H13|H13|H13];
    try congruence; try lia.
  apply IH.
Qed.

Lemma string_ltb_false_trans (s1 s2 s3 : string) :
  String.ltb s1 s2 = false → String.ltb s2 s3 = false → String.ltb s1 s3 = false.
Proof.
  unfold String.ltb. intros H12 H23.
  pose proof (string_compare_not_gt_trans s3 s2 s1) as Htrans.
  rewrite (String.compare_antisym s3 s2), (String.compare_antisym s2 s1),
    (String.compare_antisym s3 s1) in Htrans.
  destruct (String.compare s1 s2), (String.compare s2 s3),
    (String.compare s1 s3); cbn in *; try congruence;
    exfalso; apply Htrans; congruence.
Qed.

Lemma string_ltb_asym (s1 s2 : string) :
  String.ltb s1 s2 = true → String.ltb s2 s1 = false.
Proof.
  unfold String.ltb. rewrite (String.compare_antisym s1 s2).
  by destruct (String.compare s2 s1).
Qed.

(** *** The sort *)

(** The creation time of a review: the string under [created_at], the empty
    string for a review without one. *)
Definition created_at (review : record) (time : string) : Prop :=
  get_or review "created_at" (Py.VStr "") = Py.VStr time.

(** [a] may stand before [b]: the time of [a] is not below the time of [b]
    in the order of strings, which for ISO dates is the order of time. *)
Definition not_older (a b : record) : Prop :=
  ∃ ta tb, created_at a ta ∧ created_at b tb ∧ String.ltb ta tb = false.

Lemma not_older_strings (a b : record) (ta tb : string) :
  created_at a ta → created_at b tb →
  not_older a b ↔ String.ltb ta tb = false.
Proof.
  unfold not_older, created_at. intros Ha Hb. split.
  - intros (ta' & tb' & Ha' & Hb' & Hlt). congruence.
  - intros Hlt. by exists ta, tb.
Qed.

Lemma insert_desc_sorted (x : record) (l : list record) :
  Forall (λ r, ∃ t, created_at r t) (x :: l) →
  StronglySorted not_older l →
  ∃ l', ReviewService.insert_desc x l = Ok l'
        ∧ l' ≡ₚ x :: l
        ∧ StronglySorted not_older l'.
Proof.
  intros Hkeys. apply Forall_cons in Hkeys as [[tx Hx] Hkeys].
  induction l as [|y l IH]; intros Hsorted; cbn.
  - exists [x]. split; [done|]. split; [done|]. repeat constructor.
  - apply Forall_cons in Hkeys as [[ty Hy] Hkeys].
    apply StronglySorted_inv in Hsorted as [Hsorted Hy_first].
    unfold ReviewService.sort_key. rewrite Hx, Hy.
    cbn [Py.lt mbind result_bind].
    destruct (String.ltb tx ty) eqn:Hlt.
    + destruct (IH Hkeys Hsorted) as (l' & -> & Hperm & Hsorted').
      cbn. exists (y :: l'). split; [done|]. split.
      * rewrite Hperm. apply Permutation_swap.
      * constructor; [done|]. rewrite Hperm. constructor; [|done].
        apply (not_older_strings y x ty tx Hy Hx). by apply string_ltb_asym.
    + exists (x :: y :: l). split; [done|]. split; [done|].
      constructor; [by constructor|]. constructor.
      * by apply (not_older_strings x y tx ty Hx Hy).
      * rewrite Forall_forall in Hy_first, Hkeys |- *. intros z Hz.
        destruct (Hkeys z Hz) as [tz Htz].
        apply (not_older_strings x z tx tz Hx Htz).
        apply (string_ltb_false_trans tx ty tz); [done|].
        by apply (not_older_strings y z ty tz Hy Htz), Hy_first.
Qed.

(** On reviews whose creation times are strings the sort succeeds, keeps
    every review, and puts no review before a newer one. *)
Lemma sorted_desc_sorted (l : list record) :
  Forall (λ r, ∃ t, created_at r t) l →
  ∃ l', ReviewService.sorted_desc l = Ok l'
        ∧ l' ≡ₚ l
        ∧ StronglySorted not_older l'.
Proof.
  induction l as [|x l IH]; intros Hkeys; cbn.
  - exists []. split; [done|]. split; [done|]. constructor.
  - pose proof Hkeys as Hall. apply Forall_cons in Hkeys as [Hx Hkeys].
    destruct (IH Hkeys) as (s & -> & Hperm & Hsorted). cbn.
    destruct (insert_desc_sorted x s) as (l' & Hins & Hperm' & Hsorted').
    { constructor; [done|]. by rewrite Hperm. }
    { done. }
    exists l'. split; [done|]. split; [|done]. by rewrite Hperm', Hperm.
Qed.

Lemma sorted_desc_length (l l' : list record) :
  ReviewService.sorted_desc l = Ok l' → length l' = length l.
Proof.
  assert (∀ x s s', ReviewService.insert_desc x s = Ok s' →
                    length s' = S (length s)) as Hins.
  { intros x s. induction s as [|y s IH]; intros s'; cbn.
    - by intros [= <-].
    - destruct (Py.lt _ _) as [[|]|]; cbn; [|by intros [= <-]|done].
      destruct (ReviewService.insert_desc x s) as [s''|]; cbn; [|done].
      intros [= <-]. cbn. by rewrite (IH s''). }
  revert l'. induction l as [|x l IH]; intros l'; cbn.
  - by intros [= <-].
  - destruct (ReviewService.sorted_desc l) as [s|]; cbn; [|done].
    intros Hx. rewrite (Hins _ _ _ Hx). by rewrite (IH s).
Qed.

(** *** Ratings the means are total on *)

(** The [overall_rating] of a review is an integer from 0 to 5, a review
    without one counting as 0: what [create] stores is an integer from 1
    to 5. *)
Definition rated_0_to_5 (review : record) : Prop :=
  ∃ z, get_or review "overall_rating" (Py.VInt 0) = Py.VInt z ∧ 0 ≤ z ≤ 5.

Lemma sum_from (acc : Z) (vs : list Py.value) :
  Forall (λ v, ∃ z, v = Py.VInt z ∧ 0 ≤ z ≤ 5) vs →
  ∃ total,
    foldl (λ acc v, a ← acc; n ← Py.to_num v; Py.add a n) (Ok (Py.NInt acc)) vs
    = Ok (Py.NInt (acc + total))
    ∧ 0 ≤ total ≤ 5 * Z.of_nat (length vs).
Proof.
  revert acc. induction vs as [|v vs IH]; intros acc Hvs.
  - exists 0. cbn. split; [by rewrite Z.add_0_r | lia].
  - apply Forall_cons in Hvs as [(z & -> & Hz) Hvs].
    destruct (IH (acc + z) Hvs) as (total & Hsum & Htotal).
    exists (z + total). cbn [foldl mbind result_bind Py.to_num Py.as_num
                              Py.add Py.arith].
    rewrite Hsum, Z.add_assoc. split; [done|].
    cbn [length]. lia.
Qed.

Lemma int_true_divide_small (total n : Z) :
  0 ≤ total ≤ 50 → 1 ≤ n ≤ 10 →
  ∃ f, Py.int_true_divide total n = Ok f.
Proof.
  intros Htotal Hn.
  assert (forallb (λ t, forallb (λ k, match Py.int_true_divide t k with
                                      | Ok _ => true
                                      | Err _ => false
                                      end) (seqZ 1 10)) (seqZ 0 51) = true)
    as Hall by (vm_compute; reflexivity).
  rewrite forallb_forall in Hall.
  assert (In total (seqZ 0 51)) as Ht
    by (apply list_elem_of_In, elem_of_seqZ; lia).
  specialize (Hall total Ht). rewrite forallb_forall in Hall.
  assert (In n (seqZ 1 10)) as Hk by (apply list_elem_of_In, elem_of_seqZ; lia).
  specialize (Hall n Hk).
  destruct (Py.int_true_divide total n) as [f|]; [eauto | discriminate Hall].
Qed.

(** The mean of one to ten such ratings is a float. *)
Lemma mean_rating_small (reviews : list record) :
  Forall rated_0_to_5 reviews →
  (1 ≤ length reviews ≤ 10)%nat →
  ∃ mean, Spec.mean_rating (Spec.overall_ratings reviews) = Ok (Py.NFloat mean).
Proof.
  intros Hrated Hlen. unfold Spec.mean_rating, Py.sum.
  destruct (sum_from 0 (Spec.overall_ratings reviews)) as (total & -> & Htotal).
  { unfold Spec.overall_ratings. apply Forall_fmap.
    eapply Forall_impl; [exact Hrated|]. intros r (z & Hz & Hrange). eauto. }
  rewrite Z.add_0_l. unfold Spec.overall_ratings in *.
  rewrite length_fmap in *. cbn [mbind result_bind Py.truediv].
  destruct (int_true_divide_small total (Z.of_nat (length reviews)))
    as [mean ->]; [lia | lia |].
  by exists mean.
Qed.

Lemma mean_overall_mean_rating (reviews : list record) :
  ReviewService.mean_overall reviews
  = Spec.mean_rating (Spec.overall_ratings reviews).
Proof.
  unfold ReviewService.mean_overall, Spec.mean_rating, Spec.overall_ratings.
  by rewrite length_fmap.
Qed.

(** C7, as amended.  With fewer than 10 reviews the trend is
    "insufficient_data".  With 10 or more, each with a string for its
    [created_at] (or none) and an integer from 0 to 5 for its
    [overall_rating] (or none), the trend is a label: the reviews have an
    order, newest first, none before a newer one, in which the 10 first are
    the most recent and the at most 10 after them the preceding ones; with
    exactly 10 reviews none precedes and the label is "stable"; with more,
    the label is that of the difference of the two means, in Python's
    arithmetic: "improving" above 0.3, "declining" below -0.3, "stable"
    otherwise. *)
Theorem rating_trend_cases :
  (∀ reviews : list record,
      (length reviews < 10)%nat →
      ReviewService._calculate_rating_trend reviews = Ok "insufficient_data")
  ∧ (∀ reviews : list record,
        (10 ≤ length reviews)%nat →
        Forall (λ r, ∃ t, created_at r t) reviews →
        Forall rated_0_to_5 reviews →
        ∃ newest_first label,
          newest_first ≡ₚ reviews
          ∧ StronglySorted not_older newest_first
          ∧ ReviewService._calculate_rating_trend reviews = Ok label
          ∧ (length reviews = 10%nat → label = "stable")
          ∧ ((10 < length reviews)%nat →
             ∃ recent previous,
               Spec.mean_rating (Spec.overall_ratings (take 10 newest_first))
               = Ok recent
               ∧ Spec.mean_rating
                   (Spec.overall_ratings (take 10 (drop 10 newest_first)))
                 = Ok previous
               ∧ Spec.trend recent previous = Ok label)).
Proof.
  split.
  - intros reviews Hlen. unfold ReviewService._calculate_rating_trend.
    destruct (Nat.ltb_spec (length reviews) 10); [done|lia].
  - intros reviews Hlen Htimes Hrated.
    destruct (sorted_desc_sorted reviews Htimes) as (s & Hs & Hperm & Hsorted).
    assert (length s = length reviews) as Hlength by by rewrite Hperm.
    assert (Forall rated_0_to_5 s) as Hrated_s by by rewrite Hperm.
    unfold ReviewService._calculate_rating_trend.
    destruct (Nat.ltb_spec (length reviews) 10); [lia|].
    rewrite Hs. cbn [mbind result_bind].
    assert ((if (20 <=? length s)%nat then take 10 (drop 10 s) else drop 10 s)
            = take 10 (drop 10 s)) as ->.
    { destruct (Nat.leb_spec 20 (length s)); [done|].
      rewrite take_ge; [done|]. rewrite length_drop. lia. }
    destruct (take 10 (drop 10 s)) as [|r rest] eqn:Hprev.
    + exists s, "stable"%string. split; [done|]. split; [done|].
      split; [done|]. split; [done|]. intros Hmore.
      apply (f_equal length) in Hprev.
      rewrite length_take, length_drop in Hprev.
      change (length (@nil record)) with 0%nat in Hprev. lia.
    + rewrite <- Hprev. rewrite !mean_overall_mean_rating.
      destruct (mean_rating_small (take 10 s)) as [recent Hrecent].
      { by apply Forall_take. }
      { rewrite length_take. lia. }
      destruct (mean_rating_small (take 10 (drop 10 s))) as [previous Hprevious].
      { by apply Forall_take, Forall_drop. }
      { pose proof (f_equal length Hprev) as Hp.
        rewrite length_take in Hp |- *. cbn [length] in Hp. lia. }
      rewrite Hrecent, Hprevious. cbn [mbind result_bind Py.sub Py.arith].
      exists s, (ReviewService.classify_trend
                   (Py.NFloat (PrimFloat.sub recent previous))).
      split; [done|]. split; [done|]. split; [done|]. split.
      * intros Hten. apply (f_equal length) in Hprev.
        rewrite length_take, length_drop in Hprev. cbn [length] in Hprev. lia.
      * intros _. exists (Py.NFloat recent), (Py.NFloat previous).
        split; [done|]. split; [done|]. reflexivity.
Qed.

Lemma rating_trend_cases_witness :
  ReviewService._calculate_rating_trend (take 9 Example.ten_reviews)
  = Ok "insufficient_data"
  ∧ ∃ newest_first recent previous,
      newest_first ≡ₚ Example.eleven_reviews
      ∧ StronglySorted not_older newest_first
      ∧ Spec.mean_rating (Spec.overall_ratings (take 10 newest_first))
        = Ok recent
      ∧ Spec.mean_rating
          (Spec.overall_ratings (take 10 (drop 10 newest_first)))
        = Ok previous
      ∧ Spec.trend recent previous = Ok "improving"
      ∧ ReviewService._calculate_rating_trend Example.eleven_reviews
        = Ok "improving".
Proof.
  split.
  - apply (proj1 rating_trend_cases). apply Nat.ltb_lt. vm_compute. reflexivity.
  - destruct (proj2 rating_trend_cases Example.eleven_reviews)
      as (newest_first & label & Hperm & Hsorted & Htrend & _ & Hmore).
    + apply Nat.leb_le. vm_compute. reflexivity.
    + repeat constructor; eexists; vm_compute; reflexivity.
    + repeat constructor; eexists; (split; [vm_compute; reflexivity | lia]).
    + destruct Hmore as (recent & previous & Hrecent & Hprevious & Hlabel).
      { apply Nat.ltb_lt. vm_compute. reflexivity. }
      assert (ReviewService._calculate_rating_trend Example.eleven_reviews
              = Ok "improving"%string) as Hrun by (vm_compute; reflexivity).
      rewrite Hrun in Htrend. injection Htrend as <-.
      exists newest_first, recent, previous. done.
Defined.

(** C7 as stated fails: the trend of a set of reviews need not be one of the
    labels.  Of these ten reviews one has no time of creation ([null] in
    the file), the sort compares it with a string and raises [TypeError]:
    [_calculate_rating_trend] returns nothing, and
    [get_review_statistics], which calls it, answers with the empty
    dictionary. *)
Lemma rating_trend_cases_counterexample :
  length Example.ten_reviews_one_undated = 10%nat
  ∧ ReviewService.public_reviews
      (Example.disk [("data/reviews/property_reviews.json",
                      Example.ten_reviews_one_undated)]) (Py.VInt 1)
    = Example.ten_reviews_one_undated
  ∧ ReviewService._calculate_rating_trend Example.ten_reviews_one_undated
    = Err TypeError
  ∧ ReviewService.get_review_statistics
      (Example.disk [("data/reviews/property_reviews.json",
                      Example.ten_reviews_one_undated)]) (Py.VInt 1)
    = None.
Proof. repeat split; vm_compute; reflexivity. Qed.

(** ** Review statistics *)

(** The overall ratings of the public reviews of a property. *)
Definition public_ratings (st : fs) (property_id : Py.value) : list Py.value :=
  (λ r, get_or r "overall_rating" (Py.VInt 0))
    <$> ReviewService.public_reviews st property_id.

(** The public reviews of a property are the reviews on file whose
    [property_id] equals it and whose [is_public], when there is one, is
    true. *)
Lemma public_reviews_spec (st : fs) (property_id : Py.value) (review : record) :
  review ∈ ReviewService.public_reviews st property_id
  ↔ review ∈ DataManager.load DataManager.reviews_manager st
               "property_reviews.json"
    ∧ Py.eq (get review "property_id") property_id = true
    ∧ Py.truthy (get_or review "is_public" (Py.VBool true)) = true.
Proof.
  unfold ReviewService.public_reviews, ReviewService.find_by_field,
    DataManager.find_by_field.
  rewrite !list_elem_of_In, !filter_In.
  unfold ReviewService.get_primary_file. tauto.
Qed.

(** The loop of the code fills the buckets the specification names. *)
Lemma distribution_spec (overall_ratings : list Py.value) :
  ReviewService.distribution overall_ratings
  = Spec.rating_distribution overall_ratings.
Proof.
  unfold ReviewService.distribution, Spec.rating_distribution.
  cbn [foldl list_to_map foldr uncurry].
  change (pretty 1) with "1"%string. change (pretty 2) with "2"%string.
  change (pretty 3) with "3"%string. change (pretty 4) with "4"%string.
  change (pretty 5) with "5"%string.
  unfold ReviewService.count_rating, Spec.count_of.
  apply map_eq. intros key.
  repeat (rewrite lookup_insert; case_decide; [done|]).
  repeat (rewrite lookup_insert; case_decide; [congruence|]). done.
Qed.

Lemma rating_distribution_lookup (overall_ratings : list Py.value) :
  (∀ stars, 1 ≤ stars ≤ 5 →
            Spec.rating_distribution overall_ratings !! pretty stars
            = Some (Spec.count_of stars overall_ratings))
  ∧ (∀ key, key ∉ ["1"; "2"; "3"; "4"; "5"]%string →
            Spec.rating_distribution overall_ratings !! key = None).
Proof.
  unfold Spec.rating_distribution. cbn [list_to_map foldr uncurry]. split.
  - intros stars Hstars.
    assert (stars = 1 ∨ stars = 2 ∨ stars = 3 ∨ stars = 4 ∨ stars = 5)
      as [-> | [-> | [-> | [-> | ->]]]] by lia.
    + change (pretty 1) with "1"%string. by rewrite lookup_insert_eq.
    + change (pretty 2) with "2"%string.
      rewrite lookup_insert_ne by done. by rewrite lookup_insert_eq.
    + change (pretty 3) with "3"%string.
      do 2 rewrite lookup_insert_ne by done. by rewrite lookup_insert_eq.
    + change (pretty 4) with "4"%string.
      do 3 rewrite lookup_insert_ne by done. by rewrite lookup_insert_eq.
    + change (pretty 5) with "5"%string.
      do 4 rewrite lookup_insert_ne by done. by rewrite lookup_insert_eq.
  - intros key Hout.
    repeat (rewrite lookup_insert_ne;
            [|intros <-; apply Hout; repeat constructor]).
    apply lookup_empty.
Qed.

(** C6, as amended.  For a property with no public review the statistics are
    0 reviews, average 0, no bucket at all and trend "stable".  For a
    property with public reviews, whenever statistics are reported (an
    exception on the way makes the function return the empty dictionary):
    [total_reviews] counts the public reviews, [average_rating] is the mean
    of their [overall_rating] rounded to two decimals, and
    [rating_distribution] has one bucket for each star value 1 to 5 holding
    the number of public reviews with exactly that rating, 0 when there is
    none. *)
Theorem review_statistics_report (st : fs) (property_id : Py.value) :
  (ReviewService.public_reviews st property_id = [] →
   ReviewService.get_review_statistics st property_id
   = Some {| ReviewService.total_reviews := 0;
             ReviewService.average_rating := Py.NInt 0;
             ReviewService.rating_distribution := ∅;
             ReviewService.category_averages := ∅;
             ReviewService.recent_trend := "stable" |})
  ∧ (∀ stats,
        ReviewService.public_reviews st property_id ≠ [] →
        ReviewService.get_review_statistics st property_id = Some stats →
        ReviewService.total_reviews stats
        = Z.of_nat (length (ReviewService.public_reviews st property_id))
        ∧ (∃ mean,
              Spec.mean_rating (public_ratings st property_id) = Ok mean
              ∧ ReviewService.average_rating stats = Py.round2 mean)
        ∧ ReviewService.rating_distribution stats
          = Spec.rating_distribution (public_ratings st property_id)
        ∧ ∀ stars, 1 ≤ stars ≤ 5 →
                   ReviewService.rating_distribution stats !! pretty stars
                   = Some (Spec.count_of stars (public_ratings st property_id))).
Proof.
  unfold ReviewService.get_review_statistics, ReviewService.review_statistics,
    public_ratings, Spec.mean_rating.
  split.
  - intros ->. reflexivity.
  - intros stats Hsome.
    destruct (ReviewService.public_reviews st property_id) as [|r public] eqn:Hp;
      [done|]. clear Hsome.
    rewrite length_fmap.
    destruct (Py.sum _) as [total|]; cbn [mbind result_bind]; [|done].
    destruct (Py.truediv total _) as [mean|]; cbn [mbind result_bind]; [|done].
    destruct (ReviewService.category_means _ _ _) as [cats|];
      cbn [mbind result_bind]; [|done].
    destruct (ReviewService._calculate_rating_trend _) as [trend|];
      cbn [mbind result_bind]; [|done].
    intros [= <-]. cbn [ReviewService.total_reviews ReviewService.average_rating
                        ReviewService.rating_distribution].
    rewrite distribution_spec.
    split; [done|]. split; [by exists mean|]. split; [done|].
    apply rating_distribution_lookup.
Qed.

Lemma review_statistics_report_witness :
  ∃ stats,
    ReviewService.get_review_statistics Example.rated_reviews (Py.VInt 1)
    = Some stats
    ∧ public_ratings Example.rated_reviews (Py.VInt 1)
      = [Py.VInt 5; Py.VInt 5; Py.VInt 4; Py.VInt 3; Py.VInt 5]
    ∧ ReviewService.total_reviews stats = 5
    ∧ ReviewService.average_rating stats = Py.NFloat 4.4%float
    ∧ ReviewService.rating_distribution stats
      = list_to_map [("1", 0); ("2", 0); ("3", 1); ("4", 1); ("5", 3)]%string.
Proof.
  assert ((λ stats, (ReviewService.total_reviews stats,
                     ReviewService.average_rating stats))
            <$> ReviewService.get_review_statistics Example.rated_reviews
                  (Py.VInt 1)
          = Some (5, Py.NFloat 4.4%float)) as Hrun by (vm_compute; reflexivity).
  destruct (ReviewService.get_review_statistics Example.rated_reviews (Py.VInt 1))
    as [stats|] eqn:Hstats; [|discriminate Hrun].
  injection Hrun as Htotal Hmean.
  exists stats. split; [reflexivity|].
  split; [vm_compute; reflexivity|].
  split; [exact Htotal|]. split; [exact Hmean|].
  destruct (proj2 (review_statistics_report Example.rated_reviews (Py.VInt 1))
              stats) as (_ & _ & -> & _).
  - intros Hnone.
    assert (length (ReviewService.public_reviews Example.rated_reviews
                      (Py.VInt 1)) = 5%nat) as Hfive by (vm_compute; reflexivity).
    rewrite Hnone in Hfive. discriminate Hfive.
  - exact Hstats.
  - vm_compute. reflexivity.
Defined.

(** C6 as stated fails twice: a property without public reviews gets no
    buckets, not five buckets of 0; and the average reported for the ratings
    5, 5, 4 is 4.67, not their mean. *)
Lemma review_statistics_report_counterexample :
  ReviewService.rating_distribution
    <$> ReviewService.get_review_statistics (Example.disk []) (Py.VInt 1)
  = Some ∅
  ∧ Spec.rating_distribution [] !! "1"%string = Some 0
  ∧ ReviewService.average_rating
      <$> ReviewService.get_review_statistics Example.three_rated (Py.VInt 1)
    = Some (Py.NFloat 4.67%float)
  ∧ Spec.mean_rating (public_ratings Example.three_rated (Py.VInt 1))
    = Ok (Py.NFloat 4.666666666666667%float).
Proof. repeat split; vm_compute; reflexivity. Qed.

(** * Further properties of the code *)

(** ** The record store: files, fields, deletions and pages *)

Lemma string_rev_onto_app (acc s t : string) :
  Py.string_rev_onto acc (s ++ t)
  = Py.string_rev_onto (Py.string_rev_onto acc s) t.
Proof. revert acc. induction s as [|c s IH]; intros acc; cbn; [done | apply IH]. Qed.

Lemma endswith_json (file_name : string) :
  Py.endswith (file_name ++ ".json") ".json" = true.
Proof.
  unfold Py.endswith, Py.string_rev. rewrite string_rev_onto_app.
  apply String.prefix_correct.
  by destruct (Py.string_rev_onto "" file_name).
Qed.

Lemma file_path_with_extension (self : DataManager.t) (file_name : string) :
  Py.endswith file_name ".json" = false →
  DataManager._get_file_path self (file_name ++ ".json")
  = DataManager._get_file_path self file_name.
Proof.
  intros Hno. unfold DataManager._get_file_path.
  by rewrite endswith_json, Hno.
Qed.

Lemma save_other_file (self other : DataManager.t) (st st' : fs)
    (file_name other_file : string) (data : list record) (ok : bool) :
  DataManager.save self st file_name data = (st', ok) →
  DataManager._get_file_path other other_file
    ≠ DataManager._get_file_path self file_name →
  DataManager.load other st' other_file = DataManager.load other st other_file.
Proof.
  unfold DataManager.save, DataManager.load.
  destruct (writable st); intros [= <- <-] Hne; cbn; [|done].
  by rewrite lookup_insert_ne.
Qed.

Lemma string_app_assoc (a b c : string) :
  ((a ++ b) ++ c = a ++ (b ++ c))%string.
Proof.
  induction a as [|x a IH]; [done|].
  change (String x ((a ++ b) ++ c) = String x (a ++ (b ++ c)))%string.
  by rewrite IH.
Qed.

Lemma string_rev_onto_acc (acc s : string) :
  Py.string_rev_onto acc s = (Py.string_rev s ++ acc)%string.
Proof.
  unfold Py.string_rev. revert acc. induction s as [|c s IH]; intros acc; cbn.
  - done.
  - rewrite (IH (String c acc)), (IH (String c EmptyString)).
    by rewrite string_app_assoc.
Qed.

Lemma prefix_app (a b c : string) :
  String.prefix a b = true → String.prefix a (b ++ c) = true.
Proof.
  revert b. induction a as [|x a IH]; intros [|y b]; cbn; try done.
  - by destruct c.
  - change (String y b ++ c)%string with (String y (b ++ c)). cbn.
    destruct (Ascii.ascii_dec x y); [apply IH | done].
Qed.

Lemma endswith_app (prefix s suffix : string) :
  Py.endswith s suffix = true → Py.endswith (prefix ++ s) suffix = true.
Proof.
  unfold Py.endswith, Py.string_rev. rewrite string_rev_onto_app.
  rewrite (string_rev_onto_acc (Py.string_rev_onto "" prefix) s).
  apply prefix_app.
Qed.

(** X1. Every path the record store reads or writes ends in [.json], and
    the extension of a file name is optional: a name that does not end in
    [.json] and the same name with [.json] added have one path, so [load],
    [find_by_id] and [save] do the same under either. *)
Theorem json_extension_is_optional (self : DataManager.t) (file_name : string) :
  Py.endswith (DataManager._get_file_path self file_name) ".json" = true
  ∧ (Py.endswith file_name ".json" = false →
     DataManager._get_file_path self (file_name ++ ".json")
     = DataManager._get_file_path self file_name
     ∧ (∀ st : fs,
           DataManager.load self st (file_name ++ ".json")
           = DataManager.load self st file_name)
     ∧ (∀ (st : fs) (item_id : Py.value),
           DataManager.find_by_id self st (file_name ++ ".json") item_id
           = DataManager.find_by_id self st file_name item_id)
     ∧ (∀ (st : fs) (data : list record),
           DataManager.save self st (file_name ++ ".json") data
           = DataManager.save self st file_name data)).
Proof.
  split.
  - unfold DataManager._get_file_path.
    rewrite <- string_app_assoc. apply endswith_app.
    destruct (Py.endswith file_name ".json") eqn:Hjson; [done|].
    apply endswith_json.
  - intros Hno.
    pose proof (file_path_with_extension self file_name Hno) as Hpath.
    split; [exact Hpath|].
    unfold DataManager.find_by_id, DataManager.load, DataManager.save.
    rewrite Hpath. done.
Qed.

Lemma json_extension_is_optional_witness :
  DataManager._get_file_path DataManager.users_manager "users.json"
  = DataManager._get_file_path DataManager.users_manager "users"
  ∧ DataManager._get_file_path DataManager.users_manager "users"
    = "data/users/users.json"%string.
Proof.
  split; [|reflexivity].
  exact (proj1 (proj2 (json_extension_is_optional DataManager.users_manager
                         "users") eq_refl)).
Defined.

Lemma create_inv_save (self : DataManager.t) (st st' : fs) (file_name : string)
    (new_item item : record) (ts : string) :
  DataManager.create self st file_name new_item ts = Ok (item, st') →
  ∃ n, DataManager.next_id (DataManager.load self st file_name) = Ok n
       ∧ item = DataManager.created_item n new_item ts
       ∧ DataManager.save self st file_name
           (DataManager.load self st file_name ++ [item]) = (st', true).
Proof.
  unfold DataManager.create.
  destruct (DataManager.next_id _) as [n|e] eqn:Hn; cbn; [|done].
  destruct (DataManager.save _ _ _ _) as [st1 [|]] eqn:Hs; [|done].
  intros [= <- <-]. eauto.
Qed.

(** X2. The record [create] stores: both timestamps are the time of the
    call, whatever the caller sent under those names; every other field the
    caller sent is stored as sent; nothing else is added but the id.  The
    record goes to the end of the file and no other file changes. *)
Theorem create_stores_fields (self : DataManager.t) (st st' : fs)
    (file_name : string) (new_item item : record) (ts : string) :
  DataManager.create self st file_name new_item ts = Ok (item, st') →
  item !! "created_at" = Some (Py.VStr ts)
  ∧ item !! "updated_at" = Some (Py.VStr ts)
  ∧ (∀ key v, key ≠ "created_at"%string → key ≠ "updated_at"%string →
              new_item !! key = Some v → item !! key = Some v)
  ∧ (∀ key, key ≠ "created_at"%string → key ≠ "updated_at"%string →
            key ≠ "id"%string → new_item !! key = None → item !! key = None)
  ∧ DataManager.load self st' file_name
    = DataManager.load self st file_name ++ [item]
  ∧ ∀ (other : DataManager.t) (other_file : string),
      DataManager._get_file_path other other_file
        ≠ DataManager._get_file_path self file_name →
      DataManager.load other st' other_file
      = DataManager.load other st other_file.
Proof.
  intros Hc. apply create_inv_save in Hc as (n & _ & -> & Hs).
  pose proof (save_spec self _ _ _ _ _ Hs) as (_ & _ & Hl).
  unfold DataManager.created_item, merge_into in *.
  split; [by rewrite lookup_insert_ne, lookup_insert_eq|].
  split; [by rewrite lookup_insert_eq|].
  split; [|split; [|split]].
  - intros key v H1 H2 Hv. rewrite !lookup_insert_ne by done.
    by apply lookup_union_Some_l.
  - intros key H1 H2 H3 Hv. rewrite !lookup_insert_ne by done.
    rewrite lookup_union_r by done. by rewrite lookup_singleton_ne.
  - exact Hl.
  - intros other other_file Hne. by eapply save_other_file.
Qed.

Lemma create_stores_fields_witness :
  ∃ item st',
    DataManager.create DataManager.users_manager (Example.disk []) "users.json"
      (Example.rec [("created_at", Py.VStr "1999-01-01T00:00:00");
                    ("email", Py.VStr "ann@example.com")])
      "2024-05-01T10:00:00"
    = Ok (item, st')
    ∧ item !! "created_at" = Some (Py.VStr "2024-05-01T10:00:00")
    ∧ item !! "email" = Some (Py.VStr "ann@example.com").
Proof.
  assert (is_ok (DataManager.create DataManager.users_manager (Example.disk [])
            "users.json"
            (Example.rec [("created_at", Py.VStr "1999-01-01T00:00:00");
                          ("email", Py.VStr "ann@example.com")])
            "2024-05-01T10:00:00") = true) as Hrun by (vm_compute; reflexivity).
  destruct (DataManager.create _ _ _ _ _) as [[item st']|e] eqn:Hc;
    [|discriminate Hrun].
  exists item, st'. split; [reflexivity|].
  destruct (create_stores_fields _ _ _ _ _ _ _ Hc) as (Hcr & _ & Hkeep & _).
  split; [exact Hcr|]. apply Hkeep; [discriminate | discriminate |].
  vm_compute. reflexivity.
Defined.

(** *** A generated id is new *)








(** *** Updates *)

Lemma index_of_find (item_id : Py.value) (data : list record) (i : nat) :
  DataManager.index_of item_id data = Some i →
  List.find (DataManager.id_matches item_id) data = data !! i.
Proof.
  revert i. induction data as [|first data IH]; intros i; cbn; [done|].
  destruct (DataManager.id_matches item_id first); [by intros [= <-]|].
  destruct (DataManager.index_of item_id data) as [i'|]; cbn; [|done].
  intros [= <-]. by apply IH.
Qed.


Lemma find_insert {A} (f : A → bool) (l : list A) (i : nat) (x : A) :
  (∀ j y, (j < i)%nat → l !! j = Some y → f y = false) →
  (i < length l)%nat → f x = true →
  List.find f (<[i := x]> l) = Some x.
Proof.
  revert i. induction l as [|y l IH]; intros i Hbefore Hi Hx; cbn in Hi; [lia|].
  destruct i as [|i]; cbn.
  - by rewrite Hx.
  - rewrite (Hbefore 0%nat y) by (lia || done).
    apply IH; [|lia|done].
    intros j z Hj Hz. apply (Hbefore (S j)); [lia | done].
Qed.

Lemma update_inv_find (self : DataManager.t) (st st' : fs) (file_name : string)
    (item_id : Py.value) (updates item' : record) (ts : string) :
  DataManager.update self st file_name item_id updates ts = Ok (Some item', st') →
  ∃ i item,
    DataManager.find_by_id self st file_name item_id = Some item
    ∧ DataManager.load self st file_name !! i = Some item
    ∧ (∀ j other, (j < i)%nat →
                  DataManager.load self st file_name !! j = Some other →
                  DataManager.id_matches item_id other = false)
    ∧ DataManager.id_matches item_id item = true
    ∧ item' = DataManager.updated_item item updates ts
    ∧ DataManager.load self st' file_name
      = <[i := item']> (DataManager.load self st file_name).
Proof.
  unfold DataManager.update.
  destruct (DataManager.index_of _ _) as [i|] eqn:Hi; [|done].
  pose proof (index_of_find _ _ _ Hi) as Hfind.
  apply index_of_spec in Hi as (item & Hitem & Hm & Hbefore). rewrite Hitem.
  destruct (DataManager.save _ _ _ _) as [st1 [|]] eqn:Hs; [|done].
  intros [= <- <-]. apply save_spec in Hs as (_ & _ & Hl).
  exists i, item. unfold DataManager.find_by_id. rewrite Hfind. done.
Qed.

(** X4. The record [update] leaves: [updated_at] is the time of the call,
    whatever the caller sent under that name; every other field of the
    update replaces the stored one, [created_at] and the id included; the
    fields the update does not name stay.  The record changed is the one
    [find_by_id] gives for the id, the first that matches. *)
Theorem update_stores_fields (self : DataManager.t) (st st' : fs)
    (file_name : string) (item_id : Py.value) (updates item' : record)
    (ts : string) :
  DataManager.update self st file_name item_id updates ts = Ok (Some item', st') →
  item' !! "updated_at" = Some (Py.VStr ts)
  ∧ (∀ key v, key ≠ "updated_at"%string →
              updates !! key = Some v → item' !! key = Some v)
  ∧ ∃ i item,
      DataManager.find_by_id self st file_name item_id = Some item
      ∧ DataManager.load self st file_name !! i = Some item
      ∧ (∀ key, key ≠ "updated_at"%string →
                updates !! key = None → item' !! key = item !! key)
      ∧ DataManager.load self st' file_name
        = <[i := item']> (DataManager.load self st file_name).
Proof.
  unfold DataManager.update.
  destruct (DataManager.index_of _ _) as [i|] eqn:Hi; [|done].
  pose proof (index_of_find _ _ _ Hi) as Hfind.
  apply index_of_spec in Hi as (item & Hitem & Hm & _). rewrite Hitem.
  destruct (DataManager.save _ _ _ _) as [st1 [|]] eqn:Hs; [|done].
  intros [= <- <-]. apply save_spec in Hs as (_ & _ & Hl).
  unfold DataManager.updated_item, merge_into.
  split; [by rewrite lookup_insert_eq|]. split.
  - intros key v Hkey Hv. rewrite lookup_insert_ne by done.
    by apply lookup_union_Some_l.
  - exists i, item. unfold DataManager.find_by_id. rewrite Hfind.
    do 2 (split; [done|]). split; [|done].
    intros key Hkey Hv. rewrite lookup_insert_ne by done.
    by rewrite lookup_union_r.
Qed.

Lemma update_stores_fields_witness :
  ∃ item' st',
    DataManager.update DataManager.users_manager
      (Example.disk [("data/users/users.json",
                      [Example.rec [("id", Py.VInt 1);
                                    ("created_at", Py.VStr "2024-01-01T00:00:00");
                                    ("city", Py.VStr "Oslo")]])])
      "users.json" (Py.VInt 1)
      (Example.rec [("created_at", Py.VStr "1999-01-01T00:00:00")])
      "2024-05-01T10:00:00"
    = Ok (Some item', st')
    ∧ item' !! "created_at" = Some (Py.VStr "1999-01-01T00:00:00")
    ∧ item' !! "updated_at" = Some (Py.VStr "2024-05-01T10:00:00").
Proof.
  assert (match DataManager.update DataManager.users_manager
      (Example.disk [("data/users/users.json",
                      [Example.rec [("id", Py.VInt 1);
                                    ("created_at", Py.VStr "2024-01-01T00:00:00");
                                    ("city", Py.VStr "Oslo")]])])
      "users.json" (Py.VInt 1)
      (Example.rec [("created_at", Py.VStr "1999-01-01T00:00:00")])
      "2024-05-01T10:00:00"
          with Ok (Some _, _) => true | _ => false end = true)
    as Hrun by (vm_compute; reflexivity).
  destruct (DataManager.update _ _ _ _ _ _) as [[[item'|] st']|e] eqn:Hu;
    [| discriminate Hrun | discriminate Hrun].
  exists item', st'. split; [reflexivity|].
  destruct (update_stores_fields _ _ _ _ _ _ _ _ Hu) as (Hup & Hnew & _).
  split; [|exact Hup]. apply Hnew; [discriminate|]. vm_compute. reflexivity.
Defined.

Lemma update_read_back (self : DataManager.t) (st st' : fs)
    (file_name : string) (item_id : Py.value) (updates item' : record)
    (ts : string) :
  DataManager.update self st file_name item_id updates ts = Ok (Some item', st') →
  updates !! "id" = None →
  DataManager.find_by_id self st' file_name item_id = Some item'.
Proof.
  intros Hup Hno.
  apply update_inv_find in Hup as (i & item & _ & Hi & Hbefore & Hm & -> & Hl).
  unfold DataManager.find_by_id. rewrite Hl.
  apply find_insert; [exact Hbefore | by eapply lookup_lt_Some |].
  unfold DataManager.id_matches, get in *.
  by rewrite updated_item_id.
Qed.

(** *** Deletions *)

Lemma filter_all {A} (f : A → bool) (l : list A) :
  Forall (λ x, f x = true) l → List.filter f l = l.
Proof. induction 1 as [|x l Hx _ IH]; cbn; [done|]. by rewrite Hx, IH. Qed.

Lemma filter_length_all {A} (f : A → bool) (l : list A) :
  (length l ≤ length (List.filter f l))%nat → Forall (λ x, f x = true) l.
Proof.
  induction l as [|x l IH]; cbn; [constructor|].
  pose proof (List.filter_length_le f l) as Hle.
  destruct (f x) eqn:Hx; cbn; intros Hlen; [|lia].
  constructor; [done | apply IH; lia].
Qed.

Lemma find_filter_negb {A} (f : A → bool) (l : list A) :
  List.find f (List.filter (λ x, negb (f x)) l) = None.
Proof.
  induction l as [|x l IH]; cbn; [done|].
  destruct (f x) eqn:Hx; cbn; [done|]. by rewrite Hx.
Qed.

Lemma find_none_all {A} (f : A → bool) (l : list A) :
  List.find f l = None ↔ Forall (λ x, negb (f x) = true) l.
Proof.
  induction l as [|x l IH]; cbn; [by split; [constructor|]|].
  destruct (f x) eqn:Hx.
  - split; [done|]. intros H. apply Forall_cons in H as [H _].
    by rewrite Hx in H.
  - rewrite IH. split; [by constructor; [rewrite Hx|]|].
    intros H. by apply Forall_cons in H as [_ H].
Qed.

(** X5. [delete] removes every record whose id matches, not the first
    alone, and keeps the others in their order; afterwards [find_by_id]
    finds nothing under the id.  It answers [False], and writes nothing,
    exactly when no record matched. *)
Theorem delete_removes_every_match (self : DataManager.t) (st st' : fs)
    (file_name : string) (item_id : Py.value) (deleted : bool) :
  DataManager.delete self st file_name item_id = Ok (deleted, st') →
  DataManager.load self st' file_name
  = List.filter (λ item, negb (DataManager.id_matches item_id item))
      (DataManager.load self st file_name)
  ∧ DataManager.find_by_id self st' file_name item_id = None
  ∧ (deleted = false ↔ DataManager.find_by_id self st file_name item_id = None)
  ∧ (deleted = false → st' = st).
Proof.
  unfold DataManager.delete, DataManager.find_by_id.
  destruct (_ <? _)%nat eqn:Hlen.
  - destruct (DataManager.save _ _ _ _) as [st1 [|]] eqn:Hs; [|done].
    intros [= <- <-]. apply save_spec in Hs as (_ & _ & Hl). rewrite Hl.
    split; [done|]. split; [apply find_filter_negb|]. split; [|done].
    split; [done|]. intros Hnone. apply find_none_all, filter_all in Hnone.
    rewrite Hnone in Hlen. apply Nat.ltb_lt in Hlen. lia.
  - intros [= <- <-]. apply Nat.ltb_ge, filter_length_all in Hlen.
    rewrite (filter_all _ _ Hlen).
    split; [done|]. split; [by apply find_none_all|].
    split; [|done]. split; [intros _; by apply find_none_all | done].
Qed.

Lemma delete_removes_every_match_witness :
  ∃ st',
    DataManager.delete DataManager.users_manager
      (Example.disk [("data/users/users.json",
                      [Example.rec [("id", Py.VInt 1); ("city", Py.VStr "Oslo")];
                       Example.rec [("id", Py.VInt 2); ("city", Py.VStr "Rome")];
                       Example.rec [("id", Py.VStr "1"); ("city", Py.VStr "Bern")]])])
      "users.json" (Py.VInt 1)
    = Ok (true, st')
    ∧ DataManager.load DataManager.users_manager st' "users.json"
      = [Example.rec [("id", Py.VInt 2); ("city", Py.VStr "Rome")]].
Proof.
  assert ((λ r : bool * fs, r.1)
            <$> DataManager.delete DataManager.users_manager
      (Example.disk [("data/users/users.json",
                      [Example.rec [("id", Py.VInt 1); ("city", Py.VStr "Oslo")];
                       Example.rec [("id", Py.VInt 2); ("city", Py.VStr "Rome")];
                       Example.rec [("id", Py.VStr "1"); ("city", Py.VStr "Bern")]])])
      "users.json" (Py.VInt 1) = Ok true)
    as Hrun by (vm_compute; reflexivity).
  destruct (DataManager.delete _ _ _ _) as [[deleted st']|e] eqn:Hd;
    [|discriminate Hrun].
  injection Hrun as ->.
  exists st'. split; [reflexivity|].
  destruct (delete_removes_every_match _ _ _ _ _ _ Hd) as (Hl & _).
  rewrite Hl. vm_compute. reflexivity.
Defined.



(** *** Filters and pages *)

Lemma slice_page {A} (l : list A) (skip limit : Z) :
  0 ≤ skip → 0 ≤ limit →
  Py.slice l skip (Z.min (skip + limit) (Z.of_nat (length l)))
  = take (Z.to_nat limit) (drop (Z.to_nat skip) l).
Proof.
  intros Hskip Hlimit. unfold Py.slice, Py.slice_index.
  assert ((skip <? 0) = false) as -> by (apply Z.ltb_ge; lia).
  assert ((Z.min (skip + limit) (Z.of_nat (length l)) <? 0) = false) as ->
    by (apply Z.ltb_ge; lia).
  destruct (decide (skip ≤ Z.of_nat (length l))) as [Hin|Hout].
  - rewrite (Z.min_l skip) by done.
    destruct (decide (skip + limit ≤ Z.of_nat (length l))) as [Hfit|Hover].
    + f_equal. lia.
    + rewrite !take_ge; [done | |]; rewrite length_drop; lia.
  - rewrite (drop_ge l (Z.to_nat skip)) by lia. rewrite take_nil.
    replace (Z.min (Z.min (skip + limit) (Z.of_nat (length l)))
               (Z.of_nat (length l)) - Z.min skip (Z.of_nat (length l)))
      with 0 by lia.
    done.
Qed.

Lemma apply_filter_filter (data : list record) (filter : string * Py.value) :
  DataManager.apply_filter data filter
  = List.filter (λ item, passes_filter item filter) data.
Proof.
  unfold DataManager.apply_filter, passes_filter.
  destruct (filter.2); try done.
  symmetry. apply filter_all. by apply Forall_forall.
Qed.

Lemma filter_filter {A} (f g : A → bool) (l : list A) :
  List.filter g (List.filter f l) = List.filter (λ x, f x && g x) l.
Proof.
  induction l as [|x l IH]; cbn; [done|].
  destruct (f x); cbn; [|done]. destruct (g x); by rewrite IH.
Qed.

Lemma foldl_apply_filter (filters : list (string * Py.value)) (data : list record) :
  foldl DataManager.apply_filter data filters
  = List.filter (λ item, forallb (passes_filter item) filters) data.
Proof.
  revert data. induction filters as [|filter filters IH]; intros data; cbn.
  - symmetry. apply filter_all. by apply Forall_forall.
  - rewrite IH, apply_filter_filter. apply filter_filter.
Qed.

Lemma filter_data_take_drop (self : DataManager.t) (st : fs) (file_name : string)
    (filters : record) (skip limit : Z) :
  0 ≤ skip → 0 ≤ limit →
  DataManager.filter_data self st file_name filters skip limit
  = take (Z.to_nat limit)
      (drop (Z.to_nat skip)
         (foldl DataManager.apply_filter (DataManager.load self st file_name)
            (map_to_list filters))).
Proof. intros. unfold DataManager.filter_data. by apply slice_page. Qed.

(** X7. [filter_data] with a skip and a limit that are not negative: of the
    records of the file that have, under each field the filters give a
    value other than [None] for, a value equal to it, in file order, the
    first [skip] are left out and the next [limit] returned.  The result
    does not depend on the order of the filters. *)
Theorem filter_data_page (self : DataManager.t) (st : fs) (file_name : string)
    (filters : record) (skip limit : Z) (wanted : record → bool) :
  (∀ item, wanted item = true ↔
           ∀ field value, filters !! field = Some value → value ≠ Py.VNone →
                          Py.eq (get item field) value = true) →
  0 ≤ skip → 0 ≤ limit →
  DataManager.filter_data self st file_name filters skip limit
  = take (Z.to_nat limit)
      (drop (Z.to_nat skip)
         (List.filter wanted (DataManager.load self st file_name))).
Proof.
  intros Hwanted Hskip Hlimit.
  rewrite filter_data_take_drop, foldl_apply_filter by done.
  do 2 f_equal. apply List.filter_ext. intros item.
  apply eq_true_iff_eq. rewrite Hwanted, forallb_forall. split.
  - intros Hall field value Hf Hv.
    assert (In (field, value) (map_to_list filters)) as Hin
      by (apply list_elem_of_In; by apply elem_of_map_to_list).
    apply Hall in Hin. unfold passes_filter in Hin. cbn in Hin.
    destruct value; [by destruct Hv | done..].
  - intros Hall [field value] Hin.
    apply list_elem_of_In, elem_of_map_to_list in Hin.
    unfold passes_filter. cbn.
    destruct value; try done; by apply Hall.
Qed.

Lemma filter_data_page_witness :
  DataManager.filter_data DataManager.users_manager
    (Example.disk [("data/users/users.json",
                    [Example.rec [("id", Py.VInt 1); ("city", Py.VStr "Oslo")];
                     Example.rec [("id", Py.VInt 2); ("city", Py.VStr "Rome")];
                     Example.rec [("id", Py.VInt 3); ("city", Py.VStr "Oslo")];
                     Example.rec [("id", Py.VInt 4); ("city", Py.VStr "Oslo")]])])
    "users.json"
    (<["city" := Py.VStr "Oslo"]> {["role" := Py.VNone]}) 1 1
  = [Example.rec [("id", Py.VInt 3); ("city", Py.VStr "Oslo")]].
Proof.
  rewrite (filter_data_page _ _ _ _ _ _
             (λ item, Py.eq (get item "city") (Py.VStr "Oslo"))).
  - vm_compute. reflexivity.
  - intros item. split.
    + intros Hcity field value Hf Hv.
      apply lookup_insert_Some in Hf as [[<- <-]|[_ Hf]]; [exact Hcity|].
      apply lookup_singleton_Some in Hf as [_ <-]. by destruct Hv.
    + intros Hall. apply (Hall "city"%string); [reflexivity | discriminate].
  - lia.
  - lia.
Defined.

(** X8. The pages of [get_all], with or without filters: for a skip and
    limits that are not negative, a page followed by the page that starts
    where it ends is the one page of both limits together; nothing is lost
    and nothing is returned twice. *)
Theorem get_all_pages (self : BaseService.t) (st : fs) (filters : option record)
    (skip first second : Z) :
  0 ≤ skip → 0 ≤ first → 0 ≤ second →
  BaseService.get_all self st skip first filters
    ++ BaseService.get_all self st (skip + first) second filters
  = BaseService.get_all self st skip (first + second) filters.
Proof.
  intros Hskip Hfirst Hsecond.
  assert (∀ l : list record,
            take (Z.to_nat first) (drop (Z.to_nat skip) l)
              ++ take (Z.to_nat second) (drop (Z.to_nat (skip + first)) l)
            = take (Z.to_nat (first + second)) (drop (Z.to_nat skip) l)) as Hpages.
  { intros l. rewrite !Z2Nat.inj_add by done.
    rewrite <- drop_drop. apply take_take_drop. }
  unfold BaseService.get_all.
  destruct filters as [f|]; [destruct (nonempty f)|].
  - rewrite !filter_data_take_drop by lia. apply Hpages.
  - rewrite !slice_page by lia. apply Hpages.
  - rewrite !slice_page by lia. apply Hpages.
Qed.

Lemma get_all_pages_witness :
  BaseService.get_all UserService.service
    (Example.disk [("data/users/users.json",
                    [Example.rec [("id", Py.VInt 1)]; Example.rec [("id", Py.VInt 2)];
                     Example.rec [("id", Py.VInt 3)]])])
    0 2 None
  ++ BaseService.get_all UserService.service
       (Example.disk [("data/users/users.json",
                       [Example.rec [("id", Py.VInt 1)]; Example.rec [("id", Py.VInt 2)];
                        Example.rec [("id", Py.VInt 3)]])])
       (0 + 2) 2 None
  = BaseService.get_all UserService.service
      (Example.disk [("data/users/users.json",
                      [Example.rec [("id", Py.VInt 1)]; Example.rec [("id", Py.VInt 2)];
                       Example.rec [("id", Py.VInt 3)]])])
      0 (2 + 2) None.
Proof.
  apply get_all_pages; lia.
Defined.

(** ** The services: what [get_by_id] reads after a change *)

Lemma nonempty_insert (key : string) (v : Py.value) (d : record) :
  nonempty (<[key := v]> d) = true.
Proof.
  unfold nonempty.
  destruct (map_to_list (<[key := v]> d)) as [|kv l] eqn:Hl; [|done].
  apply map_to_list_empty_iff in Hl. by apply insert_non_empty in Hl.
Qed.

Lemma nonempty_lookup (key : string) (v : Py.value) (d : record) :
  d !! key = Some v → nonempty d = true.
Proof.
  intros Hk. unfold nonempty.
  destruct (map_to_list d) as [|kv l] eqn:Hl; [|done].
  apply map_to_list_empty_iff in Hl. subst. by rewrite lookup_empty in Hk.
Qed.

Section ServiceFacts.
Variable self : BaseService.t.

Lemma service_update_read_back (st st' : fs) (item_id : Py.value)
    (data item' : record) (ts : string) :
  BaseService.update self st item_id data ts = Ok (item', st') →
  (∀ validated_data,
      BaseService.validate_data self st data "update" = Ok validated_data →
      validated_data !! "id" = None) →
  BaseService.get_by_id self st' item_id = Ok item'.
Proof.
  intros Hup Hno. apply service_update_inv in Hup as (vd & Hv & Hup).
  pose proof (update_read_back _ _ _ _ _ _ _ _ Hup (Hno vd Hv)) as Hfind.
  apply update_inv_find in Hup as (_ & item & _ & _ & _ & _ & -> & _).
  unfold BaseService.get_by_id. rewrite Hfind.
  unfold DataManager.updated_item. by rewrite nonempty_insert.
Qed.

Lemma get_by_id_found (st : fs) (item_id : Py.value) (item : record) :
  BaseService.get_by_id self st item_id = Ok item →
  DataManager.find_by_id (BaseService.data_manager self) st
    (BaseService.get_primary_file self) item_id = Some item.
Proof.
  unfold BaseService.get_by_id.
  destruct (DataManager.find_by_id _ _ _ _) as [found|]; [|done].
  destruct (nonempty found); [|done]. by intros [= ->].
Qed.

Lemma service_update_fields (st st' : fs) (item_id : Py.value)
    (data item' : record) (ts : string) :
  BaseService.update self st item_id data ts = Ok (item', st') →
  ∃ validated_data item,
    BaseService.validate_data self st data "update" = Ok validated_data
    ∧ BaseService.get_by_id self st item_id = Ok item
    ∧ item' = DataManager.updated_item item validated_data ts
    ∧ DataManager.update (BaseService.data_manager self) st
        (BaseService.get_primary_file self) item_id validated_data ts
      = Ok (Some item', st').
Proof.
  intros Hup. pose proof Hup as Hup'. revert Hup'. unfold BaseService.update.
  destruct (BaseService.get_by_id self st item_id) as [found|e] eqn:Hget; cbn;
    [|by destruct (_ || _)].
  intros _. apply service_update_inv in Hup as (vd & Hv & Hup).
  exists vd, found. split; [done|]. split; [done|]. split; [|done].
  apply get_by_id_found in Hget.
  apply update_inv_find in Hup as (i & item & Hfind & _ & _ & _ & -> & _).
  rewrite Hget in Hfind. by injection Hfind as ->.
Qed.

End ServiceFacts.

Lemma booking_validate_update (fromisoformat_date : string → option Py.date)
    (today : Py.date) (st : fs) (data validated_data : record) :
  BookingService.validate_data fromisoformat_date today st data "update"
  = Ok validated_data →
  validated_data = data.
Proof.
  unfold BookingService.validate_data, BaseService.base_validate_data.
  destruct (nonempty data); cbn; [|done]. by intros [= <-].
Qed.

Lemma review_validate_update (st : fs) (data validated_data : record) :
  ReviewService.validate_data st data "update" = Ok validated_data →
  validated_data = data.
Proof.
  unfold ReviewService.validate_data, BaseService.base_validate_data.
  destruct (nonempty data); cbn; [|done]. by intros [= <-].
Qed.

(** X9. Reading back an update that does not name the id: [find_by_id]
    with the same id gives the record [update] returned, and so does
    [get_by_id] after [update] of the user, review, payment and booking
    services. *)
Theorem update_then_read (st st' : fs) (item_id : Py.value)
    (data item' : record) (ts : string) :
  data !! "id" = None →
  (∀ (self : DataManager.t) (file_name : string),
      DataManager.update self st file_name item_id data ts = Ok (Some item', st') →
      DataManager.find_by_id self st' file_name item_id = Some item')
  ∧ (∀ service : BaseService.t,
        modelled_service service
        ∨ (∃ fromisoformat_date today,
              service = BookingService.service fromisoformat_date today) →
        BaseService.update service st item_id data ts = Ok (item', st') →
        BaseService.get_by_id service st' item_id = Ok item').
Proof.
  intros Hno. split.
  - intros self file_name Hup. by eapply update_read_back.
  - intros service Hservice Hup.
    apply (service_update_read_back _ _ _ _ _ _ _ Hup).
    intros vd Hv. destruct Hservice as [Hservice | (parse & today & ->)].
    + by rewrite (validate_update_keeps_id service st data vd Hservice Hv).
    + cbn in Hv. by rewrite (booking_validate_update parse today st data vd Hv).
Qed.

Lemma update_then_read_witness :
  ∃ item' st',
    BaseService.update UserService.service
      (Example.disk [("data/users/users.json",
                      [Example.rec [("id", Py.VInt 1); ("city", Py.VStr "Oslo")];
                       Example.rec [("id", Py.VInt 2); ("city", Py.VStr "Rome")]])])
      (Py.VStr "2") (Example.rec [("city", Py.VStr "Bern")]) "2024-05-01T10:00:00"
    = Ok (item', st')
    ∧ BaseService.get_by_id UserService.service st' (Py.VStr "2") = Ok item'.
Proof.
  assert (is_ok (BaseService.update UserService.service
      (Example.disk [("data/users/users.json",
                      [Example.rec [("id", Py.VInt 1); ("city", Py.VStr "Oslo")];
                       Example.rec [("id", Py.VInt 2); ("city", Py.VStr "Rome")]])])
      (Py.VStr "2") (Example.rec [("city", Py.VStr "Bern")]) "2024-05-01T10:00:00")
          = true) as Hrun by (vm_compute; reflexivity).
  destruct (BaseService.update _ _ _ _ _) as [[item' st']|e] eqn:Hu;
    [|discriminate Hrun].
  exists item', st'. split; [reflexivity|].
  refine (proj2 (update_then_read _ _ _ _ _ _ _) UserService.service _ Hu).
  - vm_compute. reflexivity.
  - left. left. reflexivity.
Defined.

(** X10. [delete] of a service never answers [False]: either the record was
    there, every record with the id is removed and [get_by_id] afterwards
    raises [NotFoundError], or the call itself raises. *)
Theorem service_delete_removes (self : BaseService.t) (st st' : fs)
    (item_id : Py.value) (deleted : bool) :
  BaseService.delete self st item_id = Ok (deleted, st') →
  deleted = true
  ∧ is_ok (BaseService.get_by_id self st item_id) = true
  ∧ DataManager.load (BaseService.data_manager self) st'
      (BaseService.get_primary_file self)
    = List.filter (λ item, negb (DataManager.id_matches item_id item))
        (DataManager.load (BaseService.data_manager self) st
           (BaseService.get_primary_file self))
  ∧ BaseService.get_by_id self st' item_id
    = Err (NotFoundError (BaseService.not_found_message self item_id)).
Proof.
  unfold BaseService.delete.
  destruct (BaseService.get_by_id self st item_id) as [found|e] eqn:Hget;
    cbn [mbind result_bind]; [|by destruct (isinstance_NotFoundError e)].
  destruct (DataManager.delete _ _ _ _) as [[[|] st1]|e] eqn:Hdel;
    cbn [mbind result_bind]; [| done | by destruct (isinstance_NotFoundError e)].
  intros [= <- <-].
  unfold DataManager.delete in Hdel.
  destruct (_ <? _)%nat; [|done].
  destruct (DataManager.save _ _ _ _) as [st2 [|]] eqn:Hs; [|done].
  injection Hdel as <-. apply save_spec in Hs as (_ & _ & Hl).
  do 2 (split; [done|]). split; [exact Hl|].
  unfold BaseService.get_by_id, DataManager.find_by_id.
  by rewrite Hl, find_filter_negb.
Qed.

Lemma service_delete_removes_witness :
  ∃ st',
    BaseService.delete UserService.service
      (Example.disk [("data/users/users.json",
                      [Example.rec [("id", Py.VInt 1); ("city", Py.VStr "Oslo")];
                       Example.rec [("id", Py.VInt 2); ("city", Py.VStr "Rome")]])])
      (Py.VInt 2)
    = Ok (true, st')
    ∧ BaseService.get_by_id UserService.service st' (Py.VInt 2)
      = Err (NotFoundError "User with ID 2 not found").
Proof.
  assert (is_ok (BaseService.delete UserService.service
      (Example.disk [("data/users/users.json",
                      [Example.rec [("id", Py.VInt 1); ("city", Py.VStr "Oslo")];
                       Example.rec [("id", Py.VInt 2); ("city", Py.VStr "Rome")]])])
      (Py.VInt 2)) = true) as Hrun by (vm_compute; reflexivity).
  destruct (BaseService.delete _ _ _) as [[deleted st']|e] eqn:Hd;
    [|discriminate Hrun].
  destruct (service_delete_removes _ _ _ _ _ Hd) as (-> & _ & _ & Hget).
  exists st'. split; [reflexivity | exact Hget].
Defined.

(** ** Bookings: confirming, cancelling, creating *)

Lemma eq_str (v : Py.value) (s : string) :
  Py.eq v (Py.VStr s) = true → v = Py.VStr s.
Proof.
  destruct v as [|b|z|f|t]; cbn; try discriminate.
  intros H. apply String.eqb_eq in H. by subst.
Qed.

Lemma get_str (d : record) (key s : string) :
  Py.eq (get d key) (Py.VStr s) = true → d !! key = Some (Py.VStr s).
Proof.
  intros H. apply eq_str in H. unfold get in H.
  destruct (d !! key); cbn in H; by subst.
Qed.

Lemma updated_item_lookup (item updates : record) (ts key : string) (v : Py.value) :
  key ≠ "updated_at"%string → updates !! key = Some v →
  DataManager.updated_item item updates ts !! key = Some v.
Proof.
  intros Hkey Hv. unfold DataManager.updated_item, merge_into.
  rewrite lookup_insert_ne by done. by apply lookup_union_Some_l.
Qed.

Lemma updated_item_other (item updates : record) (ts key : string) :
  key ≠ "updated_at"%string → updates !! key = None →
  DataManager.updated_item item updates ts !! key = item !! key.
Proof.
  intros Hkey Hv. unfold DataManager.updated_item, merge_into.
  rewrite lookup_insert_ne by done. by rewrite lookup_union_r.
Qed.

Lemma created_item_lookup (n : Z) (new_item : record) (ts key : string)
    (v : Py.value) :
  key ≠ "created_at"%string → key ≠ "updated_at"%string →
  new_item !! key = Some v →
  DataManager.created_item n new_item ts !! key = Some v.
Proof.
  intros H1 H2 Hv. unfold DataManager.created_item, merge_into.
  rewrite !lookup_insert_ne by done. by apply lookup_union_Some_l.
Qed.

Section BookingFacts.
Variable fromisoformat_date : string → option Py.date.
Variable today : Py.date.

Lemma booking_update_inv (st st' : fs) (booking_id : Py.value)
    (data booking' : record) (ts : string) :
  BaseService.update (BookingService.service fromisoformat_date today) st
    booking_id data ts = Ok (booking', st') →
  data !! "id" = None →
  ∃ booking,
    BaseService.get_by_id (BookingService.service fromisoformat_date today) st
      booking_id = Ok booking
    ∧ booking' = DataManager.updated_item booking data ts
    ∧ BaseService.get_by_id (BookingService.service fromisoformat_date today) st'
        booking_id = Ok booking'.
Proof.
  intros Hup Hno.
  pose proof (service_update_fields _ _ _ _ _ _ _ Hup)
    as (vd & booking & Hv & Hget & Hitem & _).
  cbn in Hv. apply booking_validate_update in Hv as ->.
  exists booking. do 2 (split; [done|]).
  apply (service_update_read_back _ _ _ _ _ _ _ Hup).
  intros vd Hv. cbn in Hv. by apply booking_validate_update in Hv as ->.
Qed.

Lemma confirm_refused (st : fs) (booking_id : Py.value) (booking : record)
    (ts status : string) :
  BaseService.get_by_id (BookingService.service fromisoformat_date today) st
    booking_id = Ok booking →
  booking !! "status" = Some (Py.VStr status) →
  status ≠ "pending"%string →
  BookingService.confirm_booking fromisoformat_date today st booking_id ts
  = Err (ValidationError "Only pending bookings can be confirmed").
Proof.
  intros Hget Hstatus Hne. unfold BookingService.confirm_booking.
  rewrite Hget. cbn [mbind result_bind].
  assert (get booking "status" = Py.VStr status) as ->
    by (unfold get; by rewrite Hstatus).
  unfold Py.eq. by apply String.eqb_neq in Hne as ->.
Qed.

End BookingFacts.

(** X11. [confirm_booking] succeeds on a pending booking only; it changes
    its status to "confirmed" and its [updated_at] and nothing else, and a
    second confirmation is refused. *)
Theorem confirm_booking_once (fromisoformat_date : string → option Py.date)
    (today : Py.date) (st st' : fs) (booking_id : Py.value) (booking' : record)
    (ts : string) :
  BookingService.confirm_booking fromisoformat_date today st booking_id ts
  = Ok (booking', st') →
  (∃ booking,
      BaseService.get_by_id (BookingService.service fromisoformat_date today) st
        booking_id = Ok booking
      ∧ booking !! "status" = Some (Py.VStr "pending")
      ∧ booking' = <["updated_at" := Py.VStr ts]>
                     (<["status" := Py.VStr "confirmed"]> booking))
  ∧ BaseService.get_by_id (BookingService.service fromisoformat_date today) st'
      booking_id = Ok booking'
  ∧ ∀ ts2,
      BookingService.confirm_booking fromisoformat_date today st' booking_id ts2
      = Err (ValidationError "Only pending bookings can be confirmed").
Proof.
  unfold BookingService.confirm_booking at 1.
  destruct (BaseService.get_by_id _ st booking_id) as [booking|e] eqn:Hget;
    cbn [mbind result_bind]; [|done].
  destruct (Py.eq (get booking "status") (Py.VStr "pending")) eqn:Hstatus;
    cbn [negb]; [|done].
  intros Hup. apply booking_update_inv in Hup as (b & Hb & -> & Hget'); [|done].
  rewrite Hget in Hb. injection Hb as <-.
  split.
  - exists booking. split; [done|]. split; [by apply get_str|].
    unfold DataManager.updated_item, merge_into.
    by rewrite <- insert_union_singleton_l.
  - split; [done|]. intros ts2.
    apply (confirm_refused _ _ _ _ _ _ "confirmed" Hget'); [|done].
    by apply updated_item_lookup.
Qed.

Lemma confirm_booking_once_witness :
  ∃ booking' st',
    BookingService.confirm_booking IsoDate.fromisoformat_date
      (Example.d 2024 5 1)
      (Example.disk [("data/bookings/bookings.json",
                      [Example.rec [("id", Py.VInt 1);
                                    ("status", Py.VStr "pending")]])])
      (Py.VInt 1) "2024-05-01T10:00:00"
    = Ok (booking', st')
    ∧ ∀ ts2,
        BookingService.confirm_booking IsoDate.fromisoformat_date
          (Example.d 2024 5 1) st' (Py.VInt 1) ts2
        = Err (ValidationError "Only pending bookings can be confirmed").
Proof.
  assert (is_ok (BookingService.confirm_booking IsoDate.fromisoformat_date
      (Example.d 2024 5 1)
      (Example.disk [("data/bookings/bookings.json",
                      [Example.rec [("id", Py.VInt 1);
                                    ("status", Py.VStr "pending")]])])
      (Py.VInt 1) "2024-05-01T10:00:00") = true)
    as Hrun by (vm_compute; reflexivity).
  destruct (BookingService.confirm_booking _ _ _ _ _) as [[booking' st']|e] eqn:Hc;
    [|discriminate Hrun].
  exists booking', st'. split; [reflexivity|].
  exact (proj2 (proj2 (confirm_booking_once _ _ _ _ _ _ _ Hc))).
Defined.

(** X12. [cancel_booking] succeeds on a booking that is neither cancelled
    nor completed; the booking it leaves has the status "cancelled", carries
    the reason and the time when a reason was given, no longer stands in the
    way of any range of dates, and can be neither cancelled again nor
    confirmed. *)
Theorem cancel_booking_once (fromisoformat_date : string → option Py.date)
    (today : Py.date) (st st' : fs) (booking_id : Py.value)
    (reason : option string) (cancelled_at ts : string) (booking' : record) :
  BookingService.cancel_booking fromisoformat_date today st booking_id reason
    cancelled_at ts = Ok (booking', st') →
  booking' !! "status" = Some (Py.VStr "cancelled")
  ∧ (∀ r, reason = Some r → r ≠ ""%string →
          booking' !! "cancellation_reason" = Some (Py.VStr r)
          ∧ booking' !! "cancelled_at" = Some (Py.VStr cancelled_at))
  ∧ (∀ check_in check_out,
        BookingService.conflicts fromisoformat_date check_in check_out booking'
        = Ok false)
  ∧ BaseService.get_by_id (BookingService.service fromisoformat_date today) st'
      booking_id = Ok booking'
  ∧ (∀ reason2 cancelled_at2 ts2,
        BookingService.cancel_booking fromisoformat_date today st' booking_id
          reason2 cancelled_at2 ts2
        = Err (ValidationError "Booking cannot be cancelled"))
  ∧ (∀ ts2,
        BookingService.confirm_booking fromisoformat_date today st' booking_id ts2
        = Err (ValidationError "Only pending bookings can be confirmed")).
Proof.
  unfold BookingService.cancel_booking at 1.
  destruct (BaseService.get_by_id _ st booking_id) as [booking|e] eqn:Hget;
    cbn [mbind result_bind]; [|done].
  destruct (Py.elem_of_list (get booking "status") _); [done|].
  intros Hup. apply booking_update_inv in Hup as (b & _ & -> & Hget').
  2:{ destruct reason as [r|]; [destruct (String.eqb r "")|]; done. }
  assert (DataManager.updated_item b
            match reason with
            | Some r =>
                if String.eqb r ""
                then {["status" := Py.VStr "cancelled"]}
                else <["cancelled_at" := Py.VStr cancelled_at]>
                       (<["cancellation_reason" := Py.VStr r]>
                          {["status" := Py.VStr "cancelled"]})
            | None => {["status" := Py.VStr "cancelled"]}
            end ts !! "status" = Some (Py.VStr "cancelled")) as Hstatus.
  { apply updated_item_lookup; [done|].
    destruct reason as [r|]; [destruct (String.eqb r "")|]; done. }
  split; [exact Hstatus|]. split; [|split; [|split; [done|split]]].
  - intros r -> Hr. apply String.eqb_neq in Hr as ->.
    split; by apply updated_item_lookup.
  - intros check_in check_out. unfold BookingService.conflicts, get.
    by rewrite Hstatus.
  - intros reason2 cancelled_at2 ts2. unfold BookingService.cancel_booking.
    rewrite Hget'. cbn [mbind result_bind]. unfold get. by rewrite Hstatus.
  - intros ts2. by apply (confirm_refused _ _ _ _ _ _ "cancelled" Hget').
Qed.

Lemma cancel_booking_once_witness :
  ∃ booking' st',
    BookingService.cancel_booking IsoDate.fromisoformat_date
      (Example.d 2024 5 1)
      (Example.disk [("data/bookings/bookings.json",
                      [Example.rec [("id", Py.VInt 1);
                                    ("status", Py.VStr "confirmed")]])])
      (Py.VInt 1) (Some "plans changed"%string) "2024-05-01T10:00:00"
      "2024-05-01T10:00:01"
    = Ok (booking', st')
    ∧ booking' !! "status" = Some (Py.VStr "cancelled")
    ∧ booking' !! "cancellation_reason" = Some (Py.VStr "plans changed").
Proof.
  assert (is_ok (BookingService.cancel_booking IsoDate.fromisoformat_date
      (Example.d 2024 5 1)
      (Example.disk [("data/bookings/bookings.json",
                      [Example.rec [("id", Py.VInt 1);
                                    ("status", Py.VStr "confirmed")]])])
      (Py.VInt 1) (Some "plans changed"%string) "2024-05-01T10:00:00"
      "2024-05-01T10:00:01") = true)
    as Hrun by (vm_compute; reflexivity).
  destruct (BookingService.cancel_booking _ _ _ _ _ _ _)
    as [[booking' st']|e] eqn:Hc; [|discriminate Hrun].
  exists booking', st'. split; [reflexivity|].
  destruct (cancel_booking_once _ _ _ _ _ _ _ _ _ Hc) as (Hstatus & Hreason & _).
  split; [exact Hstatus|].
  exact (proj1 (Hreason "plans changed"%string eq_refl ltac:(discriminate))).
Defined.

Lemma date_cmp_antisym (a b : Py.date) :
  Py.date_cmp b a = CompOpp (Py.date_cmp a b).
Proof.
  unfold Py.date_cmp.
  rewrite (Z.compare_antisym (Py.year a) (Py.year b)),
    (Z.compare_antisym (Py.month a) (Py.month b)),
    (Z.compare_antisym (Py.day a) (Py.day b)).
  by destruct (Py.year a ?= Py.year b), (Py.month a ?= Py.month b),
       (Py.day a ?= Py.day b).
Qed.

Lemma find_by_id_same_file (self : DataManager.t) (st st2 : fs)
    (file_name : string) (item_id : Py.value) :
  DataManager.load self st2 file_name = DataManager.load self st file_name →
  DataManager.find_by_id self st2 file_name item_id
  = DataManager.find_by_id self st file_name item_id.
Proof. unfold DataManager.find_by_id. by intros ->. Qed.

Section BookingCreate.
Variable fromisoformat_date : string → option Py.date.
Variable today : Py.date.

(** What a booking request that passes [validate_data] has shown, and what
    the same request gives on files [st2] with the same rooms and users. *)
Lemma booking_validate_create_inv (st st2 : fs) (data validated_data : record) :
  BookingService.validate_data fromisoformat_date today st data "create"
  = Ok validated_data →
  DataManager.load DataManager.properties_manager st2 "rooms.json"
  = DataManager.load DataManager.properties_manager st "rooms.json" →
  DataManager.load DataManager.users_manager st2 "users.json"
  = DataManager.load DataManager.users_manager st "users.json" →
  ∃ property_id property_data check_in check_out check_in_date check_out_date
      guests,
    data !! "property_id" = Some property_id
    ∧ DataManager.find_by_id DataManager.properties_manager st "rooms.json"
        property_id = Some property_data
    ∧ data !! "check_in" = Some check_in
    ∧ data !! "check_out" = Some check_out
    ∧ BookingService.parse_date fromisoformat_date check_in = Ok check_in_date
    ∧ BookingService.parse_date fromisoformat_date check_out = Ok check_out_date
    ∧ Py.date_geb check_in_date check_out_date = false
    ∧ Py.date_ltb check_in_date today = false
    ∧ data !! "guests" = Some guests
    ∧ Py.lt guests (Py.VInt 1) = Ok false
    ∧ Py.lt (get_or property_data "max_guests" (Py.VInt 1)) guests = Ok false
    ∧ BookingService._check_availability fromisoformat_date st property_id
        check_in_date check_out_date = true
    ∧ validated_data
      = (if has_key data "status" then data
         else <["status" := Py.VStr "pending"]> data)
    ∧ BookingService.validate_data fromisoformat_date today st2 data "create"
      = if BookingService._check_availability fromisoformat_date st2 property_id
             check_in_date check_out_date
        then Ok validated_data
        else Err (ConflictError "Property is not available for selected dates").
Proof.
  intros Hv Hrooms Husers. revert Hv.
  unfold BookingService.validate_data, BaseService.base_validate_data.
  destruct (nonempty data); cbn [mbind result_bind];
    [|intros Hstop; discriminate Hstop].
  rewrite !String.eqb_refl.
  destruct (ReviewService.check_required data _) as [[]|e];
    cbn [mbind result_bind]; [|intros Hstop; discriminate Hstop].
  destruct (data !! "property_id") as [property_id|] eqn:Hpid;
    cbn [require mbind result_bind]; [|intros Hstop; discriminate Hstop].
  rewrite (find_by_id_same_file _ _ _ _ property_id Hrooms).
  destruct (DataManager.find_by_id DataManager.properties_manager st _ _)
    as [property_data|] eqn:Hroom; [|intros Hstop; discriminate Hstop].
  destruct (nonempty property_data); cbn [mbind result_bind];
    [|intros Hstop; discriminate Hstop].
  destruct (data !! "guest_id") as [guest_id|] eqn:Hgid;
    cbn [require mbind result_bind]; [|intros Hstop; discriminate Hstop].
  rewrite (find_by_id_same_file _ _ _ _ guest_id Husers).
  destruct (ReviewService.found _); cbn [mbind result_bind];
    [|intros Hstop; discriminate Hstop].
  destruct (data !! "check_in") as [check_in|] eqn:Hin;
    cbn [require mbind result_bind]; [|intros Hstop; discriminate Hstop].
  destruct (data !! "check_out") as [check_out|] eqn:Hout;
    cbn [require mbind result_bind]; [|intros Hstop; discriminate Hstop].
  unfold BookingService.parse_date_or_invalid.
  destruct (BookingService.parse_date _ check_in) as [check_in_date|e] eqn:Hcin;
    cbn [mbind result_bind];
    [|destruct e; intros Hstop; discriminate Hstop].
  destruct (BookingService.parse_date _ check_out) as [check_out_date|e] eqn:Hcout;
    cbn [mbind result_bind];
    [|destruct e; intros Hstop; discriminate Hstop].
  destruct (Py.date_geb check_in_date check_out_date) eqn:Hgeb;
    cbn [mbind result_bind]; [intros Hstop; discriminate Hstop|].
  destruct (Py.date_ltb check_in_date today) eqn:Hpast;
    cbn [mbind result_bind]; [intros Hstop; discriminate Hstop|].
  destruct (data !! "guests") as [guests|] eqn:Hguests;
    cbn [require mbind result_bind]; [|intros Hstop; discriminate Hstop].
  destruct (Py.lt guests (Py.VInt 1)) as [[|]|e] eqn:Hfew;
    cbn [mbind result_bind];
    [intros Hstop; discriminate Hstop | | intros Hstop; discriminate Hstop].
  destruct (Py.lt (get_or property_data "max_guests" (Py.VInt 1)) guests)
    as [[|]|e] eqn:Hmany; cbn [mbind result_bind];
    [intros Hstop; discriminate Hstop | | intros Hstop; discriminate Hstop].
  destruct (BookingService._check_availability _ st property_id _ _) eqn:Hav;
    cbn [mbind result_bind]; [|intros Hstop; discriminate Hstop].
  intros [= <-].
  exists property_id, property_data, check_in, check_out, check_in_date,
    check_out_date, guests.
  do 13 (split; [assumption || reflexivity|]).
  by destruct (BookingService._check_availability _ st2 property_id _ _).
Qed.

Lemma booking_create_inv (st st' : fs) (data booking : record) (ts : string) :
  BaseService.create (BookingService.service fromisoformat_date today) st data ts
  = Ok (booking, st') →
  ∃ validated_data n,
    BookingService.validate_data fromisoformat_date today st data "create"
    = Ok validated_data
    ∧ booking = DataManager.created_item n validated_data ts
    ∧ DataManager.load DataManager.bookings_manager st' "bookings.json"
      = DataManager.load DataManager.bookings_manager st "bookings.json"
          ++ [booking]
    ∧ DataManager.load DataManager.properties_manager st' "rooms.json"
      = DataManager.load DataManager.properties_manager st "rooms.json"
    ∧ DataManager.load DataManager.users_manager st' "users.json"
      = DataManager.load DataManager.users_manager st "users.json".
Proof.
  intros Hc. apply create_ok_validated in Hc as (vd & Hv & Hc).
  cbn in Hv, Hc. apply create_inv_save in Hc as (n & _ & Hitem & Hs).
  exists vd, n. do 2 (split; [done|]).
  split; [by apply save_spec in Hs as (_ & _ & Hl)|].
  split; by eapply save_other_file.
Qed.

End BookingCreate.

(** X13. A booking is created only for a request that names a room on
    file, with dates that read as dates, the check-in before the check-out
    and not before today, at least one guest and no more than the room
    takes, and a range the availability check accepts.  The record gets the
    status of the request, or "pending" when it has none, and goes to the
    end of the bookings file. *)
Theorem booking_create_checked (fromisoformat_date : string → option Py.date)
    (today : Py.date) (st st' : fs) (data booking : record) (ts : string) :
  BaseService.create (BookingService.service fromisoformat_date today) st data ts
  = Ok (booking, st') →
  ∃ property_id property_data check_in check_out check_in_date check_out_date
      guests,
    data !! "property_id" = Some property_id
    ∧ DataManager.find_by_id DataManager.properties_manager st "rooms.json"
        property_id = Some property_data
    ∧ data !! "check_in" = Some check_in
    ∧ data !! "check_out" = Some check_out
    ∧ BookingService.parse_date fromisoformat_date check_in = Ok check_in_date
    ∧ BookingService.parse_date fromisoformat_date check_out = Ok check_out_date
    ∧ Py.date_ltb check_in_date check_out_date = true
    ∧ Py.date_leb today check_in_date = true
    ∧ data !! "guests" = Some guests
    ∧ Py.lt guests (Py.VInt 1) = Ok false
    ∧ Py.lt (get_or property_data "max_guests" (Py.VInt 1)) guests = Ok false
    ∧ BookingService._check_availability fromisoformat_date st property_id
        check_in_date check_out_date = true
    ∧ booking !! "status" = Some (get_or data "status" (Py.VStr "pending"))
    ∧ DataManager.load DataManager.bookings_manager st' "bookings.json"
      = DataManager.load DataManager.bookings_manager st "bookings.json"
          ++ [booking].
Proof.
  intros Hc.
  apply booking_create_inv in Hc as (vd & n & Hv & -> & Hl & _ & _).
  destruct (booking_validate_create_inv _ _ st st data vd Hv eq_refl eq_refl)
    as (property_id & property_data & check_in & check_out & check_in_date
        & check_out_date & guests & Hpid & Hroom & Hin & Hout & Hcin & Hcout
        & Hgeb & Hpast & Hguests & Hfew & Hmany & Hav & -> & _).
  exists property_id, property_data, check_in, check_out, check_in_date,
    check_out_date, guests.
  do 6 (split; [done|]).
  split.
  { unfold Py.date_geb, Py.date_ltb in *.
    by destruct (Py.date_cmp check_in_date check_out_date). }
  split.
  { unfold Py.date_leb, Py.date_ltb in *. rewrite date_cmp_antisym.
    by destruct (Py.date_cmp check_in_date today). }
  do 4 (split; [done|]). split; [|done].
  apply created_item_lookup; [done..|].
  unfold has_key, get_or. destruct (data !! "status") eqn:Hs; [done|].
  apply lookup_insert_eq.
Qed.

Lemma booking_create_checked_witness :
  ∃ booking st',
    BaseService.create
      (BookingService.service IsoDate.fromisoformat_date (Example.d 2024 5 1))
      cabin_world june_request "2024-05-01T10:00:00"
    = Ok (booking, st')
    ∧ booking !! "status" = Some (Py.VStr "pending").
Proof.
  assert (is_ok (BaseService.create
      (BookingService.service IsoDate.fromisoformat_date (Example.d 2024 5 1))
      cabin_world june_request "2024-05-01T10:00:00") = true)
    as Hrun by (vm_compute; reflexivity).
  destruct (BaseService.create _ _ _ _) as [[booking st']|e] eqn:Hc;
    [|discriminate Hrun].
  exists booking, st'. split; [reflexivity|].
  destruct (booking_create_checked _ _ _ _ _ _ _ Hc)
    as (? & ? & ? & ? & ? & ? & ? & _ & _ & _ & _ & _ & _ & _ & _ & _ & _ & _
        & _ & Hstatus & _).
  exact Hstatus.
Defined.

(** X14. No double booking by repetition: once a request without a status
    of its own has been booked, its dates are no longer available for the
    room, the new booking being pending, and the same request again is
    refused; the caller sees [ServiceError], the [ConflictError] of the
    validation being caught by [create]. *)
Theorem booking_create_blocks_dates
    (fromisoformat_date : string → option Py.date) (today : Py.date)
    (st st' : fs) (data booking : record) (ts : string) :
  BaseService.create (BookingService.service fromisoformat_date today) st data ts
  = Ok (booking, st') →
  data !! "status" = None →
  Py.eq (get data "property_id") (get data "property_id") = true →
  ∃ property_id check_in check_out check_in_date check_out_date,
    data !! "property_id" = Some property_id
    ∧ data !! "check_in" = Some check_in
    ∧ data !! "check_out" = Some check_out
    ∧ BookingService.parse_date fromisoformat_date check_in = Ok check_in_date
    ∧ BookingService.parse_date fromisoformat_date check_out = Ok check_out_date
    ∧ BookingService._check_availability fromisoformat_date st property_id
        check_in_date check_out_date = true
    ∧ BookingService._check_availability fromisoformat_date st' property_id
        check_in_date check_out_date = false
    ∧ ∀ ts2,
        BaseService.create (BookingService.service fromisoformat_date today) st'
          data ts2
        = Err (ServiceError "Failed to create booking").
Proof.
  intros Hc Hno Hrefl.
  apply booking_create_inv in Hc as (vd & n & Hv & -> & Hl & Hrooms & Husers).
  destruct (booking_validate_create_inv _ _ st st' data vd Hv Hrooms Husers)
    as (property_id & property_data & check_in & check_out & check_in_date
        & check_out_date & guests & Hpid & Hroom & Hin & Hout & Hcin & Hcout
        & Hgeb & Hpast & Hguests & Hfew & Hmany & Hav & -> & Hagain).
  unfold has_key in *. rewrite Hno in *.
  assert (BookingService._check_availability fromisoformat_date st' property_id
            check_in_date check_out_date = false) as Hblocked.
  { apply check_availability_false.
    exists (DataManager.created_item n (<["status" := Py.VStr "pending"]> data) ts).
    split.
    - unfold BookingService.find_by_field, DataManager.find_by_field,
        BookingService.get_primary_file.
      rewrite Hl. apply list_elem_of_In, List.filter_In. split.
      + apply List.in_or_app. right. by left.
      + unfold get in *. rewrite Hpid in Hrefl.
        rewrite (created_item_lookup _ _ _ "property_id" property_id);
          [done.. |]. by rewrite lookup_insert_ne.
    - unfold BookingService.conflicts, get.
      rewrite (created_item_lookup _ _ _ "status" (Py.VStr "pending"));
        [|done..|apply lookup_insert_eq].
      cbn [default Py.elem_of_list existsb Py.eq String.eqb Ascii.eqb
             Bool.eqb orb].
      rewrite (created_item_lookup _ _ _ "check_in" check_in);
        [|done..|by rewrite lookup_insert_ne].
      cbn [require mbind result_bind]. rewrite Hcin. cbn [mbind result_bind].
      rewrite (created_item_lookup _ _ _ "check_out" check_out);
        [|done..|by rewrite lookup_insert_ne].
      cbn [require mbind result_bind]. rewrite Hcout. cbn [mbind result_bind].
      rewrite Hgeb. unfold Py.date_leb, Py.date_geb in *.
      rewrite date_cmp_antisym.
      by destruct (Py.date_cmp check_in_date check_out_date). }
  exists property_id, check_in, check_out, check_in_date, check_out_date.
  do 7 (split; [assumption|]).
  intros ts2. rewrite Hblocked in Hagain.
  by rewrite (create_after_validate_err
                (BookingService.service fromisoformat_date today)
                st' data ts2 _ Hagain).
Qed.

Lemma booking_create_blocks_dates_witness :
  ∃ booking st',
    BaseService.create
      (BookingService.service IsoDate.fromisoformat_date (Example.d 2024 5 1))
      cabin_world june_request "2024-05-01T10:00:00"
    = Ok (booking, st')
    ∧ BaseService.create
        (BookingService.service IsoDate.fromisoformat_date (Example.d 2024 5 1))
        st' june_request "2024-05-01T10:00:05"
      = Err (ServiceError "Failed to create booking").
Proof.
  assert (is_ok (BaseService.create
      (BookingService.service IsoDate.fromisoformat_date (Example.d 2024 5 1))
      cabin_world june_request "2024-05-01T10:00:00") = true)
    as Hrun by (vm_compute; reflexivity).
  destruct (BaseService.create _ _ _ _) as [[booking st']|e] eqn:Hc;
    [|discriminate Hrun].
  exists booking, st'. split; [reflexivity|].
  destruct (booking_create_blocks_dates _ _ _ _ _ _ _ Hc)
    as (? & ? & ? & ? & ? & _ & _ & _ & _ & _ & _ & _ & Hagain).
  - vm_compute. reflexivity.
  - vm_compute. reflexivity.
  - apply Hagain.
Defined.

(** ** Users: signing in, profiles and passwords *)

(** X15. [authenticate] answers with a user only when the first record on
    file whose e-mail equals the lowercased address, the one
    [get_user_by_email] gives, holds exactly the password typed; the answer
    is that record without its password, and the case of the address typed
    does not matter. *)
Theorem authenticate_checks (st : fs) (email password : string) (user : record) :
  UserService.authenticate st email password = Some user →
  user !! "password" = None
  ∧ (∃ stored,
        UserService.get_user_by_email st email = Some stored
        ∧ stored ∈ DataManager.load DataManager.users_manager st "users.json"
        ∧ stored !! "email" = Some (Py.VStr (Py.lower email))
        ∧ stored !! "password" = Some (Py.VStr password)
        ∧ user = delete "password" stored)
  ∧ ∀ email2, Py.lower email2 = Py.lower email →
              UserService.authenticate st email2 password = Some user.
Proof.
  unfold UserService.authenticate, UserService.get_user_by_email.
  destruct (DataManager.find_by_field _ _ _ _ _) as [|stored rest] eqn:Hfound;
    [done|].
  destruct (Py.eq (get stored "password") (Py.VStr password)) eqn:Hpw; [|done].
  intros [= <-]. split; [apply lookup_delete_eq|]. split.
  - exists stored. split; [done|].
    assert (In stored (DataManager.find_by_field DataManager.users_manager st
                         UserService.get_primary_file "email"
                         (Py.VStr (Py.lower email)))) as Hin
      by (rewrite Hfound; by left).
    apply List.filter_In in Hin as [Hin Hemail].
    split; [by apply list_elem_of_In|].
    split; [by apply get_str|]. split; [by apply get_str | done].
  - intros email2 ->. by rewrite Hfound, Hpw.
Qed.

Lemma authenticate_checks_witness :
  UserService.authenticate
    (Example.disk [("data/users/users.json",
                    [Example.rec [("id", Py.VInt 1);
                                  ("email", Py.VStr "émile@example.com");
                                  ("password", Py.VStr "battery staple")]])])
    "ÉMILE@Example.com" "battery staple"
  = Some (Example.rec [("id", Py.VInt 1); ("email", Py.VStr "émile@example.com")]).
Proof.
  refine (proj2 (proj2 (authenticate_checks
            (Example.disk [("data/users/users.json",
                    [Example.rec [("id", Py.VInt 1);
                                  ("email", Py.VStr "émile@example.com");
                                  ("password", Py.VStr "battery staple")]])])
            "émile@example.com" "battery staple" _ _)) "ÉMILE@Example.com" _).
  - vm_compute. reflexivity.
  - vm_compute. reflexivity.
Defined.

Lemma sanitize_absent (key : string) (f : string → string) (data : record) :
  data !! key = None → UserService.sanitize key f data = Ok data.
Proof. intros Hk. unfold UserService.sanitize. by rewrite Hk. Qed.

Lemma sanitize_present (key : string) (f : string → string) (data : record)
    (s : string) :
  data !! key = Some (Py.VStr s) →
  UserService.sanitize key f data = Ok (<[key := Py.VStr (f s)]> data).
Proof. intros Hk. unfold UserService.sanitize. by rewrite Hk. Qed.

Lemma sanitize_inv (key : string) (f : string → string) (data data' : record) :
  UserService.sanitize key f data = Ok data' →
  (data !! key = None ∧ data' = data)
  ∨ ∃ s, data !! key = Some (Py.VStr s) ∧ data' = <[key := Py.VStr (f s)]> data.
Proof.
  unfold UserService.sanitize.
  destruct (data !! key) as [[| | | |s]|]; try done.
  - intros [= <-]. right. eauto.
  - intros [= <-]. by left.
Qed.

Lemma user_validate_update (st : fs) (data validated_data : record) :
  UserService.validate_data st data "update" = Ok validated_data →
  (∀ key, key ≠ "email"%string → key ≠ "first_name"%string →
          key ≠ "last_name"%string →
          validated_data !! key = data !! key)
  ∧ (data !! "email" = None → validated_data !! "email" = None)
  ∧ (∀ s, data !! "email" = Some (Py.VStr s) →
          validated_data !! "email" = Some (Py.VStr (Py.strip (Py.lower s)))).
Proof.
  unfold UserService.validate_data, BaseService.base_validate_data.
  destruct (nonempty data); cbn; [|done].
  destruct (UserService.sanitize "email" _ data) as [d1|] eqn:H1; cbn; [|done].
  destruct (UserService.sanitize "first_name" _ d1) as [d2|] eqn:H2; cbn; [|done].
  destruct (UserService.sanitize "last_name" _ d2) as [d3|] eqn:H3; cbn; [|done].
  intros [= <-].
  assert (d3 !! "email" = d1 !! "email") as Hemail.
  { rewrite (sanitize_other_key "last_name" "email" _ _ _ ltac:(done) H3).
    by rewrite (sanitize_other_key "first_name" "email" _ _ _ ltac:(done) H2). }
  split; [|split].
  - intros key Ke Kf Kl.
    rewrite (sanitize_other_key "last_name" key _ _ _ ltac:(done) H3).
    rewrite (sanitize_other_key "first_name" key _ _ _ ltac:(done) H2).
    by rewrite (sanitize_other_key "email" key _ _ _ ltac:(done) H1).
  - intros Hno. rewrite Hemail. rewrite (sanitize_absent _ _ _ Hno) in H1.
    by injection H1 as <-.
  - intros s Hs. rewrite Hemail.
    apply sanitize_inv in H1 as [[H1 _]|(s' & H1 & ->)]; rewrite Hs in H1; [done|].
    injection H1 as <-. apply lookup_insert_eq.
Qed.

(** X16. [update_profile] cannot change the e-mail or the password: in the
    record it rewrites both are as they were, whatever the profile data
    holds under those names; the stored record keeps its password, the
    record returned does not carry it. *)
Theorem update_profile_keeps_credentials (st st' : fs) (user_id : Py.value)
    (profile_data : record) (ts : string) (user : record) :
  UserService.update_profile st user_id profile_data ts = Ok (user, st') →
  user !! "password" = None
  ∧ ∃ i stored stored',
      BaseService.get_by_id UserService.service st user_id = Ok stored
      ∧ DataManager.load DataManager.users_manager st "users.json" !! i
        = Some stored
      ∧ DataManager.load DataManager.users_manager st' "users.json"
        = <[i := stored']>
            (DataManager.load DataManager.users_manager st "users.json")
      ∧ stored' !! "password" = stored !! "password"
      ∧ stored' !! "email" = stored !! "email"
      ∧ user = delete "password" stored'.
Proof.
  unfold UserService.update_profile.
  destruct (BaseService.update _ _ _ _ _) as [[stored' st1]|e] eqn:Hup;
    cbn [mbind result_bind]; [|done].
  intros [= <- <-]. split; [apply lookup_delete_eq|].
  apply service_update_fields in Hup as (vd & stored & Hv & Hget & -> & Hup).
  cbn in Hv, Hup. apply user_validate_update in Hv as (Hother & Hemail & _).
  apply update_inv_find in Hup as (i & item & Hfind & Hi & _ & _ & Hitem & Hl).
  apply get_by_id_found in Hget as Hfound. cbn in Hfound.
  rewrite Hfound in Hfind. injection Hfind as <-.
  exists i, stored, (DataManager.updated_item stored vd ts).
  do 3 (split; [done|]). split; [|split; [|done]].
  - apply updated_item_other; [done|]. rewrite Hother by done.
    rewrite lookup_delete_ne by done. apply lookup_delete_eq.
  - apply updated_item_other; [done|]. apply Hemail. apply lookup_delete_eq.
Qed.

Lemma update_profile_keeps_credentials_witness :
  ∃ user st',
    UserService.update_profile
      (Example.disk [("data/users/users.json",
                      [Example.rec [("id", Py.VInt 1);
                                    ("email", Py.VStr "ann@example.com");
                                    ("password", Py.VStr "battery staple")]])])
      (Py.VInt 1)
      (Example.rec [("email", Py.VStr "eve@example.com");
                    ("password", Py.VStr "12345678");
                    ("city", Py.VStr "Oslo")])
      "2024-05-01T10:00:00"
    = Ok (user, st')
    ∧ (λ r : record, (r !! "email", r !! "password"))
        <$> DataManager.load DataManager.users_manager st' "users.json"
      = [(Some (Py.VStr "ann@example.com"), Some (Py.VStr "battery staple"))].
Proof.
  assert (is_ok (UserService.update_profile
      (Example.disk [("data/users/users.json",
                      [Example.rec [("id", Py.VInt 1);
                                    ("email", Py.VStr "ann@example.com");
                                    ("password", Py.VStr "battery staple")]])])
      (Py.VInt 1)
      (Example.rec [("email", Py.VStr "eve@example.com");
                    ("password", Py.VStr "12345678");
                    ("city", Py.VStr "Oslo")])
      "2024-05-01T10:00:00") = true) as Hrun by (vm_compute; reflexivity).
  destruct (UserService.update_profile _ _ _ _) as [[user st']|e] eqn:Hu;
    [|discriminate Hrun].
  exists user, st'. split; [reflexivity|].
  destruct (update_profile_keeps_credentials _ _ _ _ _ _ Hu)
    as (_ & i & stored & stored' & _ & Hi & Hl & Hpw & Hemail & _).
  rewrite Hl. clear Hl Hu Hrun.
  assert (DataManager.load DataManager.users_manager
            (Example.disk [("data/users/users.json",
                      [Example.rec [("id", Py.VInt 1);
                                    ("email", Py.VStr "ann@example.com");
                                    ("password", Py.VStr "battery staple")]])])
            "users.json"
          = [Example.rec [("id", Py.VInt 1);
                          ("email", Py.VStr "ann@example.com");
                          ("password", Py.VStr "battery staple")]]) as Hload
    by (vm_compute; reflexivity).
  rewrite Hload in *. clear Hload.
  destruct i as [|[|i]]; [|discriminate Hi|discriminate Hi].
  injection Hi as <-. cbn [list_insert fmap list_fmap insert].
  rewrite Hpw, Hemail. reflexivity.
Defined.



(** X18. [change_password] succeeds only when the stored password equals
    the old one typed and the new one has at least 8 characters; afterwards
    the stored password is the new one, as typed. *)
Theorem change_password_checks (st st' : fs) (user_id : Py.value)
    (old_password new_password ts : string) (changed : bool) :
  UserService.change_password st user_id old_password new_password ts
  = Ok (changed, st') →
  changed = true
  ∧ 8 ≤ Py.len new_password
  ∧ (∃ user, BaseService.get_by_id UserService.service st user_id = Ok user
             ∧ user !! "password" = Some (Py.VStr old_password))
  ∧ ∃ user', BaseService.get_by_id UserService.service st' user_id = Ok user'
             ∧ user' !! "password" = Some (Py.VStr new_password).
Proof.
  unfold UserService.change_password.
  destruct (BaseService.get_by_id _ st user_id) as [user|e] eqn:Hget;
    cbn [mbind result_bind]; [|done].
  destruct (Py.eq (get user "password") (Py.VStr old_password)) eqn:Hold;
    cbn [negb]; [|done].
  destruct (Py.len new_password <? 8) eqn:Hlen; [done|].
  destruct (BaseService.update _ _ _ _ _) as [[user' st1]|e] eqn:Hup;
    cbn [mbind result_bind]; [|done].
  intros [= <- <-]. split; [done|]. split; [by apply Z.ltb_ge|].
  split; [exists user; split; [done | by apply get_str]|].
  exists user'. split.
  - apply (service_update_read_back _ _ _ _ _ _ _ Hup).
    intros vd Hv. cbn in Hv.
    apply user_validate_update in Hv as (Hother & _). by rewrite Hother.
  - apply service_update_fields in Hup as (vd & stored & Hv & _ & -> & _).
    cbn in Hv. apply user_validate_update in Hv as (Hother & _).
    apply updated_item_lookup; [done|]. rewrite Hother by done.
    apply lookup_singleton_eq.
Qed.

Lemma change_password_checks_witness :
  ∃ st' user',
    UserService.change_password
      (Example.disk [("data/users/users.json",
                      [Example.rec [("id", Py.VInt 1);
                                    ("password", Py.VStr "battery staple")]])])
      (Py.VInt 1) "battery staple" "correct horse" "2024-05-01T10:00:00"
    = Ok (true, st')
    ∧ BaseService.get_by_id UserService.service st' (Py.VInt 1) = Ok user'
    ∧ user' !! "password" = Some (Py.VStr "correct horse").
Proof.
  assert (is_ok (UserService.change_password
      (Example.disk [("data/users/users.json",
                      [Example.rec [("id", Py.VInt 1);
                                    ("password", Py.VStr "battery staple")]])])
      (Py.VInt 1) "battery staple" "correct horse" "2024-05-01T10:00:00") = true)
    as Hrun by (vm_compute; reflexivity).
  destruct (UserService.change_password _ _ _ _ _) as [[changed st']|e] eqn:Hc;
    [|discriminate Hrun].
  destruct (change_password_checks _ _ _ _ _ _ _ Hc)
    as (-> & _ & _ & user' & Hget & Hpw).
  exists st', user'. split; [reflexivity|]. split; [exact Hget | exact Hpw].
Defined.

Lemma user_create_inv (st st' : fs) (data stored : record) (ts : string) :
  BaseService.create UserService.service st data ts = Ok (stored, st') →
  ∃ email password,
    data !! "email" = Some (Py.VStr email)
    ∧ UserService.email_ok email = true
    ∧ DataManager.find_by_field DataManager.users_manager st "users.json"
        "email" (Py.VStr email) = []
    ∧ data !! "password" = Some (Py.VStr password)
    ∧ 8 ≤ Py.len password
    ∧ DataManager.load DataManager.users_manager st' "users.json"
      = DataManager.load DataManager.users_manager st "users.json" ++ [stored]
    ∧ stored !! "email" = Some (Py.VStr (Py.strip (Py.lower email)))
    ∧ stored !! "password" = Some (Py.VStr password).
Proof.
  intros Hc. apply create_ok_validated in Hc as (vd & Hv & Hc).
  cbn in Hv, Hc. apply create_inv in Hc as (n & _ & -> & _ & _ & Hl).
  revert Hv. unfold UserService.validate_data, BaseService.base_validate_data.
  destruct (nonempty data); cbn [mbind result_bind];
    [|intros Hstop; discriminate Hstop].
  rewrite String.eqb_refl.
  destruct (UserService.check_required data _) as [[]|e];
    cbn [mbind result_bind]; [|intros Hstop; discriminate Hstop].
  destruct (data !! "email") as [[| | | |email]|] eqn:Hemail;
    cbn [require mbind result_bind]; try (intros Hstop; discriminate Hstop).
  destruct (UserService.email_ok email) eqn:Hok; cbn [mbind result_bind];
    [|intros Hstop; discriminate Hstop].
  destruct (DataManager.find_by_field _ _ _ _ _) as [|? ?] eqn:Hnew;
    cbn [mbind result_bind]; [|intros Hstop; discriminate Hstop].
  destruct (data !! "password") as [[| | | |password]|] eqn:Hpw;
    cbn [require mbind result_bind]; try (intros Hstop; discriminate Hstop).
  destruct (Py.len password <? 8) eqn:Hlen; cbn [mbind result_bind];
    [intros Hstop; discriminate Hstop|].
  rewrite (sanitize_present "email" _ _ email Hemail). cbn [mbind result_bind].
  destruct (UserService.sanitize "first_name" _ _) as [d2|] eqn:H2;
    cbn [mbind result_bind]; [|intros Hstop; discriminate Hstop].
  destruct (UserService.sanitize "last_name" _ d2) as [d3|] eqn:H3;
    cbn [mbind result_bind]; [|intros Hstop; discriminate Hstop].
  intros [= <-]. exists email, password.
  split; [done|]. split; [done|]. split; [done|]. split; [done|].
  split; [by apply Z.ltb_ge|]. split; [done|].
  split; (apply created_item_lookup; [done..|]).
  - rewrite (sanitize_other_key "last_name" "email" _ _ _ ltac:(done) H3).
    rewrite (sanitize_other_key "first_name" "email" _ _ _ ltac:(done) H2).
    apply lookup_insert_eq.
  - rewrite (sanitize_other_key "last_name" "password" _ _ _ ltac:(done) H3).
    rewrite (sanitize_other_key "first_name" "password" _ _ _ ltac:(done) H2).
    by rewrite lookup_insert_ne.
Qed.

(** X19. [create_user] stores a user only for an e-mail of the form the
    pattern asks for that no record on file holds letter for letter, and a
    password of at least 8 characters; the e-mail is stored lowercased and
    stripped, the password as typed, and the record returned is the stored
    one without the password. *)
Theorem create_user_checked (st st' : fs) (user_data : record) (ts : string)
    (user : record) :
  UserService.create_user st user_data ts = Ok (user, st') →
  user !! "password" = None
  ∧ ∃ email password stored,
      user_data !! "email" = Some (Py.VStr email)
      ∧ UserService.email_ok email = true
      ∧ DataManager.find_by_field DataManager.users_manager st "users.json"
          "email" (Py.VStr email) = []
      ∧ user_data !! "password" = Some (Py.VStr password)
      ∧ 8 ≤ Py.len password
      ∧ DataManager.load DataManager.users_manager st' "users.json"
        = DataManager.load DataManager.users_manager st "users.json" ++ [stored]
      ∧ stored !! "email" = Some (Py.VStr (Py.strip (Py.lower email)))
      ∧ stored !! "password" = Some (Py.VStr password)
      ∧ user = delete "password" stored.
Proof.
  unfold UserService.create_user.
  destruct (BaseService.create _ _ _ _) as [[stored st1]|e] eqn:Hc;
    cbn [mbind result_bind]; [|done].
  intros [= <- <-]. split; [apply lookup_delete_eq|].
  apply user_create_inv in Hc
    as (email & password & H1 & H2 & H3 & H4 & H5 & H6 & H7 & H8).
  exists email, password, stored. done.
Qed.

Lemma create_user_checked_witness :
  ∃ user st',
    UserService.create_user (Example.disk [])
      (Example.rec [("email", Py.VStr "Ann@Example.com");
                    ("password", Py.VStr "battery staple");
                    ("first_name", Py.VStr " Ann ");
                    ("last_name", Py.VStr "Lee")])
      "2024-05-01T10:00:00"
    = Ok (user, st')
    ∧ user !! "password" = None
    ∧ (λ r : record, r !! "password")
        <$> DataManager.load DataManager.users_manager st' "users.json"
      = [Some (Py.VStr "battery staple")].
Proof.
  assert (is_ok (UserService.create_user (Example.disk [])
      (Example.rec [("email", Py.VStr "Ann@Example.com");
                    ("password", Py.VStr "battery staple");
                    ("first_name", Py.VStr " Ann ");
                    ("last_name", Py.VStr "Lee")])
      "2024-05-01T10:00:00") = true) as Hrun by (vm_compute; reflexivity).
  destruct (UserService.create_user _ _ _) as [[user st']|e] eqn:Hc;
    [|discriminate Hrun].
  exists user, st'. split; [reflexivity|].
  destruct (create_user_checked _ _ _ _ _ Hc)
    as (Hno & email & password & stored & _ & _ & _ & Hpw & _ & Hl & _ & Hstored & _).
  split; [exact Hno|]. rewrite Hl.
  change (DataManager.load DataManager.users_manager (Example.disk []) "users.json")
    with (@nil record).
  cbn [app fmap list_fmap]. rewrite Hstored. clear - Hpw.
  apply (f_equal (λ o, [o])). rewrite <- Hpw. vm_compute. reflexivity.
Defined.

(** ** Reviews: the host's response *)

Lemma truthy_long (s : string) : 10 ≤ Py.len s → Py.truthy (Py.VStr s) = true.
Proof.
  destruct s as [|c s]; [unfold Py.len; cbn [Py.chars length]; lia | done].
Qed.

(** X20. [add_host_response] stores a response once: it succeeds only with
    a stripped text of at least 10 characters on a review without a
    response, stores the stripped text and its date, never looks at the
    host id it is handed, and every later call for the review is refused. *)
Theorem add_host_response_once (st st' : fs) (review_id : Py.value)
    (response : string) (host_id : Py.value) (response_date ts : string)
    (review' : record) :
  ReviewService.add_host_response st review_id response host_id response_date ts
  = Ok (review', st') →
  10 ≤ Py.len (Py.strip response)
  ∧ review' !! "host_response" = Some (Py.VStr (Py.strip response))
  ∧ review' !! "host_response_date" = Some (Py.VStr response_date)
  ∧ (∀ host_id2,
        ReviewService.add_host_response st review_id response host_id2
          response_date ts = Ok (review', st'))
  ∧ ∀ response2 host_id2 response_date2 ts2,
      ReviewService.add_host_response st' review_id response2 host_id2
        response_date2 ts2
      = Err (ValidationError "Host response already exists").
Proof.
  intros Hadd. split; [|split; [|split; [|split; [intros host_id2; exact Hadd|]]]];
    revert Hadd; unfold ReviewService.add_host_response at 1;
    (destruct (BaseService.get_by_id _ st review_id) as [review|e] eqn:Hget;
       cbn [mbind result_bind]; [|done]);
    (destruct (Py.truthy (get review "host_response")); [done|]);
    (destruct (Py.len (Py.strip response) <? 10) eqn:Hlen; [done|]);
    apply Z.ltb_ge in Hlen; intros Hup.
  - exact Hlen.
  - apply service_update_fields in Hup as (vd & stored & Hv & _ & -> & _).
    cbn in Hv. apply review_validate_update in Hv as ->.
    apply updated_item_lookup; [done|]. apply lookup_insert_eq.
  - apply service_update_fields in Hup as (vd & stored & Hv & _ & -> & _).
    cbn in Hv. apply review_validate_update in Hv as ->.
    apply updated_item_lookup; [done|].
    rewrite lookup_insert_ne by done. apply lookup_singleton_eq.
  - intros response2 host_id2 response_date2 ts2.
    pose proof (service_update_fields _ _ _ _ _ _ _ Hup)
      as (vd & stored & Hv & _ & Hitem & _).
    cbn in Hv. apply review_validate_update in Hv as ->.
    assert (BaseService.get_by_id ReviewService.service st' review_id
            = Ok review') as Hget'.
    { apply (service_update_read_back _ _ _ _ _ _ _ Hup).
      intros vd Hv. cbn in Hv. apply review_validate_update in Hv as ->.
      rewrite lookup_insert_ne by done. by apply lookup_singleton_ne. }
    unfold ReviewService.add_host_response. rewrite Hget'.
    cbn [mbind result_bind].
    assert (get review' "host_response" = Py.VStr (Py.strip response)) as ->.
    { unfold get. rewrite Hitem.
      rewrite (updated_item_lookup _ _ _ "host_response"
                 (Py.VStr (Py.strip response))); [done..|].
      apply lookup_insert_eq. }
    by rewrite truthy_long.
Qed.

Lemma add_host_response_once_witness :
  ∃ review' st',
    ReviewService.add_host_response
      (Example.disk [("data/reviews/property_reviews.json",
                      [Example.review 1 5 "2024-01-02T10:00:00"])])
      (Py.VInt 1) "  Thank you for staying.  " (Py.VInt 9)
      "2024-05-01T10:00:00" "2024-05-01T10:00:01"
    = Ok (review', st')
    ∧ review' !! "host_response" = Some (Py.VStr "Thank you for staying.")
    ∧ ∀ response2 host_id2 response_date2 ts2,
        ReviewService.add_host_response st' (Py.VInt 1) response2 host_id2
          response_date2 ts2
        = Err (ValidationError "Host response already exists").
Proof.
  assert (is_ok (ReviewService.add_host_response
      (Example.disk [("data/reviews/property_reviews.json",
                      [Example.review 1 5 "2024-01-02T10:00:00"])])
      (Py.VInt 1) "  Thank you for staying.  " (Py.VInt 9)
      "2024-05-01T10:00:00" "2024-05-01T10:00:01") = true)
    as Hrun by (vm_compute; reflexivity).
  destruct (ReviewService.add_host_response _ _ _ _ _ _)
    as [[review' st']|e] eqn:Ha; [|discriminate Hrun].
  exists review', st'. split; [reflexivity|].
  destruct (add_host_response_once _ _ _ _ _ _ _ _ Ha)
    as (_ & Hresp & _ & _ & Hagain).
  split; [|exact Hagain]. rewrite Hresp. vm_compute. reflexivity.
Defined.

(** ** Payments: what [create] lets through *)

Lemma elem_of_strings (v : Py.value) (choices : list string) :
  Py.elem_of_list v (Py.VStr <$> choices) = true →
  ∃ s, v = Py.VStr s ∧ In s choices.
Proof.
  unfold Py.elem_of_list. induction choices as [|c choices IH]; cbn; [done|].
  destruct (Py.eq v (Py.VStr c)) eqn:Hc; cbn.
  - intros _. apply eq_str in Hc. eauto.
  - intros H. destruct (IH H) as (s & -> & Hin). eauto.
Qed.

(** X21. A payment is stored by [create] only for a booking on file, an
    amount that is a number and not [<= 0], and one of the six payment
    methods; the record stored has the amount as sent and, where the
    request has none of its own, the status "pending", the currency "USD"
    and the generated transaction id. *)
Theorem payment_create_checked (transaction_id : string) (st st' : fs)
    (data payment : record) (ts : string) :
  BaseService.create (PaymentService.service transaction_id) st data ts
  = Ok (payment, st') →
  (∃ booking_id,
      data !! "booking_id" = Some booking_id
      ∧ ReviewService.found
          (DataManager.find_by_id DataManager.bookings_manager st
             "bookings.json" booking_id) = true)
  ∧ (∃ amount n,
        data !! "amount" = Some amount
        ∧ Py.as_num amount = Some n
        ∧ Py.leb n (Py.NInt 0) = false
        ∧ payment !! "amount" = Some amount)
  ∧ (∃ method,
        data !! "payment_method" = Some (Py.VStr method)
        ∧ In method PaymentService.valid_methods)
  ∧ payment !! "status" = Some (get_or data "status" (Py.VStr "pending"))
  ∧ payment !! "currency" = Some (get_or data "currency" (Py.VStr "USD"))
  ∧ payment !! "transaction_id"
    = Some (get_or data "transaction_id" (Py.VStr transaction_id))
  ∧ DataManager.load DataManager.payments_manager st' "payments.json"
    = DataManager.load DataManager.payments_manager st "payments.json"
        ++ [payment].
Proof.
  intros Hc. apply create_ok_validated in Hc as (vd & Hv & Hc).
  cbn in Hv, Hc. apply create_inv in Hc as (n & _ & -> & _ & _ & Hl).
  revert Hv. unfold PaymentService.validate_data, BaseService.base_validate_data.
  destruct (nonempty data); cbn [mbind result_bind];
    [|intros Hstop; discriminate Hstop].
  rewrite String.eqb_refl.
  destruct (PaymentService.check_required data _) as [[]|e];
    cbn [mbind result_bind]; [|intros Hstop; discriminate Hstop].
  destruct (data !! "booking_id") as [booking_id|] eqn:Hbooking;
    cbn [require mbind result_bind]; [|intros Hstop; discriminate Hstop].
  destruct (ReviewService.found _) eqn:Hfound; cbn [mbind result_bind];
    [|intros Hstop; discriminate Hstop].
  destruct (data !! "amount") as [amount|] eqn:Hamount;
    cbn [require mbind result_bind]; [|intros Hstop; discriminate Hstop].
  destruct (PaymentService.bad_amount amount) eqn:Hbad; cbn [mbind result_bind];
    [intros Hstop; discriminate Hstop|].
  destruct (data !! "payment_method") as [method|] eqn:Hmethod;
    cbn [require mbind result_bind]; [|intros Hstop; discriminate Hstop].
  destruct (Py.elem_of_list method _) eqn:Hvalid; cbn [mbind result_bind];
    [|intros Hstop; discriminate Hstop].
  intros [= <-].
  split; [by exists booking_id|]. split.
  { unfold PaymentService.bad_amount in Hbad.
    destruct (Py.as_num amount) as [a|] eqn:Hnum; [|done].
    exists amount, a. do 3 (split; [done|]).
    apply created_item_lookup; [done..|]. by rewrite !lookup_insert_ne. }
  split.
  { apply elem_of_strings in Hvalid as (s & -> & Hin). by exists s. }
  split; [|split; [|split; [|done]]]; (apply created_item_lookup; [done..|]).
  - rewrite !lookup_insert_ne by done. apply lookup_insert_eq.
  - rewrite lookup_insert_ne by done.
    rewrite lookup_insert_eq. unfold get_or.
    by rewrite lookup_insert_ne.
  - rewrite lookup_insert_eq. unfold get_or. by rewrite !lookup_insert_ne.
Qed.

Lemma payment_create_checked_witness :
  ∃ payment st',
    BaseService.create (PaymentService.service "TXN-20240501-ABCD1234")
      (Example.disk [("data/bookings/bookings.json",
                      [Example.rec [("id", Py.VInt 1)]])])
      (Example.rec [("booking_id", Py.VInt 1); ("amount", Py.VInt 200);
                    ("payment_method", Py.VStr "paypal")])
      "2024-05-01T10:00:00"
    = Ok (payment, st')
    ∧ payment !! "status" = Some (Py.VStr "pending")
    ∧ payment !! "currency" = Some (Py.VStr "USD").
Proof.
  assert (is_ok (BaseService.create (PaymentService.service "TXN-20240501-ABCD1234")
      (Example.disk [("data/bookings/bookings.json",
                      [Example.rec [("id", Py.VInt 1)]])])
      (Example.rec [("booking_id", Py.VInt 1); ("amount", Py.VInt 200);
                    ("payment_method", Py.VStr "paypal")])
      "2024-05-01T10:00:00") = true) as Hrun by (vm_compute; reflexivity).
  destruct (BaseService.create _ _ _ _) as [[payment st']|e] eqn:Hc;
    [|discriminate Hrun].
  exists payment, st'. split; [reflexivity|].
  destruct (payment_create_checked _ _ _ _ _ _ Hc)
    as (_ & _ & _ & Hstatus & Hcurrency & _).
  split; [exact Hstatus | exact Hcurrency].
Defined.

(** ** Bookings through [create_booking] *)

Lemma copy_field_other (top : record) (key other : string) (d : record) :
  key ≠ other →
  BookingService.copy_field top key d !! other = d !! other.
Proof.
  intros Hne. unfold BookingService.copy_field.
  destruct (top !! key); [by rewrite lookup_insert_ne | done].
Qed.

Lemma transform_has_no_property (request : BookingService.frontend_request)
    (transformed_data : record) :
  BookingService._transform_frontend_booking_data request = Ok transformed_data →
  transformed_data !! "property_id" = None
  ∧ nonempty transformed_data = true.
Proof.
  unfold BookingService._transform_frontend_booking_data.
  destruct (match BookingService.guestCount request with
            | Some _ => _ | None => _ end) as [guests|e];
    cbn [mbind result_bind]; [|done].
  intros [= <-]. split.
  - rewrite !copy_field_other by done. rewrite !lookup_insert_ne by done.
    by apply lookup_singleton_ne.
  - apply (nonempty_lookup "room_id"
             (get (BookingService.fields request) "roomId")).
    rewrite !copy_field_other by done. rewrite !lookup_insert_ne by done.
    apply lookup_singleton_eq.
Qed.

Section CreateBooking.
Variable fromisoformat_date : string → option Py.date.
Variable today : Py.date.

Lemma booking_create_needs_property (st : fs) (data : record) (ts : string) :
  data !! "property_id" = None →
  nonempty data = true →
  BaseService.create (BookingService.service fromisoformat_date today) st data ts
  = Err (ValidationError "Field 'property_id' is required").
Proof.
  intros Hno Hne.
  apply (create_after_validate_err
           (BookingService.service fromisoformat_date today) st data ts
           (ValidationError "Field 'property_id' is required")).
  cbn [BaseService.validate_data BookingService.service].
  unfold BookingService.validate_data, BaseService.base_validate_data.
  rewrite Hne. cbn [mbind result_bind]. rewrite String.eqb_refl.
  unfold BookingService.required_fields. cbn [ReviewService.check_required].
  unfold has_key. by rewrite Hno.
Qed.

Lemma calculate_total_price_err (st : fs) (data : record) (e : exn) :
  BookingService.calculate_total_price fromisoformat_date st data = Err e →
  e = ValidationError "Failed to calculate booking price".
Proof.
  unfold BookingService.calculate_total_price.
  destruct (BookingService.total_price _ _ _); [done | by intros [= <-]].
Qed.

Lemma create_booking_frontend_cases (st : fs)
    (request : BookingService.frontend_request) (ts : string) :
  has_key (BookingService.fields request) "roomId"
    || has_key (BookingService.fields request) "startDate" = true →
  (∃ e, BookingService._transform_frontend_booking_data request = Err e
        ∧ BookingService.create_booking fromisoformat_date today st request ts
          = Err e)
  ∨ BookingService.create_booking fromisoformat_date today st request ts
    = Err (ValidationError "Failed to calculate booking price")
  ∨ BookingService.create_booking fromisoformat_date today st request ts
    = Err (ValidationError "Field 'property_id' is required").
Proof.
  intros Hfront. unfold BookingService.create_booking. rewrite Hfront.
  destruct (BookingService._transform_frontend_booking_data request)
    as [d|e] eqn:Ht; cbn [mbind result_bind]; [|left; eauto].
  right. apply transform_has_no_property in Ht as [Hno Hne].
  destruct (Py.eq (get_or d "total_price" (Py.VInt 0)) (Py.VInt 0)).
  - destruct (BookingService.calculate_total_price _ st d) as [total|e] eqn:Hp;
      cbn [mbind result_bind].
    + right. apply booking_create_needs_property.
      * by rewrite lookup_insert_ne.
      * apply nonempty_insert.
    + left. by apply calculate_total_price_err in Hp as ->.
  - cbn [mbind result_bind]. right. by apply booking_create_needs_property.
Qed.

End CreateBooking.

(** X22. [create_booking] never creates a booking from a request in the
    front-end format, one with a ["roomId"] or a ["startDate"]: the
    transformed request has no ["property_id"], which the validation of
    [create] requires.  The call raises what the transformation raised, or
    the [ValidationError] of the price calculation, or that of the missing
    field. *)
Theorem create_booking_frontend_refused
    (fromisoformat_date : string → option Py.date) (today : Py.date) (st : fs)
    (request : BookingService.frontend_request) (ts : string) :
  has_key (BookingService.fields request) "roomId"
    || has_key (BookingService.fields request) "startDate" = true →
  is_ok (BookingService.create_booking fromisoformat_date today st request ts)
  = false
  ∧ ((∃ e, BookingService._transform_frontend_booking_data request = Err e
           ∧ BookingService.create_booking fromisoformat_date today st request ts
             = Err e)
     ∨ BookingService.create_booking fromisoformat_date today st request ts
       = Err (ValidationError "Failed to calculate booking price")
     ∨ BookingService.create_booking fromisoformat_date today st request ts
       = Err (ValidationError "Field 'property_id' is required")).
Proof.
  intros Hfront.
  pose proof (create_booking_frontend_cases fromisoformat_date today st request
                ts Hfront) as Hcases.
  split; [|exact Hcases].
  destruct Hcases as [(e & _ & ->) | [-> | ->]]; reflexivity.
Qed.

Lemma create_booking_frontend_refused_witness :
  is_ok (BookingService.create_booking IsoDate.fromisoformat_date
           (Example.d 2024 5 1) cabin_world june_frontend_request
           "2024-05-01T10:00:00") = false.
Proof.
  exact (proj1 (create_booking_frontend_refused IsoDate.fromisoformat_date
                  (Example.d 2024 5 1) cabin_world june_frontend_request
                  "2024-05-01T10:00:00" eq_refl)).
Defined.

(** X23. A booking that [create_booking] does create comes from a request
    in the back-end format that names the room under ["property_id"], and,
    when it gives no total price other than 0, under ["room_id"] as well:
    the price is then the one [calculate_total_price] finds, stored with the
    booking. *)
Theorem create_booking_needs_both_ids
    (fromisoformat_date : string → option Py.date) (today : Py.date)
    (st st' : fs) (request : BookingService.frontend_request) (ts : string)
    (booking : record) :
  BookingService.create_booking fromisoformat_date today st request ts
  = Ok (booking, st') →
  has_key (BookingService.fields request) "roomId" = false
  ∧ has_key (BookingService.fields request) "startDate" = false
  ∧ is_Some (BookingService.fields request !! "property_id")
  ∧ (Py.eq (get_or (BookingService.fields request) "total_price" (Py.VInt 0))
       (Py.VInt 0) = true →
     is_Some (BookingService.fields request !! "room_id")
     ∧ ∃ total,
         BookingService.calculate_total_price fromisoformat_date st
           (BookingService.fields request) = Ok total
         ∧ booking !! "total_price" = Some (Py.of_num total))
  ∧ (Py.eq (get_or (BookingService.fields request) "total_price" (Py.VInt 0))
       (Py.VInt 0) = false →
     booking !! "total_price" = BookingService.fields request !! "total_price").
Proof.
  intros Hc.
  destruct (has_key (BookingService.fields request) "roomId"
            || has_key (BookingService.fields request) "startDate") eqn:Hfront.
  { destruct (create_booking_frontend_cases fromisoformat_date today st request
                ts Hfront) as [(e & _ & He) | [He | He]];
      rewrite He in Hc; discriminate Hc. }
  apply orb_false_elim in Hfront as [Hroom Hstart].
  do 2 (split; [assumption|]).
  revert Hc. unfold BookingService.create_booking.
  rewrite Hroom, Hstart. cbn [orb mbind result_bind].
  destruct (Py.eq _ _) eqn:Hzero.
  - destruct (BookingService.calculate_total_price _ st _) as [total|e] eqn:Hp;
      cbn [mbind result_bind]; [|intros Hstop; discriminate Hstop].
    intros Hc.
    apply booking_create_inv in Hc as (vd & n & Hv & -> & _).
    destruct (booking_validate_create_inv _ _ st st _ vd Hv eq_refl eq_refl)
      as (property_id & ? & ? & ? & ? & ? & ? & Hpid & _ & _ & _ & _ & _ & _
          & _ & _ & _ & _ & _ & -> & _).
    rewrite lookup_insert_ne in Hpid by done.
    split; [by rewrite Hpid|]. split; [|intros Hstop; discriminate Hstop].
    intros _. split.
    + revert Hp. unfold BookingService.calculate_total_price,
        BookingService.total_price.
      destruct (BookingService.fields request !! "room_id"); [by eauto|].
      intros Hstop; discriminate Hstop.
    + exists total. split; [reflexivity|].
      apply created_item_lookup; [done..|].
      unfold has_key. destruct (_ !! "status").
      * apply lookup_insert_eq.
      * rewrite lookup_insert_ne by done. apply lookup_insert_eq.
  - cbn [mbind result_bind]. intros Hc.
    apply booking_create_inv in Hc as (vd & n & Hv & -> & _).
    destruct (booking_validate_create_inv _ _ st st _ vd Hv eq_refl eq_refl)
      as (property_id & ? & ? & ? & ? & ? & ? & Hpid & _ & _ & _ & _ & _ & _
          & _ & _ & _ & _ & _ & -> & _).
    split; [by rewrite Hpid|]. split; [intros Hstop; discriminate Hstop|].
    intros _.
    assert (∃ v, BookingService.fields request !! "total_price" = Some v)
      as [v Hv'].
    { unfold get_or in Hzero.
      destruct (BookingService.fields request !! "total_price"); [eauto|].
      cbn in Hzero. discriminate Hzero. }
    rewrite Hv'. apply created_item_lookup; [done..|].
    unfold has_key. destruct (_ !! "status"); [done|].
    by rewrite lookup_insert_ne.
Qed.

Lemma create_booking_needs_both_ids_witness :
  ∃ booking st',
    BookingService.create_booking IsoDate.fromisoformat_date (Example.d 2024 5 1)
      cabin_world june_backend_request "2024-05-01T10:00:00"
    = Ok (booking, st')
    ∧ booking !! "total_price" = Some (Py.VFloat 345%float).
Proof.
  assert (is_ok (BookingService.create_booking IsoDate.fromisoformat_date
                   (Example.d 2024 5 1) cabin_world june_backend_request
                   "2024-05-01T10:00:00") = true) as Hrun
    by (vm_compute; reflexivity).
  destruct (BookingService.create_booking _ _ _ _ _) as [[booking st']|e] eqn:Hc;
    [|discriminate Hrun].
  exists booking, st'. split; [reflexivity|].
  destruct (create_booking_needs_both_ids _ _ _ _ _ _ _ Hc)
    as (_ & _ & _ & Hzero & _).
  destruct (Hzero eq_refl) as (_ & total & Hcalc & Hprice).
  clear - Hcalc Hprice.
  assert (BookingService.calculate_total_price IsoDate.fromisoformat_date
            cabin_world (BookingService.fields june_backend_request)
          = Ok (Py.NFloat 345%float)) as Hrun by (vm_compute; reflexivity).
  rewrite Hrun in Hcalc. injection Hcalc as <-. exact Hprice.
Defined.

(** ** Reviews: the pages of a property *)

Lemma slice_to_zero {A} (l : list A) (start : Z) :
  Py.slice l start (Z.min (start + - start) (Z.of_nat (length l))) = [].
Proof.
  unfold Py.slice, Py.slice_index.
  replace (start + - start) with 0 by lia.
  rewrite Z.min_l by lia. cbn [Z.ltb Z.compare].
  rewrite Z.min_l by lia.
  replace (Z.to_nat (0 - _)) with 0%nat; [done|].
  destruct (start <? 0) eqn:Hs; lia.
Qed.

(** X24. The pages of [get_property_reviews] count from 1: page 0, the
    default, is empty whatever the limit and the reviews on file; page
    [p >= 1] with a limit that is not negative holds the reviews from
    position [(p - 1) * limit] on, at most [limit] of them, in the order of
    the sort. *)
Theorem get_property_reviews_pages (st : fs) (property_id : Py.value)
    (limit : Z) (public_only : bool) :
  ReviewService.get_property_reviews st property_id 0 limit public_only = []
  ∧ ∀ page sorted_reviews,
      1 ≤ page → 0 ≤ limit →
      ReviewService.sorted_desc
        (if public_only
         then ReviewService.public_reviews st property_id
         else ReviewService.find_by_field st "property_id" property_id)
      = Ok sorted_reviews →
      ReviewService.get_property_reviews st property_id page limit public_only
      = ReviewService.enrich_review_with_guest st
          <$> take (Z.to_nat limit)
                (drop (Z.to_nat ((page - 1) * limit)) sorted_reviews).
Proof.
  unfold ReviewService.get_property_reviews, ReviewService.public_reviews.
  split.
  - destruct (ReviewService.sorted_desc _) as [sorted_reviews|e]; [|done].
    replace ((0 - 1) * limit) with (- limit) by lia.
    replace (- limit + limit) with (- limit + - - limit) by lia.
    by rewrite slice_to_zero.
  - intros page sorted_reviews Hpage Hlimit Hsorted.
    destruct public_only; rewrite Hsorted; by rewrite slice_page by nia.
Qed.

(** ** Reviews: the listing *)

Lemma insert_desc_perm (x : record) (l l' : list record) :
  ReviewService.insert_desc x l = Ok l' → l' ≡ₚ x :: l.
Proof.
  revert l'. induction l as [|y l IH]; intros l'; cbn.
  - by intros [= <-].
  - destruct (Py.lt _ _) as [[|]|]; cbn; [|by intros [= <-]|done].
    destruct (ReviewService.insert_desc x l) as [s|]; cbn; [|done].
    intros [= <-]. rewrite (IH s eq_refl). apply Permutation_swap.
Qed.

Lemma sorted_desc_perm (l l' : list record) :
  ReviewService.sorted_desc l = Ok l' → l' ≡ₚ l.
Proof.
  revert l'. induction l as [|x l IH]; intros l'; cbn.
  - by intros [= <-].
  - destruct (ReviewService.sorted_desc l) as [s|]; cbn; [|done].
    intros Hins. apply insert_desc_perm in Hins. by rewrite Hins, (IH s).
Qed.

Lemma slice_subseteq {A} (l : list A) (start stop : Z) :
  Py.slice l start stop ⊆ l.
Proof.
  unfold Py.slice. etrans; [apply subseteq_take | apply subseteq_drop].
Qed.

(** X25. [get_reviews] looks at the first 100 records of the reviews file
    and at no other: whatever the page and the limit, every review it
    returns is among them, and has the property id and the guest id asked
    for where one is given. *)
Theorem get_reviews_first_hundred (st : fs) (property_id guest_id : Py.value)
    (page limit : Z) (reviews : list record) :
  ReviewService.get_reviews st property_id guest_id page limit = Ok reviews →
  ∀ review, review ∈ reviews →
    review ∈ take 100 (DataManager.load DataManager.reviews_manager st
                         "property_reviews.json")
    ∧ (property_id ≠ Py.VNone →
       Py.eq (get review "property_id") property_id = true)
    ∧ (guest_id ≠ Py.VNone → Py.eq (get review "guest_id") guest_id = true).
Proof.
  unfold ReviewService.get_reviews.
  destruct (ReviewService.sorted_desc _) as [sorted_reviews|e] eqn:Hsorted;
    cbn [mbind result_bind]; [|done].
  intros [= <-] review Hin.
  apply slice_subseteq in Hin. apply sorted_desc_perm in Hsorted.
  rewrite Hsorted in Hin. clear Hsorted.
  assert (BaseService.get_all ReviewService.service st 0 100 None
          = take 100 (DataManager.load DataManager.reviews_manager st
                        "property_reviews.json")) as Hall.
  { unfold BaseService.get_all.
    by rewrite slice_page by lia. }
  rewrite Hall in Hin. clear Hall.
  assert (∀ (key : string) (wanted : Py.value) (l : list record),
            review ∈ match wanted with
                     | Py.VNone => l
                     | _ => List.filter (λ r, Py.eq (get r key) wanted) l
                     end →
            review ∈ l ∧ (wanted ≠ Py.VNone → Py.eq (get review key) wanted = true))
    as Hfilter.
  { intros key wanted l Hl.
    destruct wanted; [by split|..];
      apply list_elem_of_In, List.filter_In in Hl as [Hl Heq];
      (split; [by apply list_elem_of_In | done]). }
  apply Hfilter in Hin as [Hin Hguest].
  apply Hfilter in Hin as [Hin Hproperty].
  done.
Qed.

Lemma get_reviews_first_hundred_witness :
  ∃ reviews,
    ReviewService.get_reviews Example.rated_reviews (Py.VInt 2) Py.VNone 1 10
    = Ok reviews
    ∧ ∀ review, review ∈ reviews →
        Py.eq (get review "property_id") (Py.VInt 2) = true.
Proof.
  assert (is_ok (ReviewService.get_reviews Example.rated_reviews (Py.VInt 2)
                   Py.VNone 1 10) = true) as Hrun by (vm_compute; reflexivity).
  destruct (ReviewService.get_reviews _ _ _ _ _) as [reviews|e] eqn:Hg;
    [|discriminate Hrun].
  exists reviews. split; [reflexivity|]. intros review Hin.
  destruct (get_reviews_first_hundred _ _ _ _ _ _ Hg review Hin) as (_ & Hp & _).
  apply Hp. discriminate.
Defined.

(** ** Bookings: a cancellation frees the dates *)

(** X26. In a bookings file without repeated records, once a booking is
    cancelled a range of dates is available for a room whenever no other
    booking of the room stood in its way before. *)
Theorem cancel_booking_frees_dates
    (fromisoformat_date : string → option Py.date) (today : Py.date)
    (st st' : fs) (booking_id : Py.value) (reason : option string)
    (cancelled_at ts : string) (booking booking' : record) :
  BookingService.cancel_booking fromisoformat_date today st booking_id reason
    cancelled_at ts = Ok (booking', st') →
  BaseService.get_by_id (BookingService.service fromisoformat_date today) st
    booking_id = Ok booking →
  NoDup (DataManager.load DataManager.bookings_manager st "bookings.json") →
  ∀ property_id check_in check_out,
    (∀ other,
        other ∈ BookingService.find_by_field st "property_id" property_id →
        other ≠ booking →
        BookingService.conflicts fromisoformat_date check_in check_out other
        = Ok false) →
    BookingService._check_availability fromisoformat_date st' property_id
      check_in check_out = true.
Proof.
  intros Hcancel Hget Hnodup property_id check_in check_out Hothers.
  assert (∀ ci co, BookingService.conflicts fromisoformat_date ci co booking'
                   = Ok false) as Hfree.
  { revert Hcancel. unfold BookingService.cancel_booking.
    rewrite Hget. cbn [mbind result_bind].
    destruct (Py.elem_of_list _ _); [done|].
    intros Hup ci co.
    apply service_update_fields in Hup as (vd & stored & Hv & _ & -> & _).
    cbn in Hv. apply booking_validate_update in Hv as ->.
    unfold BookingService.conflicts, get.
    rewrite (updated_item_lookup _ _ _ "status" (Py.VStr "cancelled"));
      [done..|].
    destruct reason as [r|]; [destruct (String.eqb r "")|]; done. }
  assert (∃ i,
            DataManager.load DataManager.bookings_manager st "bookings.json" !! i
            = Some booking
            ∧ DataManager.load DataManager.bookings_manager st' "bookings.json"
              = <[i := booking']>
                  (DataManager.load DataManager.bookings_manager st
                     "bookings.json")) as (i & Hi & Hl).
  { revert Hcancel. unfold BookingService.cancel_booking.
    rewrite Hget. cbn [mbind result_bind].
    destruct (Py.elem_of_list _ _); [done|].
    intros Hup.
    apply service_update_fields in Hup as (vd & stored & _ & Hget' & _ & Hup).
    rewrite Hget in Hget'. injection Hget' as <-.
    apply get_by_id_found in Hget. cbn in Hget, Hup.
    apply update_inv_find in Hup as (i & item & Hfind & Hi & _ & _ & _ & Hl).
    rewrite Hget in Hfind. injection Hfind as <-. eauto. }
  destruct (BookingService._check_availability _ st' property_id _ _) eqn:Hav;
    [done|].
  apply check_availability_false in Hav as (other & Hin & Hconflict).
  destruct Hconflict.
  unfold BookingService.find_by_field, DataManager.find_by_field,
    BookingService.get_primary_file in Hin, Hothers.
  rewrite Hl in Hin.
  apply list_elem_of_In, List.filter_In in Hin as [Hin Hproperty].
  apply list_elem_of_In, list_elem_of_lookup in Hin as [j Hj].
  apply list_lookup_insert_Some in Hj as [(<- & <- & _) | (Hne & Hj)];
    [apply Hfree|].
  apply Hothers.
  - apply list_elem_of_In, List.filter_In. split; [|done].
    apply list_elem_of_In, list_elem_of_lookup. eauto.
  - intros ->. by apply Hne, (NoDup_lookup _ i j booking Hnodup).
Qed.

Lemma cancel_booking_frees_dates_witness :
  BookingService._check_availability IsoDate.fromisoformat_date two_june_bookings
    (Py.VInt 7) (Example.d 2024 6 2) (Example.d 2024 6 3) = false
  ∧ ∃ booking' st',
      BookingService.cancel_booking IsoDate.fromisoformat_date
        (Example.d 2024 5 1) two_june_bookings (Py.VInt 1) None
        "2024-05-01T10:00:00" "2024-05-01T10:00:01" = Ok (booking', st')
      ∧ BookingService._check_availability IsoDate.fromisoformat_date st'
          (Py.VInt 7) (Example.d 2024 6 2) (Example.d 2024 6 3) = true.
Proof.
  split; [vm_compute; reflexivity|].
  assert (is_ok (BookingService.cancel_booking IsoDate.fromisoformat_date
        (Example.d 2024 5 1) two_june_bookings (Py.VInt 1) None
        "2024-05-01T10:00:00" "2024-05-01T10:00:01") = true) as Hrun
    by (vm_compute; reflexivity).
  destruct (BookingService.cancel_booking _ _ _ _ _ _ _)
    as [[booking' st']|e] eqn:Hc; [|discriminate Hrun].
  exists booking', st'. split; [reflexivity|].
  apply (cancel_booking_frees_dates _ _ _ _ _ _ _ _
           (Example.rec [("id", Py.VInt 1); ("property_id", Py.VInt 7);
                         ("check_in", Py.VStr "2024-06-01");
                         ("check_out", Py.VStr "2024-06-04");
                         ("status", Py.VStr "confirmed")]) _ Hc).
  - vm_compute. reflexivity.
  - assert (DataManager.load DataManager.bookings_manager two_june_bookings
              "bookings.json"
            = [Example.rec [("id", Py.VInt 1); ("property_id", Py.VInt 7);
                    ("check_in", Py.VStr "2024-06-01");
                    ("check_out", Py.VStr "2024-06-04");
                    ("status", Py.VStr "confirmed")];
               Example.rec [("id", Py.VInt 2); ("property_id", Py.VInt 7);
                    ("check_in", Py.VStr "2024-06-01");
                    ("check_out", Py.VStr "2024-06-04");
                    ("status", Py.VStr "cancelled")]]) as ->
      by reflexivity.
    apply NoDup_cons. split; [|apply NoDup_singleton].
    intros Hin. apply list_elem_of_singleton in Hin.
    apply (f_equal (λ r : record, r !! "id")) in Hin.
    vm_compute in Hin. discriminate Hin.
  - intros other Hin Hne. clear Hc Hrun.
    assert (BookingService.find_by_field two_june_bookings "property_id" (Py.VInt 7)
            = [Example.rec [("id", Py.VInt 1); ("property_id", Py.VInt 7);
                    ("check_in", Py.VStr "2024-06-01");
                    ("check_out", Py.VStr "2024-06-04");
                    ("status", Py.VStr "confirmed")];
               Example.rec [("id", Py.VInt 2); ("property_id", Py.VInt 7);
                    ("check_in", Py.VStr "2024-06-01");
                    ("check_out", Py.VStr "2024-06-04");
                    ("status", Py.VStr "cancelled")]]) as Hfound
      by reflexivity.
    rewrite Hfound in Hin. clear Hfound.
    apply elem_of_cons in Hin as [-> | Hin]; [by destruct Hne|].
    apply list_elem_of_singleton in Hin as ->. vm_compute. reflexivity.
Defined.
